(** * SecureBank: account ledger, transaction limits and references

    A shallow embedding of the Django models of [accounts/models.py] and
    [transactions/models.py] (and of the [generate_reference] methods the
    other apps repeat), with the properties the specification states
    about them.

    Conventions.
    - A [Decimal] with two decimal places is the integer number of
      hundredths, so [Decimal("100000.00")] is [whole 100000].  All
      amounts of the models have at most 15 digits, far below the 28
      digits of Python's decimal context: sums and comparisons are exact.
    - [CharField]s with [choices] stay strings, as in the source: Django
      does not enforce the choices when a row is saved.
    - A method of a model receives the mutable instance [self]; methods
      that write are embedded with the instance (and the tables they
      touch) passed in and returned.
    - [random], [uuid] and the clock are inputs: a stream of draws
      [entropy] read at a position that every draw advances, and the
      successive readings [now 0], [now 1], ... of [timezone.now()]
      during a call.  The [while True] loops take fuel; running out of
      it is the outcome [Diverge].
    - A Python [float] is an IEEE 754 double; its operations are the
      exact ones followed by rounding to the nearest double, ties to
      even. *)

From Stdlib Require Import ZArith List String Ascii Bool Lia DecimalString.
Import ListNotations.
Local Open Scope Z_scope.

(** ** Python values, exceptions and the effects of the model methods *)

Module Py.

Inductive exn : Type :=
| TypeError        (* 'int' object is not subscriptable *)
| ValueError       (* arguments of save() that do not go together *)
| IntegrityError   (* UNIQUE constraint failed *)
| DatabaseError    (* a forced update did not affect any row *)
| InvalidOperation. (* a decimal has more digits than its column *)

Inductive outcome (A : Type) : Type :=
| Ok (a : A)
| Raise (e : exn)
| Diverge.

Arguments Ok {A} a.
Arguments Raise {A} e.
Arguments Diverge {A}.

(** Computations that draw from the random stream: the position in the
    stream is threaded through, an exception aborts. *)
Definition Rand (A : Type) : Type := nat -> outcome (A * nat).

Definition ret {A} (a : A) : Rand A := fun pos => Ok (a, pos).

Definition bind {A B} (c : Rand A) (k : A -> Rand B) : Rand B :=
  fun pos =>
    match c pos with
    | Ok (a, pos') => k a pos'
    | Raise e => Raise e
    | Diverge => Diverge
    end.

Definition raise {A} (e : exn) : Rand A := fun _ => Raise e.

Definition diverge {A} : Rand A := fun _ => Diverge.

Definition lift {A} (o : outcome A) : Rand A :=
  fun pos =>
    match o with
    | Ok a => Ok (a, pos)
    | Raise e => Raise e
    | Diverge => Diverge
    end.

(** The values [generate_reference] handles: ints and strs. *)
Inductive value : Type :=
| PyInt (n : Z)
| PyStr (s : string).

(** [str(v)] *)
Definition str (v : value) : string :=
  match v with
  | PyInt n => NilZero.string_of_int (Z.to_int n)
  | PyStr s => s
  end.

(** [v[:n]]: a str is sliced, an int has no [__getitem__]. *)
Definition slice_to (v : value) (n : nat) : outcome value :=
  match v with
  | PyStr s => Ok (PyStr (substring 0 n s))
  | PyInt _ => Raise TypeError
  end.

(** [not s] for a str: only the empty string is falsy. *)
Definition not_ (s : string) : bool :=
  match s with
  | EmptyString => true
  | String _ _ => false
  end.

(** [x in xs] for a list of strs. *)
Definition in_ (x : string) (xs : list string) : bool :=
  existsb (String.eqb x) xs.

(** [string.ascii_uppercase + string.digits] *)
Definition ascii_uppercase_digits : string :=
  "ABCDEFGHIJKLMNOPQRSTUVWXYZ0123456789"%string.

Section Random.
Variable entropy : nat -> Z.

(** One draw below [n], as [random._randbelow(n)]. *)
Definition randbelow (n : Z) : Rand Z :=
  fun pos => Ok (entropy pos mod n, S pos).

(** [random.randint(a, b)] *)
Definition randint (a b : Z) : Rand Z :=
  bind (randbelow (b - a + 1)) (fun r => ret (a + r)).

(** [random.choices(population, k=k)]: [k] independent draws, each
    [population[floor(random() * len(population))]]. *)
Fixpoint choices (population : string) (k : nat) : Rand string :=
  match k with
  | O => ret EmptyString
  | S k' =>
      bind (randbelow (Z.of_nat (String.length population))) (fun i =>
      bind (choices population k') (fun rest =>
      ret (match String.get (Z.to_nat i) population with
           | Some c => String c rest
           | None => rest
           end)))
  end.

(** [uuid.uuid4().int]: 128 random bits with the variant and version
    bits of an RFC 4122 version 4 UUID set. *)
Definition uuid4_int : Rand Z :=
  bind (randbelow (2 ^ 128)) (fun r =>
    let r := Z.land r (Z.lnot (Z.shiftl 49152 48)) in
    let r := Z.lor r (Z.shiftl 32768 48) in
    let r := Z.land r (Z.lnot (Z.shiftl 61440 64)) in
    ret (Z.lor r (Z.shiftl 4 76))).
End Random.

End Py.

Import Py.

Notation "x <- c ;; k" := (bind c (fun x => k))
  (at level 61, c at next level, right associativity).

(** ** Money and time *)

Definition Decimal : Type := Z.

(** [whole n] is [Decimal("n.00")]. *)
Definition whole (n : Z) : Decimal := 100 * n.

(** A [datetime] is its number of microseconds since the epoch. *)
Definition datetime : Type := Z.

(** A calendar date, as a day number. *)
Definition date : Type := Z.

(** [datetime.max], 9999-12-31 23:59:59.999999 UTC. *)
Definition datetime_max : datetime := 253402300799999999.

(** ** Floats

    Every finite double is an integer multiple of [2^-1074], the
    smallest positive one: a [float] is kept as that integer.  The
    doubles that are at least [2^(e+52)] in magnitude, and below
    [2^(e+53)], are the multiples of [2^e] (for [e >= 0], in these
    units); below [2^52] every multiple of the unit is a double.  The
    largest double is beyond every number computed from a [datetime]:
    overflow is left out. *)

Definition float : Type := Z.

Definition float_unit : Z := 2 ^ 1074.

(** The integer nearest to [n / d], the even one of two equally near. *)
Definition round_half_even (n d : Z) : Z :=
  let (q, r) := Z.div_eucl n d in
  match 2 * r ?= d with
  | Lt => q
  | Gt => q + 1
  | Eq => if Z.even q then q else q + 1
  end.

(** The double nearest to [n / d] units: the nearest multiple of the
    spacing of the doubles around it. *)
Definition nearest (n d : Z) : float :=
  let ulp := 2 ^ Z.max 0 (Z.log2 (Z.abs n / d) - 52) in
  ulp * round_half_even n (d * ulp).

(** [a / b] on ints (true division is correctly rounded), [float(n)],
    [x * y] on floats, and [int(x)], which truncates towards zero. *)
Definition true_divide (a b : Z) : float := nearest (a * float_unit) b.

Definition float_of_int (n : Z) : float := nearest (n * float_unit) 1.

Definition float_mul (x y : float) : float := nearest (x * y) float_unit.

Definition int_of_float (x : float) : Z := Z.quot x float_unit.

(** [dt.timestamp()] of an aware datetime, as [timezone.now()] gives
    under [USE_TZ]: [(dt - EPOCH).total_seconds()], the microseconds
    divided by [10**6]. *)
Definition timestamp (dt : datetime) : float := true_divide dt (10 ^ 6).

(** [int(dt.timestamp() * 1000)] *)
Definition timestamp_ms (dt : datetime) : Z :=
  int_of_float (float_mul (timestamp dt) (float_of_int 1000)).

(** ** The reference generator

    [Transaction], [CryptoTransaction], [GiftCardTransaction],
    [PaymentTransaction], [Refund], [AirtimeTopUp], [BillPayment] and
    [SchoolFeePayment] each define the same [generate_reference]; the
    methods differ in the prefix and in the table whose references are
    searched. *)

Section GenerateReference.
Variable entropy : nat -> Z.
Variable prefix : string.
(** [self.created_at]: [None] until the row is first inserted. *)
Variable created_at : option datetime.
(** The references of the rows of the model's table. *)
Variable stored : list string.

(** [Model.objects.filter(reference=reference).exists()] *)
Definition reference_exists (reference : string) : bool :=
  existsb (String.eqb reference) stored.

(** The conditional expression that computes [timestamp]. *)
Definition reference_timestamp : Rand string :=
  match created_at with
  | Some dt => ret (str (PyInt (timestamp_ms dt)))
  | None =>
      u <- uuid4_int entropy ;;
      v <- lift (slice_to (PyInt u) 10) ;;
      ret (str v)
  end.

(** One iteration of the loop body, up to the test. *)
Definition reference_candidate : Rand string :=
  timestamp <- reference_timestamp ;;
  random_str <- choices entropy ascii_uppercase_digits 8 ;;
  ret (prefix ++ timestamp ++ random_str)%string.

Fixpoint generate_reference (fuel : nat) : Rand string :=
  match fuel with
  | O => diverge
  | S fuel' =>
      reference <- reference_candidate ;;
      if negb (reference_exists reference)
      then ret reference
      else generate_reference fuel'
  end.
End GenerateReference.

(** The instances of the method in the other apps. *)
Definition CryptoTransaction_generate_reference (entropy : nat -> Z) :=
  generate_reference entropy "CRX".
Definition GiftCardTransaction_generate_reference (entropy : nat -> Z) :=
  generate_reference entropy "GFT".
Definition PaymentTransaction_generate_reference (entropy : nat -> Z) :=
  generate_reference entropy "PAY".
Definition Refund_generate_reference (entropy : nat -> Z) :=
  generate_reference entropy "REF".
Definition AirtimeTopUp_generate_reference (entropy : nat -> Z) :=
  generate_reference entropy "AIR".
Definition BillPayment_generate_reference (entropy : nat -> Z) :=
  generate_reference entropy "BIL".
Definition SchoolFeePayment_generate_reference (entropy : nat -> Z) :=
  generate_reference entropy "SCH".

(** The models with a reference besides [Transaction], each with its
    [generate_reference], run on an instance with the given
    [created_at] and a table with the given references. *)
Inductive reference_model : Type :=
| CryptoTransaction
| GiftCardTransaction
| PaymentTransaction
| Refund
| AirtimeTopUp
| BillPayment
| SchoolFeePayment.

Definition model_generate_reference (m : reference_model)
           (entropy : nat -> Z)
  : option datetime -> list string -> nat -> Rand string :=
  match m with
  | CryptoTransaction => CryptoTransaction_generate_reference entropy
  | GiftCardTransaction => GiftCardTransaction_generate_reference entropy
  | PaymentTransaction => PaymentTransaction_generate_reference entropy
  | Refund => Refund_generate_reference entropy
  | AirtimeTopUp => AirtimeTopUp_generate_reference entropy
  | BillPayment => BillPayment_generate_reference entropy
  | SchoolFeePayment => SchoolFeePayment_generate_reference entropy
  end.

(** The runs of the loop, for the statements below: the suffix that eight
    draws from position [pos] spell, and the candidate of the [j]-th
    iteration of a run that starts at [pos], each iteration drawing eight
    times. *)
Definition drawn_suffix (entropy : nat -> Z) (pos : nat) : string :=
  match choices entropy ascii_uppercase_digits 8 pos with
  | Ok (s, _) => s
  | _ => EmptyString
  end.

Definition candidate (entropy : nat -> Z) (prefix : string) (dt : datetime)
           (pos j : nat) : string :=
  (prefix ++ str (PyInt (timestamp_ms dt))
          ++ drawn_suffix entropy (pos + 8 * j))%string.

(** ** Django's [Model.save], as far as the models below rely on it

    [save(force_insert=False, force_update=False, using=None,
    update_fields=None)] writes the instance to its table.  An instance
    built by the constructor ([_state.adding]) is inserted; one loaded
    from its row, or saved before, updates the row of its key, and is
    inserted when no row has the key.  With [update_fields] only the
    named columns are written, and an empty list writes nothing.  The
    fields with [auto_now] and [auto_now_add] are stamped by their
    [pre_save], each from a reading of the clock of its own.

    The refusals modelled are those of the arguments, of a second row
    under one key, of a [unique=True] column whose value another row
    holds, and of a decimal that does not fit the [max_digits] of its
    column.  The [choices] and the validators are not checked by
    [save].  What a backend refuses besides (a foreign key without its
    row, a NULL in a column that takes none, on some backends a string
    longer than its column) is not modelled: the statements about a
    save that succeeded hold of every save that succeeds on the
    database.  [using] only selects the database; the tables below are
    those of the database written.  Instances with deferred fields are
    not modelled. *)

(** A value of a [DecimalField(max_digits=n, decimal_places=2)]: at most
    [n] digits, the two decimal places included. *)
Definition fits (max_digits : Z) (v : Decimal) : bool :=
  Z.abs v <? 10 ^ max_digits.

(** The arguments of [save], as [*args] and [**kwargs] bind them. *)
Record save_kwargs : Type := {
  force_insert : bool;
  force_update : bool;
  update_fields : option (list string)
}.

(** [save()] *)
Definition no_kwargs : save_kwargs := {|
  force_insert := false;
  force_update := false;
  update_fields := None
|}.

(** The truth value of [update_fields]: [None] and the empty list are
    falsy. *)
Definition given (update_fields : option (list string)) : bool :=
  match update_fields with
  | Some (_ :: _) => true
  | _ => false
  end.

(** The columns a save writes: those named by [update_fields], or all. *)
Definition written (kwargs : save_kwargs) (field : string) : bool :=
  match update_fields kwargs with
  | Some fields => in_ field fields
  | None => true
  end.

Definition every_column (field : string) : bool := true.

Section ModelSave.
Context {Row : Type}.
Variable pk : Row -> Z.
(** [self._state.adding], and the instance once [save] has set it to
    [False]. *)
Variable adding : Row -> bool.
Variable saved : Row -> Row.
(** The column with [unique=True]. *)
Variable unique_name : string.
Variable unique_column : Row -> string.
(** The names [update_fields] may hold: the concrete fields but the
    key, by name and by attribute name. *)
Variable field_names : list string.
(** The decimals among the columns written fit their columns. *)
Variable columns_fit : (string -> bool) -> Row -> bool.
(** [Field.pre_save(self, add)] over the columns written, in the order
    of the fields: the instance it leaves and the number of readings of
    the clock it took. *)
Variable pre_save : bool -> (string -> bool) -> (nat -> datetime) -> Row
                    -> Row * nat.
(** A stored row with the columns written taken from the instance. *)
Variable update_columns : (string -> bool) -> Row -> Row -> Row.

Definition pk_exists (row : Row) (table : list Row) : bool :=
  existsb (fun r => pk r =? pk row) table.

Definition unique_violation (row : Row) (table : list Row) : bool :=
  existsb (fun r => negb (pk r =? pk row)
                    && String.eqb (unique_column r) (unique_column row))
          table.

(** The table once a whole row is written under its key: the row of
    the key is replaced, or the row is appended.  It is what a save of
    the whole row leaves, and serves to state it. *)
Definition write_row (row : Row) (table : list Row) : list Row :=
  if pk_exists row table
  then map (fun r => if pk r =? pk row then row else r) table
  else table ++ [row].

(** [_do_insert]: every column is written. *)
Definition do_insert (self : Row) (table : list Row) (now : nat -> datetime)
  : outcome (Row * list Row) :=
  let self := fst (pre_save true every_column now self) in
  if negb (columns_fit every_column self) then Raise InvalidOperation
  else if pk_exists self table || unique_violation self table
       then Raise IntegrityError
       else Ok (saved self, table ++ [saved self]).

(** What an UPDATE leaves in the row of the key. *)
Definition updated_row (kwargs : save_kwargs) (self stored : Row) : Row :=
  match update_fields kwargs with
  | None => saved self
  | Some _ => update_columns (written kwargs) self stored
  end.

Definition do_update (kwargs : save_kwargs) (self : Row) (table : list Row)
  : list Row :=
  map (fun r => if pk r =? pk self then updated_row kwargs self r else r)
      table.

(** [_save_table].  The key of both models has a [default]: a new
    instance is inserted without an UPDATE being tried (later versions
    of Django try the UPDATE under [force_update], as here). *)
Definition save_table (kwargs : save_kwargs) (self : Row) (table : list Row)
           (now : nat -> datetime) : outcome (Row * list Row) :=
  if force_insert kwargs || (adding self && negb (force_update kwargs))
  then do_insert self table now
  else
    let (self, reads) := pre_save false (written kwargs) now self in
    if negb (columns_fit (written kwargs) self) then Raise InvalidOperation
    else if pk_exists self table then
      if written kwargs unique_name && unique_violation self table
      then Raise IntegrityError
      else Ok (saved self, do_update kwargs self table)
    else if force_update kwargs || given (update_fields kwargs)
    then Raise DatabaseError
    else do_insert self table (fun k => now (reads + k)%nat).

(** [Model.save]: the instance and the table after the call. *)
Definition Model_save (kwargs : save_kwargs) (self : Row) (table : list Row)
           (now : nat -> datetime) : outcome (Row * list Row) :=
  if force_insert kwargs
     && (force_update kwargs || given (update_fields kwargs))
  then Raise ValueError
  else
    match update_fields kwargs with
    | Some [] => Ok (self, table)
    | Some fields =>
        if forallb (fun f => in_ f field_names) fields
        then save_table kwargs self table now
        else Raise ValueError
    | None => save_table kwargs self table now
    end.
End ModelSave.

(** ** accounts/models.py *)

Module Accounts.

(** [BankAccount].  [state_adding] is [self._state.adding]; a row of the
    table is kept as the instance a query loads from it, for which it
    is [False].  The columns [account_name], [account_type],
    [currency] and [is_default], which no method reads or assigns, and
    the timestamps [created_at] and [updated_at], which [save] stamps,
    are left out: no statement below is about them. *)
Record BankAccount : Type := {
  state_adding : bool;
  id : Z;
  user : Z;
  account_number : string;
  balance : Decimal;
  available_balance : Decimal;
  frozen_balance : Decimal;
  status : string;
  daily_limit : Decimal;
  single_transaction_limit : Decimal
}.

(** [BankAccount(id=.., user=..)]: every other column at its
    [default=]. *)
Definition new (id user : Z) : BankAccount := {|
  state_adding := true;
  id := id;
  user := user;
  account_number := "";
  balance := whole 0;
  available_balance := whole 0;
  frozen_balance := whole 0;
  status := "ACTIVE";
  daily_limit := whole 500000;
  single_transaction_limit := whole 100000
|}.

Definition set_account_number (self : BankAccount) (number : string)
  : BankAccount := {|
  state_adding := state_adding self;
  id := id self;
  user := user self;
  account_number := number;
  balance := balance self;
  available_balance := available_balance self;
  frozen_balance := frozen_balance self;
  status := status self;
  daily_limit := daily_limit self;
  single_transaction_limit := single_transaction_limit self
|}.

Definition set_state_adding (self : BankAccount) (adding : bool)
  : BankAccount := {|
  state_adding := adding;
  id := id self;
  user := user self;
  account_number := account_number self;
  balance := balance self;
  available_balance := available_balance self;
  frozen_balance := frozen_balance self;
  status := status self;
  daily_limit := daily_limit self;
  single_transaction_limit := single_transaction_limit self
|}.

(** The instance after [self._state.adding = False]. *)
Definition saved (self : BankAccount) : BankAccount :=
  set_state_adding self false.

(** The names [update_fields] may hold. *)
Definition field_names : list string :=
  [ "user"; "user_id"; "account_number"; "account_name"; "account_type";
    "balance"; "available_balance"; "frozen_balance"; "currency";
    "status"; "is_default"; "daily_limit"; "single_transaction_limit";
    "created_at"; "updated_at" ]%string.

Local Open Scope string_scope.

(** The decimal columns all have [max_digits=15]. *)
Definition columns_fit (written : string -> bool) (self : BankAccount)
  : bool :=
  (negb (written "balance") || fits 15 (balance self))
  && (negb (written "available_balance")
      || fits 15 (available_balance self))
  && (negb (written "frozen_balance") || fits 15 (frozen_balance self))
  && (negb (written "daily_limit") || fits 15 (daily_limit self))
  && (negb (written "single_transaction_limit")
      || fits 15 (single_transaction_limit self)).

(** The stored row after an UPDATE of the columns written. *)
Definition update_columns (written : string -> bool)
           (self stored : BankAccount) : BankAccount := {|
  state_adding := state_adding stored;
  id := id stored;
  user := if written "user" || written "user_id"
          then user self else user stored;
  account_number := if written "account_number"
                    then account_number self else account_number stored;
  balance := if written "balance" then balance self else balance stored;
  available_balance := if written "available_balance"
                       then available_balance self
                       else available_balance stored;
  frozen_balance := if written "frozen_balance"
                    then frozen_balance self else frozen_balance stored;
  status := if written "status" then status self else status stored;
  daily_limit := if written "daily_limit"
                 then daily_limit self else daily_limit stored;
  single_transaction_limit :=
    if written "single_transaction_limit"
    then single_transaction_limit self
    else single_transaction_limit stored
|}.

Local Close Scope string_scope.

(** The timestamps are not among the columns kept: [pre_save] leaves
    the instance as it is. *)
Definition pre_save (add : bool) (written : string -> bool)
           (now : nat -> datetime) (self : BankAccount)
  : BankAccount * nat := (self, 0%nat).

(** [@property is_active] *)
Definition is_active (self : BankAccount) : bool :=
  String.eqb (status self) "ACTIVE".

(** [can_withdraw(self, amount)].  The method assigns nothing: the
    instance after the call is the instance before it. *)
Definition can_withdraw (self : BankAccount) (amount : Decimal) : bool :=
  is_active self
  && (amount <=? available_balance self)
  && (amount <=? single_transaction_limit self).

(** A call of a method that only reads: its result and the instance
    it leaves. *)
Definition call {A} (method : BankAccount -> A) (self : BankAccount)
  : A * BankAccount := (method self, self).

Section Save.
Variable entropy : nat -> Z.

(** [BankAccount.objects.filter(account_number=number).exists()] *)
Definition account_number_exists (number : string)
           (table : list BankAccount) : bool :=
  existsb (fun a => String.eqb (account_number a) number) table.

Fixpoint generate_account_number (table : list BankAccount) (fuel : nat)
  : Rand string :=
  match fuel with
  | O => diverge
  | S fuel' =>
      n <- randint entropy 1000000000 9999999999 ;;
      let number := ("209" ++ str (PyInt n))%string in
      if negb (account_number_exists number table)
      then ret number
      else generate_account_number table fuel'
  end.

(** [super().save], with the arguments passed on.  No column kept
    here takes a reading of the clock. *)
Definition super_save (kwargs : save_kwargs) (self : BankAccount)
           (table : list BankAccount)
  : outcome (BankAccount * list BankAccount) :=
  Model_save id state_adding saved "account_number" account_number
             field_names columns_fit pre_save update_columns
             kwargs self table (fun _ => 0).

(** [save(self, *args, **kwargs)]: returns the instance and the table
    [accounts_bank_account] after the call. *)
Definition save (self : BankAccount) (kwargs : save_kwargs)
           (table : list BankAccount) (fuel : nat)
  : Rand (BankAccount * list BankAccount) :=
  self <- (if not_ (account_number self)
           then number <- generate_account_number table fuel ;;
                ret (set_account_number self number)
           else ret self) ;;
  lift (super_save kwargs self table).
End Save.

(** [BankAccountAdmin] (accounts/admin.py): the fields of the change
    form, and those shown read-only. *)
Definition admin_fieldsets : list string :=
  [ "user"; "account_number"; "account_name"; "account_type"; "currency";
    "balance"; "available_balance"; "frozen_balance";
    "daily_limit"; "single_transaction_limit";
    "status"; "is_default";
    "created_at"; "updated_at" ]%string.

Definition admin_readonly_fields : list string :=
  [ "id"; "created_at"; "updated_at" ]%string.

(** A field the admin change form writes from the submitted value. *)
Definition admin_editable (field : string) : bool :=
  in_ field admin_fieldsets && negb (in_ field admin_readonly_fields).

(** [BankAccountSerializer.Meta.read_only_fields]
    (accounts/serializers.py). *)
Definition serializer_read_only_fields : list string :=
  [ "id"; "account_number"; "balance"; "available_balance";
    "frozen_balance"; "created_at"; "updated_at" ]%string.

End Accounts.

(** ** transactions/models.py *)

Module Transactions.

(** The type codes of [TRANSACTION_TYPE_CHOICES]. *)
Definition TRANSACTION_TYPE_CHOICES : list string :=
  [ "TRANSFER"; "DEPOSIT"; "WITHDRAWAL"; "PAYMENT"; "AIRTIME";
    "CRYPTO_BUY"; "CRYPTO_SELL"; "GIFTCARD_BUY"; "GIFTCARD_SELL";
    "SCHOOL_FEE"; "ELECTRIC_BILL"; "REFUND"; "CHARGE" ]%string.

(** The status codes of [STATUS_CHOICES]. *)
Definition STATUS_CHOICES : list string :=
  [ "PENDING"; "PROCESSING"; "COMPLETED"; "FAILED"; "CANCELLED";
    "REVERSED" ]%string.

(** [Transaction].  [state_adding] is [self._state.adding]; a row of the
    table is kept as the instance a query loads from it, for which it
    is [False].  The descriptive columns (currency, recipient,
    narration, priority, OTP flags, device metadata, [processed_at],
    [completed_at]) are left out: no method reads or assigns them, and
    [save] writes them as the instance holds them. *)
Record Transaction : Type := {
  state_adding : bool;
  id : Z;
  reference : string;
  transaction_type : string;
  source_account : option Z;        (* foreign key, nullable *)
  destination_account : option Z;   (* foreign key, nullable *)
  amount : Decimal;
  fee : Decimal;
  tax : Decimal;
  total_amount : option Decimal;    (* no default: unset on a new instance *)
  status : string;
  created_at : option datetime;     (* auto_now_add *)
  updated_at : option datetime      (* auto_now *)
}.

Definition set_reference (self : Transaction) (r : string) : Transaction := {|
  state_adding := state_adding self;
  id := id self;
  reference := r;
  transaction_type := transaction_type self;
  source_account := source_account self;
  destination_account := destination_account self;
  amount := amount self;
  fee := fee self;
  tax := tax self;
  total_amount := total_amount self;
  status := status self;
  created_at := created_at self;
  updated_at := updated_at self
|}.

Definition set_total_amount (self : Transaction) (v : Decimal)
  : Transaction := {|
  state_adding := state_adding self;
  id := id self;
  reference := reference self;
  transaction_type := transaction_type self;
  source_account := source_account self;
  destination_account := destination_account self;
  amount := amount self;
  fee := fee self;
  tax := tax self;
  total_amount := Some v;
  status := status self;
  created_at := created_at self;
  updated_at := updated_at self
|}.

Definition set_status (self : Transaction) (s : string) : Transaction := {|
  state_adding := state_adding self;
  id := id self;
  reference := reference self;
  transaction_type := transaction_type self;
  source_account := source_account self;
  destination_account := destination_account self;
  amount := amount self;
  fee := fee self;
  tax := tax self;
  total_amount := total_amount self;
  status := s;
  created_at := created_at self;
  updated_at := updated_at self
|}.

Definition set_created_at (self : Transaction) (dt : datetime)
  : Transaction := {|
  state_adding := state_adding self;
  id := id self;
  reference := reference self;
  transaction_type := transaction_type self;
  source_account := source_account self;
  destination_account := destination_account self;
  amount := amount self;
  fee := fee self;
  tax := tax self;
  total_amount := total_amount self;
  status := status self;
  created_at := Some dt;
  updated_at := updated_at self
|}.

Definition set_updated_at (self : Transaction) (dt : datetime)
  : Transaction := {|
  state_adding := state_adding self;
  id := id self;
  reference := reference self;
  transaction_type := transaction_type self;
  source_account := source_account self;
  destination_account := destination_account self;
  amount := amount self;
  fee := fee self;
  tax := tax self;
  total_amount := total_amount self;
  status := status self;
  created_at := created_at self;
  updated_at := Some dt
|}.

Definition set_state_adding (self : Transaction) (adding : bool)
  : Transaction := {|
  state_adding := adding;
  id := id self;
  reference := reference self;
  transaction_type := transaction_type self;
  source_account := source_account self;
  destination_account := destination_account self;
  amount := amount self;
  fee := fee self;
  tax := tax self;
  total_amount := total_amount self;
  status := status self;
  created_at := created_at self;
  updated_at := updated_at self
|}.

(** The instance after [self._state.adding = False]. *)
Definition saved (self : Transaction) : Transaction :=
  set_state_adding self false.

(** The names [update_fields] may hold. *)
Definition field_names : list string :=
  [ "reference"; "transaction_type";
    "source_account"; "source_account_id";
    "destination_account"; "destination_account_id";
    "amount"; "currency"; "description"; "narration";
    "recipient_name"; "recipient_account"; "recipient_bank";
    "status"; "priority"; "fee"; "tax"; "total_amount";
    "requires_otp"; "otp_verified"; "verified_by"; "verified_by_id";
    "ip_address"; "user_agent"; "device_id";
    "created_at"; "processed_at"; "completed_at"; "updated_at" ]%string.

Local Open Scope string_scope.

(** [amount] and [total_amount] have [max_digits=15], [fee] and [tax]
    have [max_digits=10]. *)
Definition columns_fit (written : string -> bool) (self : Transaction)
  : bool :=
  (negb (written "amount") || fits 15 (amount self))
  && (negb (written "fee") || fits 10 (fee self))
  && (negb (written "tax") || fits 10 (tax self))
  && (negb (written "total_amount")
      || match total_amount self with
         | Some v => fits 15 v
         | None => true
         end).

(** The stored row after an UPDATE of the columns written. *)
Definition update_columns (written : string -> bool)
           (self stored : Transaction) : Transaction := {|
  state_adding := state_adding stored;
  id := id stored;
  reference := if written "reference"
               then reference self else reference stored;
  transaction_type := if written "transaction_type"
                      then transaction_type self
                      else transaction_type stored;
  source_account :=
    if written "source_account" || written "source_account_id"
    then source_account self else source_account stored;
  destination_account :=
    if written "destination_account" || written "destination_account_id"
    then destination_account self else destination_account stored;
  amount := if written "amount" then amount self else amount stored;
  fee := if written "fee" then fee self else fee stored;
  tax := if written "tax" then tax self else tax stored;
  total_amount := if written "total_amount"
                  then total_amount self else total_amount stored;
  status := if written "status" then status self else status stored;
  created_at := if written "created_at"
                then created_at self else created_at stored;
  updated_at := if written "updated_at"
                then updated_at self else updated_at stored
|}.

(** [pre_save] of the fields, in their order: [created_at]
    ([auto_now_add]) takes a reading of the clock when the row is
    added, [updated_at] ([auto_now]) on every save that writes it. *)
Definition pre_save (add : bool) (written : string -> bool)
           (now : nat -> datetime) (self : Transaction)
  : Transaction * nat :=
  let (self, reads) :=
    if add && written "created_at"
    then (set_created_at self (now 0%nat), 1%nat)
    else (self, 0%nat) in
  if written "updated_at"
  then (set_updated_at self (now reads), S reads)
  else (self, reads).

Local Close Scope string_scope.

(** [@property is_completed], [is_pending], [is_failed] *)
Definition is_completed (self : Transaction) : bool :=
  String.eqb (status self) "COMPLETED".

Definition is_pending (self : Transaction) : bool :=
  String.eqb (status self) "PENDING".

Definition is_failed (self : Transaction) : bool :=
  String.eqb (status self) "FAILED".

(** [can_be_cancelled(self)] *)
Definition can_be_cancelled (self : Transaction) : bool :=
  in_ (status self) ["PENDING"; "PROCESSING"]%string.

(** [can_be_reversed(self)] *)
Definition can_be_reversed (self : Transaction) : bool :=
  String.eqb (status self) "COMPLETED".

(** A call of a method that only reads: its result and the instance
    it leaves. *)
Definition call {A} (method : Transaction -> A) (self : Transaction)
  : A * Transaction := (method self, self).

Section Save.
Variable entropy : nat -> Z.

(** [Transaction.generate_reference]: prefix [TXN], searched in
    [transactions_transaction]. *)
Definition Transaction_generate_reference (self : Transaction)
           (table : list Transaction) (fuel : nat) : Rand string :=
  generate_reference entropy "TXN" (created_at self)
                     (map reference table) fuel.

(** [super().save], with the arguments passed on. *)
Definition super_save (kwargs : save_kwargs) (self : Transaction)
           (table : list Transaction) (now : nat -> datetime)
  : outcome (Transaction * list Transaction) :=
  Model_save id state_adding saved "reference" reference
             field_names columns_fit pre_save update_columns
             kwargs self table now.

(** [save(self, *args, **kwargs)]: returns the instance and the table
    [transactions_transaction] after the call. *)
Definition save (self : Transaction) (kwargs : save_kwargs)
           (table : list Transaction) (now : nat -> datetime) (fuel : nat)
  : Rand (Transaction * list Transaction) :=
  self <- (if not_ (reference self)
           then r <- Transaction_generate_reference self table fuel ;;
                ret (set_reference self r)
           else ret self) ;;
  let self := set_total_amount self (amount self + fee self + tax self) in
  lift (super_save kwargs self table now).
End Save.

(** [TransactionLimit] *)
Record TransactionLimit : Type := {
  user : Z;
  tier : string;
  daily_transfer_limit : Decimal;
  daily_withdrawal_limit : Decimal;
  daily_crypto_limit : Decimal;
  single_transfer_limit : Decimal;
  single_withdrawal_limit : Decimal;
  single_crypto_limit : Decimal;
  monthly_transfer_limit : Decimal;
  monthly_withdrawal_limit : Decimal
}.

(** [TransactionLimit(user=..)]: every ceiling at its [default=]. *)
Definition new_limit (user : Z) : TransactionLimit := {|
  user := user;
  tier := "BASIC";
  daily_transfer_limit := whole 100000;
  daily_withdrawal_limit := whole 50000;
  daily_crypto_limit := whole 200000;
  single_transfer_limit := whole 50000;
  single_withdrawal_limit := whole 20000;
  single_crypto_limit := whole 100000;
  monthly_transfer_limit := whole 2000000;
  monthly_withdrawal_limit := whole 1000000
|}.

Section CheckDailyLimit.
(** The calendar date of a timestamp, as the [__date] lookup extracts
    it in the server's time zone. *)
Variable date_of : datetime -> date.
(** The table [accounts_bank_account], joined through
    [source_account]. *)
Variable accounts : list Accounts.BankAccount.
(** The table [transactions_transaction]. *)
Variable table : list Transaction.

Definition option_eqb (x : option Z) (y : Z) : bool :=
  match x with
  | Some v => v =? y
  | None => false
  end.

(** The join [source_account__user]. *)
Definition source_account__user (t : Transaction) : option Z :=
  match source_account t with
  | Some a =>
      option_map Accounts.user
                 (find (fun acc => Accounts.id acc =? a) accounts)
  | None => None
  end.

Definition created_at__date (t : Transaction) : option date :=
  option_map date_of (created_at t).

(** [Transaction.objects.filter(source_account__user=u, <type lookup>,
    status="COMPLETED", created_at__date=today)] *)
Definition objects_filter (u : Z) (type_lookup : string -> bool)
           (today : date) : list Transaction :=
  filter (fun t => option_eqb (source_account__user t) u
                   && type_lookup (transaction_type t)
                   && String.eqb (status t) "COMPLETED"
                   && option_eqb (created_at__date t) today)
         table.

(** [.aggregate(total=Sum("amount"))["total"]]: [None] over no rows. *)
Definition aggregate_Sum_amount (rows : list Transaction)
  : option Decimal :=
  match rows with
  | [] => None
  | _ :: _ => Some (fold_right Z.add 0 (map amount rows))
  end.

(** [total or Decimal("0.00")]: [None] and a zero total are falsy. *)
Definition or_zero (total : option Decimal) : Decimal :=
  match total with
  | None => whole 0
  | Some v => if v =? 0 then whole 0 else v
  end.

(** [check_daily_limit(self, transaction_type, amount)], with
    [today = timezone.now().date()]. *)
Definition check_daily_limit (self : TransactionLimit) (today : date)
           (transaction_type : string) (amount : Decimal) : bool :=
  if in_ transaction_type ["TRANSFER"; "PAYMENT"]%string then
    let daily_total :=
      or_zero (aggregate_Sum_amount
                 (objects_filter (user self)
                    (fun ty => in_ ty ["TRANSFER"; "PAYMENT"]%string)
                    today)) in
    daily_total + amount <=? daily_transfer_limit self
  else if String.eqb transaction_type "WITHDRAWAL" then
    let daily_total :=
      or_zero (aggregate_Sum_amount
                 (objects_filter (user self)
                    (fun ty => String.eqb ty "WITHDRAWAL")
                    today)) in
    daily_total + amount <=? daily_withdrawal_limit self
  else if in_ transaction_type ["CRYPTO_BUY"; "CRYPTO_SELL"]%string then
    let daily_total :=
      or_zero (aggregate_Sum_amount
                 (objects_filter (user self)
                    (fun ty => in_ ty ["CRYPTO_BUY"; "CRYPTO_SELL"]%string)
                    today)) in
    daily_total + amount <=? daily_crypto_limit self
  else true.
End CheckDailyLimit.

(** [TransactionAdmin] (transactions/admin.py): [status] is a field of
    the change form and is not read-only. *)
Definition admin_fieldsets : list string :=
  [ "reference"; "transaction_type"; "priority"; "status";
    "source_account"; "destination_account";
    "amount"; "currency"; "fee"; "tax"; "total_amount";
    "recipient_name"; "recipient_account"; "recipient_bank";
    "description"; "narration";
    "requires_otp"; "otp_verified"; "verified_by";
    "ip_address"; "user_agent"; "device_id";
    "created_at"; "processed_at"; "completed_at"; "updated_at" ]%string.

Definition admin_readonly_fields : list string :=
  [ "id"; "reference"; "created_at"; "updated_at" ]%string.

Definition admin_editable (field : string) : bool :=
  in_ field admin_fieldsets && negb (in_ field admin_readonly_fields).

End Transactions.

(** ** The specification's vocabulary

    The definitions of this module follow the words of the specification,
    not the code; the theorems below compare the two. *)

Module Spec.

Import Transactions.

(** The ledger invariant of an account. *)
Definition ledger_invariant (a : Accounts.BankAccount) : Prop :=
  Accounts.balance a
    = Accounts.available_balance a + Accounts.frozen_balance a
  /\ 0 <= Accounts.available_balance a.

(** The three limited categories and their sets of transaction types. *)
Inductive category : Type := Transfer | Withdrawal | Crypto.

Definition category_set (c : category) : list string :=
  match c with
  | Transfer => ["TRANSFER"; "PAYMENT"]
  | Withdrawal => ["WITHDRAWAL"]
  | Crypto => ["CRYPTO_BUY"; "CRYPTO_SELL"]
  end%string.

Definition limited_types : list string :=
  category_set Transfer ++ category_set Withdrawal ++ category_set Crypto.

(** The ceilings of a limit row, by category.  The model has no monthly
    ceiling for crypto. *)
Definition daily_ceiling (l : TransactionLimit) (c : category) : Decimal :=
  match c with
  | Transfer => daily_transfer_limit l
  | Withdrawal => daily_withdrawal_limit l
  | Crypto => daily_crypto_limit l
  end.

Definition single_ceiling (l : TransactionLimit) (c : category) : Decimal :=
  match c with
  | Transfer => single_transfer_limit l
  | Withdrawal => single_withdrawal_limit l
  | Crypto => single_crypto_limit l
  end.

Definition monthly_ceiling (l : TransactionLimit) (c : category)
  : option Decimal :=
  match c with
  | Transfer => Some (monthly_transfer_limit l)
  | Withdrawal => Some (monthly_withdrawal_limit l)
  | Crypto => None
  end.

Section RunningTotal.
(** The window of a timestamp: its calendar day for the daily total,
    its calendar month for the monthly one. *)
Variable window_of : datetime -> Z.
Variable accounts : list Accounts.BankAccount.

(** A transaction counts towards the total of user [u] in category [c]
    for the window [current]: it is the user's, of a type of the
    category, completed, and created in the window. *)
Definition counts (u : Z) (c : category) (current : Z) (t : Transaction)
  : bool :=
  match source_account__user accounts t, created_at t with
  | Some owner, Some dt =>
      (owner =? u)
      && in_ (transaction_type t) (category_set c)
      && String.eqb (status t) "COMPLETED"
      && (window_of dt =? current)
  | _, _ => false
  end.

(** The sum of [amount] over the transactions that count. *)
Fixpoint running_total (u : Z) (c : category) (current : Z)
         (table : list Transaction) : Decimal :=
  match table with
  | [] => 0
  | t :: rest =>
      if counts u c current t
      then amount t + running_total u c current rest
      else running_total u c current rest
  end.
End RunningTotal.

(** The request would exceed a ceiling of the category: the daily one,
    the monthly one (where the tier has one) or the single-transaction
    one. *)
Definition exceeds_a_ceiling (l : TransactionLimit) (c : category)
           (daily_total monthly_total amount : Decimal) : Prop :=
  daily_ceiling l c < daily_total + amount
  \/ (exists m, monthly_ceiling l c = Some m /\ m < monthly_total + amount)
  \/ single_ceiling l c < amount.

(** The prefix of each domain: CRX for crypto, GFT for gift cards, PAY
    for payments, REF for refunds, AIR, BIL and SCH for the services;
    TXN is that of the transactions. *)
Definition reference_prefix (m : reference_model) : string :=
  match m with
  | CryptoTransaction => "CRX"
  | GiftCardTransaction => "GFT"
  | PaymentTransaction => "PAY"
  | Refund => "REF"
  | AirtimeTopUp => "AIR"
  | BillPayment => "BIL"
  | SchoolFeePayment => "SCH"
  end%string.

(** Two limit rows of one user with the same daily ceilings. *)
Definition same_daily_ceilings (l l' : Transactions.TransactionLimit) : Prop :=
  Transactions.user l' = Transactions.user l
  /\ forall c, Spec.daily_ceiling l' c = Spec.daily_ceiling l c.

End Spec.

(** ** The account ledger store of the specification *)

Module Ledger.

Import Accounts.

(** A hold: the amount a reservation moved out of the available
    balance. *)
Record Hold : Type := { held : Decimal }.

Inductive error : Type := InsufficientFunds | AccountNotActive.

(** Modelled from the spec: the move of an amount from
    [available_balance] into [frozen_balance]; [balance] and every
    other column stay. *)
Definition move_to_frozen (a : BankAccount) (amount : Decimal)
  : BankAccount := {|
  state_adding := state_adding a;
  id := id a;
  user := user a;
  account_number := account_number a;
  balance := balance a;
  available_balance := available_balance a - amount;
  frozen_balance := frozen_balance a + amount;
  status := status a;
  daily_limit := daily_limit a;
  single_transaction_limit := single_transaction_limit a
|}.

(** Modelled from the spec: [reserve] of section 4.2, which no file
    under src/ defines (the source has only the check [can_withdraw]).
    It checks [status == ACTIVE], [amount <= available_balance] and
    [amount <= single_transaction_limit], then moves [amount] from
    [available_balance] into [frozen_balance].  The specification
    names no error for an amount above the single-transaction limit;
    it is reported as the funds error here. *)
Definition reserve (a : BankAccount) (amount : Decimal)
  : error + Hold * BankAccount :=
  if negb (is_active a) then inl AccountNotActive
  else if (amount <=? available_balance a)
          && (amount <=? single_transaction_limit a)
       then inr ({| held := amount |}, move_to_frozen a amount)
       else inl InsufficientFunds.

(** Modelled from the spec: [release] of section 4.2, which no file
    under src/ defines.  It reverses the reservation without touching
    [balance]: the held amount goes back from [frozen_balance] to
    [available_balance]. *)
Definition release (h : Hold) (a : BankAccount) : BankAccount :=
  move_to_frozen a (- held h).

End Ledger.

(** ** The tables the model can reach

    [BankAccount.save] is the only code that writes
    [accounts_bank_account]: a table is reachable when saves of instances,
    with whatever field values and arguments their caller gave them,
    produce it from the empty table. *)

Inductive reachable (entropy : nat -> Z) : list Accounts.BankAccount -> Prop :=
| reachable_empty : reachable entropy []
| reachable_save self kwargs table fuel pos self' table' pos' :
    reachable entropy table ->
    Accounts.save entropy self kwargs table fuel pos
    = Ok ((self', table'), pos') ->
    reachable entropy table'.

From Stdlib Require Import QArith Permutation.
From Stdlib Require DecimalFacts DecimalPos DecimalN DecimalZ Nnat.
Local Open Scope Z_scope.

(** ** Further vocabulary for the daily limit

    The category a transaction type belongs to, if any, and the columns
    of a transaction that the daily total reads. *)

Definition category_of (ty : string) : option Spec.category :=
  if in_ ty (Spec.category_set Spec.Transfer) then Some Spec.Transfer
  else if in_ ty (Spec.category_set Spec.Withdrawal) then Some Spec.Withdrawal
  else if in_ ty (Spec.category_set Spec.Crypto) then Some Spec.Crypto
  else None.

Definition same_for_limit (t t' : Transactions.Transaction) : Prop :=
  Transactions.source_account t' = Transactions.source_account t
  /\ Transactions.transaction_type t' = Transactions.transaction_type t
  /\ Transactions.amount t' = Transactions.amount t
  /\ Transactions.status t' = Transactions.status t
  /\ Transactions.created_at t' = Transactions.created_at t.

(** ** Characters

    A Python [str] is taken here as a sequence of code points below 256;
    [ord] is the code point of a character. *)

Definition ord (c : ascii) : Z := Z.of_N (N_of_ascii c).

(** The decimal digits ['0'] to ['9']. *)
Definition is_decimal (c : ascii) : bool :=
  (48 <=? ord c) && (ord c <=? 57).

(** The account number that the draw at position [pos] spells, for the
    statements about [generate_account_number]. *)
Definition drawn_account_number (entropy : nat -> Z) (pos : nat) : string :=
  ("209" ++ str (PyInt (1000000000 + entropy pos mod 9000000000)))%string.

(** ** accounts/validators.py *)

Module Validators.

(** [c.lower()] for a code point below 256: the letters [A]-[Z] and the
    upper-case letters of Latin-1 (U+00C0 to U+00DE, without the
    multiplication sign U+00D7) move up by 32. *)
Definition lower_char (c : ascii) : ascii :=
  if ((65 <=? ord c) && (ord c <=? 90))
     || ((192 <=? ord c) && (ord c <=? 222) && negb (ord c =? 215))
  then ascii_of_N (Z.to_N (ord c + 32))
  else c.

(** [s.lower()] of a str whose code points are all below 256, where
    lowering goes character by character.  (Beyond them [str.lower]
    looks at the neighbours of a character; the statements on passwords
    put their conditions on the lowered string.) *)
Definition lower (s : list ascii) : list ascii := map lower_char s.

(** The test of the loop body at index [i]: [s[i]], [s[i+1]], [s[i+2]]
    are consecutive code points. *)
Definition sequential_at (s : list ascii) (i : nat) : bool :=
  match nth_error s i, nth_error s (i + 1), nth_error s (i + 2) with
  | Some a, Some b, Some c => (ord a + 1 =? ord b) && (ord b + 1 =? ord c)
  | _, _, _ => false
  end.

(** [PasswordComplexityValidator.has_sequential_chars]: the loop over
    [range(len(password_lower) - 2)] returns at the first index whose
    test holds. *)
Definition has_sequential_chars (password : string) : bool :=
  let password_lower := lower (list_ascii_of_string password) in
  existsb (sequential_at password_lower)
          (seq 0 (List.length password_lower - 2)).

(** The character classes of the patterns. *)
Definition is_upper (c : ascii) : bool := (65 <=? ord c) && (ord c <=? 90).
Definition is_lower (c : ascii) : bool := (97 <=? ord c) && (ord c <=? 122).

(** The class of the special characters,
    [!@#$%^&*()_+-=[]{};:], the double quote, the backslash and
    [|,.<>/?], by code point. *)
Definition special_code_points : list Z :=
  [33; 64; 35; 36; 37; 94; 38; 42; 40; 41; 95; 43; 45; 61; 91; 93; 123; 125;
   59; 58; 34; 92; 124; 44; 46; 60; 62; 47; 63].

Definition is_special (c : ascii) : bool :=
  existsb (Z.eqb (ord c)) special_code_points.

(** [re.search] of a pattern that is one character class. *)
Definition search_class (class : ascii -> bool) (s : string) : bool :=
  existsb class (list_ascii_of_string s).

(** [re.search(r'(.)\1{2,}', s)]: a character other than the newline,
    three times in a row. *)
Fixpoint search_repeated (s : list ascii) : bool :=
  match s with
  | [] => false
  | a :: rest =>
      match rest with
      | b :: c :: _ =>
          (negb (ord a =? 10) && Ascii.eqb a b && Ascii.eqb b c)
          || search_repeated rest
      | _ => false
      end
  end.

(** The messages of [PasswordComplexityValidator.validate], in the order
    of its checks. *)
Inductive password_error : Type :=
| TooShort          (* at least 12 characters long *)
| NoUppercase       (* at least one uppercase letter *)
| NoLowercase       (* at least one lowercase letter *)
| NoDigit           (* at least one digit *)
| NoSpecial         (* at least one special character *)
| Repeated          (* three or more repeated characters in a row *)
| Sequential.       (* sequential characters *)

(** The list [errors] that [validate] builds. *)
Definition validate_errors (password : string) : list password_error :=
  (if (String.length password <? 12)%nat then [TooShort] else [])
  ++ (if negb (search_class is_upper password) then [NoUppercase] else [])
  ++ (if negb (search_class is_lower password) then [NoLowercase] else [])
  ++ (if negb (search_class is_decimal password) then [NoDigit] else [])
  ++ (if negb (search_class is_special password) then [NoSpecial] else [])
  ++ (if search_repeated (list_ascii_of_string password)
      then [Repeated] else [])
  ++ (if has_sequential_chars password then [Sequential] else []).

(** [validate(password)]: [inl errors] is
    [raise ValidationError(errors)]. *)
Definition validate (password : string) : list password_error + unit :=
  match validate_errors password with
  | [] => inr tt
  | errors => inl errors
  end.

(** [value.isdigit()]: not empty, and every character a decimal digit or
    one of the superscript digits U+00B2, U+00B3, U+00B9. *)
Definition isdigit_char (c : ascii) : bool :=
  is_decimal c || (ord c =? 178) || (ord c =? 179) || (ord c =? 185).

Definition isdigit (value : string) : bool :=
  negb (not_ value) && forallb isdigit_char (list_ascii_of_string value).

(** The errors of [AccountNumberValidator]. *)
Inductive account_number_error : Type :=
| NotOnlyDigits     (* must contain only digits *)
| WrongLength       (* must be exactly {length} digits long *)
| TooSimple.        (* is too simple *)

(** [AccountNumberValidator(length).__call__(value)];
    [len(set(value))] is the number of different characters. *)
Definition AccountNumberValidator (length : nat) (value : string)
  : account_number_error + unit :=
  if negb (isdigit value) then inl NotOnlyDigits
  else if negb (String.length value =? length)%nat then inl WrongLength
  else if (List.length (nodup ascii_dec (list_ascii_of_string value)) <? 3)%nat
       then inl TooSimple
       else inr tt.

(** The errors of [PhoneNumberValidator]. *)
Inductive phone_error : Type :=
| PhoneEmpty        (* cannot be empty *)
| PhoneTooShort     (* is too short *)
| PhoneTooLong      (* is too long *)
| PhoneBadStart.    (* must start with '+' or '0' *)

(** [re.sub(r'[^\d]', '', value)] *)
Definition clean_number (value : string) : list ascii :=
  filter is_decimal (list_ascii_of_string value).

(** [value.startswith(c)] for a one-character [c]. *)
Definition startswith (value : string) (c : ascii) : bool :=
  match value with
  | String a _ => Ascii.eqb a c
  | EmptyString => false
  end.

(** [PhoneNumberValidator.__call__(value)] *)
Definition PhoneNumberValidator (value : string) : phone_error + unit :=
  let clean := clean_number value in
  if (List.length clean =? 0)%nat then inl PhoneEmpty
  else if (List.length clean <? 10)%nat then inl PhoneTooShort
  else if (15 <? List.length clean)%nat then inl PhoneTooLong
  else if negb (startswith value "+" || startswith value "0")
       then inl PhoneBadStart
       else inr tt.

End Validators.

(** ** Regular expressions

    The patterns of the validators, matched as [re] matches them: by
    backtracking, here as the list of the remainders every way of
    matching leaves. *)

Module Re.

Inductive regex : Type :=
| Class (class : ascii -> bool)        (* one character of a class *)
| Seq (a b : regex)                    (* ab *)
| Opt (a : regex)                      (* a? *)
| Repeat (lo hi : nat) (a : regex)     (* a{lo,hi} *)
| Dollar.                              (* $ *)

(** [a{lo,hi}], given the matcher of [a]. *)
Fixpoint repeat_matches (m : list ascii -> list (list ascii))
         (hi lo : nat) (s : list ascii) : list (list ascii) :=
  match hi with
  | O => if (lo =? 0)%nat then [s] else []
  | S hi' =>
      flat_map (repeat_matches m hi' (Nat.pred lo)) (m s)
      ++ (if (lo =? 0)%nat then [s] else [])
  end.

(** The remainders of [s] after a match of [r] at its start.  [$]
    matches at the end of the string and before a newline that ends
    it. *)
Fixpoint matches (r : regex) (s : list ascii) : list (list ascii) :=
  match r with
  | Class class =>
      match s with
      | c :: rest => if class c then [rest] else []
      | [] => []
      end
  | Seq a b => flat_map (matches b) (matches a s)
  | Opt a => matches a s ++ [s]
  | Repeat lo hi a => repeat_matches (matches a) hi lo s
  | Dollar =>
      match s with
      | [] => [s]
      | [c] => if ord c =? 10 then [s] else []
      | _ => []
      end
  end.

(** [re.search] of a pattern that starts with [^]: a match at the start
    of the string. *)
Definition search_at_start (r : regex) (s : string) : bool :=
  match matches r (list_ascii_of_string s) with
  | [] => false
  | _ :: _ => true
  end.

End Re.

(** The [RegexValidator] of [User.phone_number] (accounts/models.py):
    [^\+?1?\d{9,15}$]. *)
Definition phone_number_regex : Re.regex :=
  Re.Seq (Re.Opt (Re.Class (Ascii.eqb "+")))
    (Re.Seq (Re.Opt (Re.Class (Ascii.eqb "1")))
       (Re.Seq (Re.Repeat 9 15 (Re.Class is_decimal)) Re.Dollar)).

(** The validator accepts the value when the pattern is found. *)
Definition phone_number_valid (value : string) : bool :=
  Re.search_at_start phone_number_regex value.

(** ** [AmountValidator] (accounts/validators.py)

    The validator receives a [decimal.Decimal] and reads its exponent, so
    a finite decimal is kept here as its signed coefficient and its
    exponent; the bounds it is compared with are rationals, a float
    standing for the binary fraction it is. *)

Module Amounts.

Record PyDecimal : Type := {
  coefficient : Z;
  exponent : Z       (* [value.as_tuple().exponent] *)
}.

(** The number a decimal denotes. *)
Definition to_Q (d : PyDecimal) : Q :=
  if 0 <=? exponent d
  then inject_Z (coefficient d * 10 ^ exponent d)
  else Qmake (coefficient d) (Z.to_pos (10 ^ (- exponent d))).

(** The float [0.01], the default of [min_amount]: the double
    0x3F847AE147AE147B, which is 5764607523034235 / 2^59. *)
Definition float_0_01 : Q := Qmake 5764607523034235 576460752303423488.

(** [x < y] and [x <= y] between a decimal and a number, exact as in
    Python. *)
Definition lt (x y : Q) : bool := negb (Qle_bool y x).
Definition le (x y : Q) : bool := Qle_bool x y.

Inductive amount_error : Type :=
| NotPositive       (* must be greater than zero *)
| BelowMinimum      (* minimum amount is {min_amount} *)
| AboveMaximum      (* maximum amount is {max_amount} *)
| TooManyPlaces.    (* cannot have more than 2 decimal places *)

(** [AmountValidator(min_amount, max_amount).__call__(value)];
    [max_amount] is [None] by default, and a [max_amount] of zero is
    falsy like [None]. *)
Definition AmountValidator (min_amount : Q) (max_amount : option Q)
           (value : PyDecimal) : amount_error + unit :=
  if le (to_Q value) 0 then inl NotPositive
  else if lt (to_Q value) min_amount then inl BelowMinimum
  else if match max_amount with
          | Some m => negb (Qeq_bool m 0) && lt m (to_Q value)
          | None => false
          end
       then inl AboveMaximum
       else if exponent value <? -2 then inl TooManyPlaces
            else inr tt.

End Amounts.

(** ** [User] (accounts/models.py) and [EmailBackend]
    (accounts/authentication.py) *)

Module Users.

(** [User]; of the columns of [AbstractUser] and of the model, those the
    methods below read. *)
Record User : Type := {
  id : Z;
  email : string;
  first_name : string;
  last_name : string;
  is_active : bool;
  account_locked_until : option datetime
}.

(** [c.isspace()] for a code point below 256. *)
Definition isspace (c : ascii) : bool :=
  ((9 <=? ord c) && (ord c <=? 13))
  || ((28 <=? ord c) && (ord c <=? 32))
  || (ord c =? 133) || (ord c =? 160).

(** [s.lstrip()], [s.rstrip()] and [s.strip()] *)
Fixpoint lstrip (s : list ascii) : list ascii :=
  match s with
  | c :: rest => if isspace c then lstrip rest else s
  | [] => []
  end.

Definition rstrip (s : list ascii) : list ascii := rev (lstrip (rev s)).

Definition strip (s : list ascii) : list ascii := rstrip (lstrip s).

(** [@property full_name] *)
Definition full_name (self : User) : string :=
  string_of_list_ascii
    (strip (list_ascii_of_string
              (first_name self ++ " " ++ last_name self)%string)).

(** [is_account_locked(self)], with [now = timezone.now()]: the value of
    [self.account_locked_until and self.account_locked_until > now],
    which is [None] when no lock is set. *)
Definition is_account_locked (self : User) (now : datetime) : option bool :=
  match account_locked_until self with
  | None => None
  | Some until => Some (now <? until)
  end.

(** The truth value of that result. *)
Definition truthy (v : option bool) : bool :=
  match v with
  | Some b => b
  | None => false
  end.

(** [EmailBackend.user_can_authenticate(user)] *)
Definition user_can_authenticate (user : User) (now : datetime) : bool :=
  if negb (is_active user) then false
  else if truthy (is_account_locked user now) then false
  else true.

(** The result of [User.objects.get(...)]. *)
Inductive get_result : Type :=
| Found (user : User)
| DoesNotExist
| MultipleObjectsReturned.

Definition objects_get (lookup : User -> bool) (table : list User)
  : get_result :=
  match filter lookup table with
  | [] => DoesNotExist
  | [user] => Found user
  | _ :: _ :: _ => MultipleObjectsReturned
  end.

Section Authenticate.
(** [user.check_password(password)], the password hasher of Django. *)
Variable check_password : User -> string -> bool.
Variable table : list User.
Variable now : datetime.

(** [EmailBackend.authenticate(request, username, password)]: the user
    or [None]; [MultipleObjectsReturned] is not caught, and is [None] of
    the outer option here. *)
Definition authenticate (username password : string)
  : option (option User) :=
  match objects_get (fun u => String.eqb (email u) username) table with
  | Found user =>
      if check_password user password && user_can_authenticate user now
      then Some (Some user)
      else Some None
  | DoesNotExist => Some None
  | MultipleObjectsReturned => None
  end.

(** [EmailBackend.get_user(user_id)] *)
Definition get_user (user_id : Z) : option (option User) :=
  match objects_get (fun u => id u =? user_id) table with
  | Found user =>
      if user_can_authenticate user now then Some (Some user) else Some None
  | DoesNotExist => Some None
  | MultipleObjectsReturned => None
  end.
End Authenticate.

End Users.

(** ** [PaymentMethod.get_display_name] (payments/models.py) *)

Module Payments.

Record PaymentMethod : Type := {
  method_type : string;
  card_last4 : string;
  card_brand : string;
  bank_name : string;
  account_number : string;
  nickname : string
}.

(** [s[-4:]]: the last four characters, or all of a shorter [s]. *)
Definition last4 (s : string) : string :=
  substring (String.length s - 4) 4 s.

(** [get_display_name(self)] *)
Definition get_display_name (self : PaymentMethod) : string :=
  if String.eqb (method_type self) "CARD" && negb (not_ (card_last4 self))
  then (card_brand self ++ " ****" ++ card_last4 self)%string
  else if String.eqb (method_type self) "BANK_TRANSFER"
          && negb (not_ (account_number self))
       then (bank_name self ++ " ****" ++ last4 (account_number self))%string
       else method_type self.

End Payments.

(** ** [GiftCard.calculate_offered_price] (giftcards/models.py) *)

Module GiftCards.

(** The numbers the method handles: [Decimal]s, read from
    [DecimalField]s, and the floats of its table of adjustments. *)
Inductive number : Type :=
| PyDecimal (value : Q)
| PyFloat (value : Q).

(** [x * y]: [Decimal.__mul__] and [float.__mul__] each refuse the other
    type. *)
Definition mul (x y : number) : outcome number :=
  match x, y with
  | PyDecimal a, PyDecimal b => Ok (PyDecimal (a * b))
  | PyFloat a, PyFloat b => Ok (PyFloat (a * b))
  | _, _ => Raise TypeError
  end.

(** [x / n] for an int [n]. *)
Definition div_int (x : number) (n : Z) : outcome number :=
  match x with
  | PyDecimal a => Ok (PyDecimal (a / inject_Z n))
  | PyFloat a => Ok (PyFloat (a / inject_Z n))
  end.

Record GiftCard : Type := {
  buy_rate : Q;              (* [gift_card_type.buy_rate], a Decimal *)
  face_value : Q;            (* a Decimal *)
  condition : string;
  offered_price : option number
}.

Definition set_offered_price (self : GiftCard) (price : number) : GiftCard := {|
  buy_rate := buy_rate self;
  face_value := face_value self;
  condition := condition self;
  offered_price := Some price
|}.

(** [condition_adjustments.get(self.condition, 0.70)]: the floats 1.0,
    0.95, 0.90, 0.80 and 0.70, as the fractions they are nearest to. *)
Definition condition_adjustment (condition : string) : number :=
  if String.eqb condition "NEW" then PyFloat 1
  else if String.eqb condition "LIKE_NEW" then PyFloat (95 # 100)
  else if String.eqb condition "GOOD" then PyFloat (90 # 100)
  else if String.eqb condition "FAIR" then PyFloat (80 # 100)
  else if String.eqb condition "POOR" then PyFloat (70 # 100)
  else PyFloat (70 # 100).

(** [calculate_offered_price(self)]: the price and the instance after
    the call. *)
Definition calculate_offered_price (self : GiftCard)
  : outcome (number * GiftCard) :=
  let base_rate := PyDecimal (buy_rate self) in
  match mul base_rate (condition_adjustment (condition self)) with
  | Ok adjusted_rate =>
      match mul (PyDecimal (face_value self)) adjusted_rate with
      | Ok product =>
          match div_int product 100 with
          | Ok price => Ok (price, set_offered_price self price)
          | Raise e => Raise e
          | Diverge => Diverge
          end
      | Raise e => Raise e
      | Diverge => Diverge
      end
  | Raise e => Raise e
  | Diverge => Diverge
  end.

End GiftCards.

(** ** Generating references one after the other

    Each reference is generated against the references stored so far and
    stored before the next one is generated, as [save] does for one row
    after the other; every row brings its own [created_at]. *)

Fixpoint generate_references (entropy : nat -> Z) (prefix : string)
         (rows : list (option datetime)) (stored : list string) (fuel : nat)
  : Rand (list string) :=
  match rows with
  | [] => ret []
  | created_at :: rest =>
      r <- generate_reference entropy prefix created_at stored fuel ;;
      more <- generate_references entropy prefix rest (r :: stored) fuel ;;
      ret (r :: more)
  end.
(** * Sample data *)

(** An active account with 100.00 available, asked for 60.00. *)
Definition account_with_100 : Accounts.BankAccount := {|
  Accounts.state_adding := false;
  Accounts.id := 1;
  Accounts.user := 7;
  Accounts.account_number := "2091234567890";
  Accounts.balance := whole 100;
  Accounts.available_balance := whole 100;
  Accounts.frozen_balance := whole 0;
  Accounts.status := "ACTIVE";
  Accounts.daily_limit := whole 500000;
  Accounts.single_transaction_limit := whole 100000
|}.

(** The calendar date of a timestamp in UTC. *)
Definition utc_date (dt : datetime) : date := dt / 86400000000.

(** Noon of day [d]. *)
Definition noon (d : date) : datetime := d * 86400000000 + 43200000000.

(** A stream of draws. *)
Definition sample_entropy (n : nat) : Z := 7 * Z.of_nat n + 3.

(** The readings of a clock, a microsecond apart. *)
Definition sample_clock (k : nat) : datetime :=
  1700000000500000 + Z.of_nat k.

(** Two account holders, users 7 and 8. *)
Definition sample_accounts : list Accounts.BankAccount :=
  [ account_with_100;
    {| Accounts.state_adding := false;
       Accounts.id := 2;
       Accounts.user := 8;
       Accounts.account_number := "2099876543210";
       Accounts.balance := whole 0;
       Accounts.available_balance := whole 0;
       Accounts.frozen_balance := whole 0;
       Accounts.status := "ACTIVE";
       Accounts.daily_limit := whole 500000;
       Accounts.single_transaction_limit := whole 100000 |} ].

Definition sample_transaction (id : Z) (ty : string) (source : Z)
           (amount : Decimal) (status : string) (day : date)
  : Transactions.Transaction := {|
  Transactions.state_adding := false;
  Transactions.id := id;
  Transactions.reference := ("TXN" ++ str (PyInt id))%string;
  Transactions.transaction_type := ty;
  Transactions.source_account := Some source;
  Transactions.destination_account := None;
  Transactions.amount := amount;
  Transactions.fee := whole 0;
  Transactions.tax := whole 0;
  Transactions.total_amount := Some amount;
  Transactions.status := status;
  Transactions.created_at := Some (noon day);
  Transactions.updated_at := Some (noon day)
|}.

(** User 7 has completed a transfer of 50,000 and a payment of 30,000 on
    day 20000; the other rows do not count towards that day's transfer
    total: a pending transfer, another user's transfer, a transfer of the
    day before and a withdrawal. *)
Definition sample_history : list Transactions.Transaction :=
  [ sample_transaction 1 "TRANSFER" 1 (whole 50000) "COMPLETED" 20000;
    sample_transaction 2 "PAYMENT" 1 (whole 30000) "COMPLETED" 20000;
    sample_transaction 3 "TRANSFER" 1 (whole 10000) "PENDING" 20000;
    sample_transaction 4 "TRANSFER" 2 (whole 5000) "COMPLETED" 20000;
    sample_transaction 5 "TRANSFER" 1 (whole 7000) "COMPLETED" 19999;
    sample_transaction 6 "WITHDRAWAL" 1 (whole 1000) "COMPLETED" 20000 ].

(** A stored transfer of 1,000 with a fee of 50 and a tax of 20, still
    PENDING, as a query loads it; its [total_amount] column holds a
    stale 5.00. *)
Definition pending_transfer : Transactions.Transaction := {|
  Transactions.state_adding := false;
  Transactions.id := 11;
  Transactions.reference := "TXN1700000000000K3ZQ81PA";
  Transactions.transaction_type := "TRANSFER";
  Transactions.source_account := Some 1;
  Transactions.destination_account := Some 2;
  Transactions.amount := whole 1000;
  Transactions.fee := whole 50;
  Transactions.tax := whole 20;
  Transactions.total_amount := Some (whole 5);
  Transactions.status := "PENDING";
  Transactions.created_at := Some 1700000000000000;
  Transactions.updated_at := Some 1700000000000000
|}.

(** A new instance, as [Transaction(...)] builds it before its first
    [save()]: no reference, no [total_amount], no [created_at]. *)
Definition new_transfer : Transactions.Transaction := {|
  Transactions.state_adding := true;
  Transactions.id := 12;
  Transactions.reference := "";
  Transactions.transaction_type := "TRANSFER";
  Transactions.source_account := Some 1;
  Transactions.destination_account := Some 2;
  Transactions.amount := whole 1000;
  Transactions.fee := whole 50;
  Transactions.tax := whole 20;
  Transactions.total_amount := None;
  Transactions.status := "PENDING";
  Transactions.created_at := None;
  Transactions.updated_at := None
|}.

(** An account whose caller set [balance] to 100.00 and left the
    available and frozen balances at zero, as its row holds it. *)
Definition unbalanced_account : Accounts.BankAccount := {|
  Accounts.state_adding := false;
  Accounts.id := 3;
  Accounts.user := 7;
  Accounts.account_number := "2095550001111";
  Accounts.balance := whole 100;
  Accounts.available_balance := whole 0;
  Accounts.frozen_balance := whole 0;
  Accounts.status := "ACTIVE";
  Accounts.daily_limit := whole 500000;
  Accounts.single_transaction_limit := whole 100000
|}.

(** The stored transfer with its total in step, 1,070, and the instance
    a caller loaded from it and gave a fee of 60. *)
Definition settled_transfer : Transactions.Transaction :=
  Transactions.set_total_amount pending_transfer (whole 1070).

Definition transfer_with_fee_60 : Transactions.Transaction := {|
  Transactions.state_adding := false;
  Transactions.id := 11;
  Transactions.reference := "TXN1700000000000K3ZQ81PA";
  Transactions.transaction_type := "TRANSFER";
  Transactions.source_account := Some 1;
  Transactions.destination_account := Some 2;
  Transactions.amount := whole 1000;
  Transactions.fee := whole 60;
  Transactions.tax := whole 20;
  Transactions.total_amount := Some (whole 1070);
  Transactions.status := "PENDING";
  Transactions.created_at := Some 1700000000000000;
  Transactions.updated_at := Some 1700000000000000
|}.

(** The sample account with a hold of 60.00 on its 100.00. *)
Definition account_with_hold : Accounts.BankAccount := {|
  Accounts.state_adding := false;
  Accounts.id := 1;
  Accounts.user := 7;
  Accounts.account_number := "2091234567890";
  Accounts.balance := whole 100;
  Accounts.available_balance := whole 40;
  Accounts.frozen_balance := whole 60;
  Accounts.status := "ACTIVE";
  Accounts.daily_limit := whole 500000;
  Accounts.single_transaction_limit := whole 100000
|}.

(** [save(update_fields=["fee"])] *)
Definition only_fee : save_kwargs := {|
  force_insert := false;
  force_update := false;
  update_fields := Some ["fee"%string]
|}.

(** * Further sample data *)

(** The same transaction with other fees, taxes, total and reference. *)
Definition with_other_fees (t : Transactions.Transaction)
  : Transactions.Transaction := {|
  Transactions.state_adding := true;
  Transactions.id := Transactions.id t;
  Transactions.reference := "X";
  Transactions.transaction_type := Transactions.transaction_type t;
  Transactions.source_account := Transactions.source_account t;
  Transactions.destination_account := Some 2;
  Transactions.amount := Transactions.amount t;
  Transactions.fee := whole 99;
  Transactions.tax := whole 1;
  Transactions.total_amount := None;
  Transactions.status := Transactions.status t;
  Transactions.created_at := Transactions.created_at t;
  Transactions.updated_at := None
|}.

(** Three users: one free to log in, one locked until day 20001, one
    deactivated; and a password check that knows one password. *)
Definition sample_user (id : Z) (email : string) (active : bool)
           (locked_until : option datetime) : Users.User := {|
  Users.id := id;
  Users.email := email;
  Users.first_name := "Ada";
  Users.last_name := "";
  Users.is_active := active;
  Users.account_locked_until := locked_until
|}.

Definition sample_users : list Users.User :=
  [ sample_user 7 "ada@example.org" true None;
    sample_user 8 "bob@example.org" true (Some (noon 20001));
    sample_user 9 "eve@example.org" false None ].

Definition sample_check_password (u : Users.User) (password : string) : bool :=
  String.eqb password "correct horse".
(** * Properties *)

(** ** Accounts: the withdrawal check *)

Lemma is_active_iff (a : Accounts.BankAccount) :
  Accounts.is_active a = true <-> Accounts.status a = "ACTIVE"%string.
Proof. unfold Accounts.is_active. apply String.eqb_eq. Qed.

(** C6, as stated, fails: the check succeeds for 60.00 on an active
    account with 100.00 available, and the account it leaves still has
    100.00 available and nothing frozen; no amount was moved. *)
Lemma can_withdraw_moves_nothing :
  let (ok, after) :=
    Accounts.call (fun a => Accounts.can_withdraw a (whole 60))
                  account_with_100 in
  ok = true
  /\ Accounts.available_balance after
     <> Accounts.available_balance account_with_100 - whole 60
  /\ Accounts.frozen_balance after
     <> Accounts.frozen_balance account_with_100 + whole 60.
Proof. cbn. repeat split; discriminate. Qed.

(** C6, amended: [can_withdraw] succeeds exactly when the account is
    ACTIVE, the amount is at most the available balance and at most the
    single-transaction limit; it is a check only, and leaves the account,
    its available and frozen balances included, as it was. *)
Theorem can_withdraw_check_only (a : Accounts.BankAccount) (amount : Decimal) :
  (fst (Accounts.call (fun a => Accounts.can_withdraw a amount) a) = true
   <-> Accounts.status a = "ACTIVE"%string
       /\ amount <= Accounts.available_balance a
       /\ amount <= Accounts.single_transaction_limit a)
  /\ snd (Accounts.call (fun a => Accounts.can_withdraw a amount) a) = a.
Proof.
  unfold Accounts.call. cbn [fst snd]. split; [|reflexivity].
  unfold Accounts.can_withdraw.
  destruct (Z.leb_spec amount (Accounts.available_balance a)) as [Hav|Hav];
    destruct (Z.leb_spec amount (Accounts.single_transaction_limit a))
      as [Hlim|Hlim];
    rewrite ?andb_true_r, ?andb_false_r.
  - rewrite is_active_iff. tauto.
  - split; [discriminate | lia].
  - split; [discriminate | lia].
  - split; [discriminate | lia].
Qed.

(** ** Transactions: the status predicates *)

Lemma can_be_cancelled_iff (t : Transactions.Transaction) :
  Transactions.can_be_cancelled t = true
  <-> Transactions.status t = "PENDING"%string
      \/ Transactions.status t = "PROCESSING"%string.
Proof.
  unfold Transactions.can_be_cancelled, in_. cbn [existsb].
  rewrite !orb_true_iff, !String.eqb_eq. intuition discriminate.
Qed.

Lemma can_be_reversed_iff (t : Transactions.Transaction) :
  Transactions.can_be_reversed t = true
  <-> Transactions.status t = "COMPLETED"%string.
Proof. unfold Transactions.can_be_reversed. apply String.eqb_eq. Qed.

(** ** Transactions: the daily limit check *)

Lemma or_zero_Sum (rows : list Transactions.Transaction) :
  Transactions.or_zero (Transactions.aggregate_Sum_amount rows)
  = fold_right Z.add 0 (map Transactions.amount rows).
Proof.
  destruct rows as [|t rows]; [reflexivity|].
  cbn [Transactions.aggregate_Sum_amount Transactions.or_zero].
  destruct (Z.eqb_spec (fold_right Z.add 0 (map Transactions.amount (t :: rows))) 0)
    as [E|_]; [rewrite E|]; reflexivity.
Qed.

Section DailyTotal.
Variable date_of : datetime -> date.
Variable accounts : list Accounts.BankAccount.

(** The rows the ORM filter keeps are the rows that count. *)
Lemma filter_counts (u : Z) (c : Spec.category) (today : date)
      (lookup : string -> bool) (t : Transactions.Transaction) :
  (forall ty, lookup ty = in_ ty (Spec.category_set c)) ->
  Transactions.option_eqb (Transactions.source_account__user accounts t) u
  && lookup (Transactions.transaction_type t)
  && String.eqb (Transactions.status t) "COMPLETED"
  && Transactions.option_eqb (Transactions.created_at__date date_of t) today
  = Spec.counts date_of accounts u c today t.
Proof.
  intros Hl. unfold Spec.counts, Transactions.created_at__date.
  rewrite Hl.
  destruct (Transactions.source_account__user accounts t) as [owner|];
    destruct (Transactions.created_at t) as [dt|]; cbn;
    rewrite ?andb_false_r; reflexivity.
Qed.

Lemma Sum_filter_running_total (u : Z) (c : Spec.category) (today : date)
      (lookup : string -> bool) (table : list Transactions.Transaction) :
  (forall ty, lookup ty = in_ ty (Spec.category_set c)) ->
  fold_right Z.add 0
    (map Transactions.amount
         (Transactions.objects_filter date_of accounts table u lookup today))
  = Spec.running_total date_of accounts u c today table.
Proof.
  intros Hl. unfold Transactions.objects_filter.
  induction table as [|t rest IH]; [reflexivity|].
  cbn [filter Spec.running_total].
  rewrite (filter_counts u c today lookup t Hl).
  destruct (Spec.counts date_of accounts u c today t); cbn; now rewrite IH.
Qed.

(** In each limited category the check compares the day's total plus
    the amount with the daily ceiling. *)
Lemma check_daily_limit_in_category
      (table : list Transactions.Transaction)
      (l : Transactions.TransactionLimit) (today : date)
      (ty : string) (c : Spec.category) (amount : Decimal) :
  In ty (Spec.category_set c) ->
  Transactions.check_daily_limit date_of accounts table l today ty amount
  = (Spec.running_total date_of accounts (Transactions.user l) c today table
     + amount <=? Spec.daily_ceiling l c).
Proof.
  intros Hin.
  assert (E : exists lookup,
             (forall ty', lookup ty' = in_ ty' (Spec.category_set c))
             /\ Transactions.check_daily_limit
                  date_of accounts table l today ty amount
                = (Transactions.or_zero
                     (Transactions.aggregate_Sum_amount
                        (Transactions.objects_filter
                           date_of accounts table (Transactions.user l)
                           lookup today))
                   + amount <=? Spec.daily_ceiling l c)).
  { destruct c; cbn in Hin;
      repeat (destruct Hin as [<-|Hin]; [|]); try contradiction;
      eexists; (split; [|reflexivity]); intros ty'; cbn;
      rewrite ?orb_false_r; reflexivity. }
  destruct E as (lookup & Hl & ->).
  now rewrite or_zero_Sum, (Sum_filter_running_total _ c _ _ _ Hl).
Qed.
End DailyTotal.

(** C2: for a type of one of the three category sets, the daily check
    accepts exactly when the sum of the user's completed transactions of
    that category created today, plus the requested amount, does not
    exceed the daily ceiling of the category; so with a daily transfer
    limit of 100,000 and 80,000 of completed transfers today, a transfer
    of 25,000 is rejected and one of 15,000 accepted. *)
Theorem check_daily_limit_spec
        (date_of : datetime -> date) (accounts : list Accounts.BankAccount)
        (table : list Transactions.Transaction)
        (l : Transactions.TransactionLimit) (today : date)
        (ty : string) (c : Spec.category) (amount : Decimal) :
  In ty (Spec.category_set c) ->
  (Transactions.check_daily_limit date_of accounts table l today ty amount
   = true
   <-> Spec.running_total date_of accounts (Transactions.user l) c today table
       + amount <= Spec.daily_ceiling l c)
  /\ (Spec.daily_ceiling l c = whole 100000 ->
      Spec.running_total date_of accounts (Transactions.user l) c today table
      = whole 80000 ->
      Transactions.check_daily_limit
        date_of accounts table l today ty (whole 25000) = false
      /\ Transactions.check_daily_limit
           date_of accounts table l today ty (whole 15000) = true).
Proof.
  intros Hin. split.
  - rewrite (check_daily_limit_in_category _ _ _ _ _ _ c _ Hin).
    apply Z.leb_le.
  - intros Hceil Htotal.
    rewrite !(check_daily_limit_in_category _ _ _ _ _ _ c _ Hin).
    rewrite Hceil, Htotal. split; reflexivity.
Qed.

(** The scenario of C2 on the sample history: 80,000 completed today
    against a ceiling of 100,000. *)
Lemma check_daily_limit_spec_witness :
  Spec.running_total utc_date sample_accounts 7 Spec.Transfer 20000
                     sample_history = whole 80000
  /\ Transactions.check_daily_limit
       utc_date sample_accounts sample_history (Transactions.new_limit 7)
       20000 "TRANSFER" (whole 25000) = false
  /\ Transactions.check_daily_limit
       utc_date sample_accounts sample_history (Transactions.new_limit 7)
       20000 "TRANSFER" (whole 15000) = true.
Proof.
  split; [reflexivity|].
  apply (check_daily_limit_spec
           utc_date sample_accounts sample_history (Transactions.new_limit 7)
           20000 "TRANSFER" Spec.Transfer (whole 15000)).
  - simpl. left. reflexivity.
  - reflexivity.
  - reflexivity.
Defined.

(** The types of the model outside the three category sets. *)
Lemma unlimited_choices :
  filter (fun ty => negb (in_ ty Spec.limited_types)) Transactions.TRANSACTION_TYPE_CHOICES
  = [ "DEPOSIT"; "AIRTIME"; "GIFTCARD_BUY"; "GIFTCARD_SELL";
      "SCHOOL_FEE"; "ELECTRIC_BILL"; "REFUND"; "CHARGE" ]%string.
Proof. reflexivity. Qed.

Lemma in__false (x : string) (xs : list string) :
  ~ In x xs -> in_ x xs = false.
Proof.
  intros Hn. unfold in_. apply not_true_is_false. intros H.
  apply existsb_exists in H. destruct H as (y & Hy & E).
  apply String.eqb_eq in E. subst y. contradiction.
Qed.

(** C9: for a transaction type outside the three limited category sets
    (DEPOSIT, AIRTIME, GIFTCARD_BUY, GIFTCARD_SELL, SCHOOL_FEE,
    ELECTRIC_BILL, REFUND, CHARGE, or any other string) the daily check
    succeeds for every amount, whatever the history and the ceilings. *)
Theorem check_daily_limit_unlimited
        (date_of : datetime -> date) (accounts : list Accounts.BankAccount)
        (table : list Transactions.Transaction)
        (l : Transactions.TransactionLimit) (today : date)
        (ty : string) (amount : Decimal) :
  ~ In ty Spec.limited_types ->
  Transactions.check_daily_limit date_of accounts table l today ty amount
  = true.
Proof.
  intros Hn. unfold Transactions.check_daily_limit.
  rewrite (in__false ty ["TRANSFER"; "PAYMENT"]%string)
    by (intros H; apply Hn; cbn in *; tauto).
  replace (String.eqb ty "WITHDRAWAL") with false.
  2: { symmetry. apply String.eqb_neq. intros ->. apply Hn. cbn. tauto. }
  rewrite (in__false ty ["CRYPTO_BUY"; "CRYPTO_SELL"]%string)
    by (intros H; apply Hn; cbn in *; tauto).
  reflexivity.
Qed.

(** A deposit of 10^12 on top of the sample history passes. *)
Lemma check_daily_limit_unlimited_witness :
  Transactions.check_daily_limit
    utc_date sample_accounts sample_history (Transactions.new_limit 7)
    20000 "DEPOSIT" (whole 1000000000000) = true.
Proof.
  apply (check_daily_limit_unlimited
           utc_date sample_accounts sample_history (Transactions.new_limit 7)
           20000 "DEPOSIT" (whole 1000000000000)).
  cbn. intros H. repeat (destruct H as [H|H]; [discriminate H|]). exact H.
Defined.

(** C3, as stated, fails: with the default ceilings (single transfer
    50,000, daily transfer 100,000) and no history, a transfer of 60,000
    exceeds the single-transaction ceiling whatever the running totals
    are, and the check accepts it. *)
Lemma single_ceiling_not_checked :
  (forall daily_total monthly_total,
      Spec.exceeds_a_ceiling (Transactions.new_limit 7) Spec.Transfer
                             daily_total monthly_total (whole 60000))
  /\ Transactions.check_daily_limit
       utc_date sample_accounts [] (Transactions.new_limit 7)
       20000 "TRANSFER" (whole 60000) = true.
Proof.
  split; [|reflexivity].
  intros d m. right. right. cbn. reflexivity.
Qed.

(** C3, amended: in each limited category the check fails exactly when
    the day's running total plus the amount exceeds the daily ceiling;
    the single-transaction and monthly ceilings of the limit row are not
    consulted, the answer being the same under any other values of
    them. *)
Theorem check_daily_limit_daily_only
        (date_of : datetime -> date) (accounts : list Accounts.BankAccount)
        (table : list Transactions.Transaction)
        (l : Transactions.TransactionLimit) (today : date)
        (ty : string) (c : Spec.category) (amount : Decimal) :
  In ty (Spec.category_set c) ->
  (Transactions.check_daily_limit date_of accounts table l today ty amount
   = false
   <-> Spec.daily_ceiling l c
       < Spec.running_total date_of accounts (Transactions.user l) c today table
         + amount)
  /\ (forall l', Spec.same_daily_ceilings l l' ->
        Transactions.check_daily_limit date_of accounts table l' today ty amount
        = Transactions.check_daily_limit date_of accounts table l today ty amount).
Proof.
  intros Hin. split.
  - rewrite (check_daily_limit_in_category _ _ _ _ _ _ c _ Hin).
    rewrite Z.leb_gt. reflexivity.
  - intros l' [Hu Hc].
    rewrite !(check_daily_limit_in_category _ _ _ _ _ _ c _ Hin).
    now rewrite Hu, Hc.
Qed.

(** A limit row with a single-transfer ceiling of 1.00 and a monthly one
    of 2.00: the sample history gives the same answers as under the
    defaults. *)
Lemma check_daily_limit_daily_only_witness :
  let tight := {|
    Transactions.user := 7;
    Transactions.tier := "BASIC";
    Transactions.daily_transfer_limit := whole 100000;
    Transactions.daily_withdrawal_limit := whole 50000;
    Transactions.daily_crypto_limit := whole 200000;
    Transactions.single_transfer_limit := whole 1;
    Transactions.single_withdrawal_limit := whole 1;
    Transactions.single_crypto_limit := whole 1;
    Transactions.monthly_transfer_limit := whole 2;
    Transactions.monthly_withdrawal_limit := whole 2 |} in
  Transactions.check_daily_limit
    utc_date sample_accounts sample_history tight
    20000 "PAYMENT" (whole 15000)
  = Transactions.check_daily_limit
      utc_date sample_accounts sample_history (Transactions.new_limit 7)
      20000 "PAYMENT" (whole 15000).
Proof.
  intros tight.
  apply (check_daily_limit_daily_only
           utc_date sample_accounts sample_history (Transactions.new_limit 7)
           20000 "PAYMENT" Spec.Transfer (whole 15000)).
  - simpl. right. left. reflexivity.
  - split; [reflexivity|]. intros c; destruct c; reflexivity.
Defined.

(** ** Floats: rounding *)

Lemma float_unit_pos : 0 < float_unit.
Proof. unfold float_unit. apply Z.pow_pos_nonneg; lia. Qed.

Lemma round_half_even_cases (n d : Z) :
  0 < d ->
  (round_half_even n d = n / d /\ 2 * (n mod d) <= d)
  \/ (round_half_even n d = n / d + 1 /\ d <= 2 * (n mod d)).
Proof.
  intros Hd. unfold round_half_even, Z.div, Z.modulo.
  destruct (Z.div_eucl n d) as [q r]. cbn [fst snd].
  destruct (Z.compare_spec (2 * r) d) as [E|E|E].
  - destruct (Z.even q); [left | right]; split; lia.
  - left. split; lia.
  - right. split; lia.
Qed.

(** The rounded quotient is within a half of the exact one. *)
Lemma round_half_even_error (n d : Z) :
  0 < d -> - d <= 2 * (d * round_half_even n d - n) <= d.
Proof.
  intros Hd.
  pose proof (Z.div_mod n d ltac:(lia)) as E.
  pose proof (Z.mod_pos_bound n d Hd) as B.
  destruct (round_half_even_cases n d Hd) as [[-> H]|[-> H]]; nia.
Qed.

Lemma round_half_even_exact (k d : Z) :
  0 < d -> round_half_even (k * d) d = k.
Proof.
  intros Hd.
  pose proof (Z.div_mul k d ltac:(lia)) as Eq.
  pose proof (Z.mod_mul k d ltac:(lia)) as Er.
  destruct (round_half_even_cases (k * d) d Hd) as [[-> H]|[-> H]]; lia.
Qed.

Lemma round_half_even_mono (n1 n2 d : Z) :
  0 < d -> n1 <= n2 -> round_half_even n1 d <= round_half_even n2 d.
Proof.
  intros Hd Hn.
  pose proof (Z.div_le_mono n1 n2 d Hd Hn) as Hq.
  pose proof (Z.div_mod n1 d ltac:(lia)) as E1.
  pose proof (Z.div_mod n2 d ltac:(lia)) as E2.
  pose proof (Z.mod_pos_bound n1 d Hd) as B1.
  pose proof (Z.mod_pos_bound n2 d Hd) as B2.
  destruct (Z.eq_dec (n1 / d) (n2 / d)) as [Eq|Ne].
  - assert (Hr : n1 mod d <= n2 mod d) by nia.
    unfold round_half_even, Z.div, Z.modulo in *.
    destruct (Z.div_eucl n1 d) as [q1 r1], (Z.div_eucl n2 d) as [q2 r2].
    cbn [fst snd] in *. subst q2.
    destruct (Z.compare_spec (2 * r1) d), (Z.compare_spec (2 * r2) d);
      try lia; destruct (Z.even q1); lia.
  - destruct (round_half_even_cases n1 d Hd) as [[-> _]|[-> _]];
      destruct (round_half_even_cases n2 d Hd) as [[-> _]|[-> _]]; lia.
Qed.

(** The quotient and the powers of two around it. *)
Lemma quotient_below (n d k : Z) :
  0 < d -> n / d < k -> n < d * k.
Proof.
  intros Hd H.
  pose proof (Z.div_mod n d ltac:(lia)) as E.
  pose proof (Z.mod_pos_bound n d Hd) as B. nia.
Qed.

Lemma quotient_above (n d k : Z) :
  0 < d -> k <= n / d -> d * k <= n.
Proof.
  intros Hd H.
  pose proof (Z.div_mod n d ltac:(lia)) as E.
  pose proof (Z.mod_pos_bound n d Hd) as B. nia.
Qed.

Lemma log2_above (a : Z) : 0 <= a -> a < 2 ^ (Z.log2 a + 1).
Proof.
  intros Ha. destruct (Z.eq_dec a 0) as [->|Hz].
  - apply Z.pow_pos_nonneg; cbn; lia.
  - replace (Z.log2 a + 1) with (Z.succ (Z.log2 a)) by lia.
    apply Z.log2_spec. lia.
Qed.

Lemma log2_below (a : Z) : 0 < Z.log2 a -> 2 ^ Z.log2 a <= a.
Proof.
  intros HL. apply Z.log2_spec.
  destruct (Z.lt_ge_cases 0 a) as [Hp|Hp]; [exact Hp|].
  pose proof (Z.log2_nonpos a Hp). lia.
Qed.

(** Rounding to the nearest double is monotone. *)
Lemma nearest_mono (n1 n2 d : Z) :
  0 < d -> 0 <= n1 <= n2 -> nearest n1 d <= nearest n2 d.
Proof.
  intros Hd Hn. unfold nearest. cbv zeta.
  rewrite !Z.abs_eq by lia.
  assert (Ha1 : 0 <= n1 / d) by (apply Z.div_pos; lia).
  assert (Ha : n1 / d <= n2 / d) by (apply Z.div_le_mono; lia).
  pose proof (Z.log2_le_mono _ _ Ha) as HL.
  pose proof (Z.log2_nonneg (n1 / d)) as HL1.
  pose proof (log2_above (n1 / d) Ha1) as Hup.
  assert (Hlow : 0 < Z.log2 (n2 / d) -> 2 ^ Z.log2 (n2 / d) <= n2 / d)
    by apply log2_below.
  set (L1 := Z.log2 (n1 / d)) in *. set (L2 := Z.log2 (n2 / d)) in *.
  set (e1 := Z.max 0 (L1 - 52)). set (e2 := Z.max 0 (L2 - 52)).
  assert (Hu1 : 0 < 2 ^ e1) by (apply Z.pow_pos_nonneg; lia).
  assert (Hu2 : 0 < 2 ^ e2) by (apply Z.pow_pos_nonneg; lia).
  destruct (Z.eq_dec e1 e2) as [E|Ne].
  - rewrite <- E. apply Z.mul_le_mono_nonneg_l; [lia|].
    apply round_half_even_mono; [nia | lia].
  - assert (He : e1 < e2 /\ e2 = L2 - 52 /\ L1 + 1 <= L2) by lia.
    destruct He as (He & He2 & HL12).
    (* the first result is at most 2^(L1+1), the second at least 2^L2 *)
    assert (Hn1 : n1 < d * 2 ^ (L1 + 1)) by (now apply quotient_below).
    assert (Hn2 : d * 2 ^ L2 <= n2) by (apply quotient_above; [lia|]; apply Hlow; lia).
    assert (Hsplit1 : 2 ^ (L1 + 1) = 2 ^ e1 * 2 ^ (L1 + 1 - e1)).
    { rewrite <- Z.pow_add_r by lia. f_equal. lia. }
    assert (Hsplit2 : 2 ^ L2 = 2 ^ e2 * 2 ^ 52).
    { rewrite <- Z.pow_add_r by lia. f_equal. lia. }
    assert (Hk : 0 < 2 ^ (L1 + 1 - e1)) by (apply Z.pow_pos_nonneg; lia).
    assert (H1 : round_half_even n1 (d * 2 ^ e1) <= 2 ^ (L1 + 1 - e1)).
    { rewrite <- (round_half_even_exact (2 ^ (L1 + 1 - e1)) (d * 2 ^ e1))
        by nia.
      apply round_half_even_mono; [nia|]. rewrite Hsplit1 in Hn1. nia. }
    assert (H2 : 2 ^ 52 <= round_half_even n2 (d * 2 ^ e2)).
    { rewrite <- (round_half_even_exact (2 ^ 52) (d * 2 ^ e2)) at 1 by nia.
      apply round_half_even_mono; [nia|]. rewrite Hsplit2 in Hn2. nia. }
    assert (Hpow : 2 ^ (L1 + 1) <= 2 ^ L2) by (apply Z.pow_le_mono_r; lia).
    rewrite Hsplit1, Hsplit2 in Hpow. nia.
Qed.

Lemma nearest_0 (d : Z) : 0 < d -> nearest 0 d = 0.
Proof.
  intros Hd. unfold nearest. cbv zeta.
  set (u := 2 ^ _).
  assert (Hu : 0 < u) by (apply Z.pow_pos_nonneg; lia).
  change (round_half_even 0 (d * u))
    with (round_half_even (0 * (d * u)) (d * u)).
  rewrite round_half_even_exact; nia.
Qed.

Lemma nearest_nonneg (n d : Z) : 0 < d -> 0 <= n -> 0 <= nearest n d.
Proof.
  intros Hd Hn. rewrite <- (nearest_0 d Hd). apply nearest_mono; lia.
Qed.

(** From [2^52] units on, the nearest double is within the fraction
    [2^-53] of the number rounded. *)
Lemma nearest_error (n d : Z) :
  0 < d -> 2 ^ 52 <= n / d ->
  - n <= 2 ^ 53 * (d * nearest n d - n) <= n.
Proof.
  intros Hd Hn.
  assert (Hpos : 0 < 2 ^ 52) by (apply Z.pow_pos_nonneg; lia).
  assert (Hn0 : 0 <= n).
  { pose proof (quotient_above n d (2 ^ 52) Hd Hn). nia. }
  unfold nearest. cbv zeta. rewrite Z.abs_eq by lia.
  assert (HL : 52 <= Z.log2 (n / d)).
  { replace 52 with (Z.log2 (2 ^ 52)) by (now rewrite Z.log2_pow2).
    now apply Z.log2_le_mono. }
  pose proof (log2_below (n / d) ltac:(lia)) as Hlow.
  set (L := Z.log2 (n / d)) in *.
  replace (Z.max 0 (L - 52)) with (L - 52) by lia.
  assert (Hu : 0 < 2 ^ (L - 52)) by (apply Z.pow_pos_nonneg; lia).
  assert (Hsplit : 2 ^ L = 2 ^ (L - 52) * 2 ^ 52).
  { rewrite <- Z.pow_add_r by lia. f_equal. lia. }
  pose proof (round_half_even_error n (d * 2 ^ (L - 52)) ltac:(nia)) as He.
  pose proof (quotient_above n d (2 ^ L) Hd Hlow) as Hq.
  rewrite Hsplit in Hq.
  replace (2 ^ 53) with (2 * 2 ^ 52) by reflexivity.
  set (u := 2 ^ (L - 52)) in *. set (m := round_half_even n (d * u)) in *.
  nia.
Qed.

Lemma float_of_int_1000 : float_of_int 1000 = 1000 * float_unit.
Proof. vm_compute. reflexivity. Qed.

(** The timestamp in milliseconds grows with the time. *)
Lemma timestamp_ms_mono (dt1 dt2 : datetime) :
  0 <= dt1 <= dt2 -> timestamp_ms dt1 <= timestamp_ms dt2.
Proof.
  intros H. pose proof float_unit_pos as HU.
  unfold timestamp_ms, int_of_float, float_mul, timestamp, true_divide.
  rewrite float_of_int_1000.
  assert (H1 : 0 <= nearest (dt1 * float_unit) (10 ^ 6))
    by (apply nearest_nonneg; [lia | nia]).
  assert (H12 : nearest (dt1 * float_unit) (10 ^ 6)
                <= nearest (dt2 * float_unit) (10 ^ 6))
    by (apply nearest_mono; [lia | nia]).
  apply Z.quot_le_mono; [exact HU|].
  apply nearest_mono; [exact HU | nia].
Qed.

Lemma float_unit_large : 10 ^ 6 * 2 ^ 52 <= float_unit.
Proof. apply Z.leb_le. vm_compute. reflexivity. Qed.

(** The timestamp in milliseconds of a time from the epoch on is the
    number of whole milliseconds, to within one: the two roundings, of
    the division and of the product, stay below a quarter of a
    millisecond up to [datetime.max]. *)
Lemma timestamp_ms_accuracy (dt : datetime) :
  0 <= dt <= datetime_max ->
  dt / 1000 - 1 <= timestamp_ms dt <= dt / 1000 + 1.
Proof.
  intros [H0 Hmax]. unfold datetime_max in Hmax.
  destruct (Z.eq_dec dt 0) as [->|Hz]; [vm_compute; split; discriminate|].
  pose proof float_unit_pos as HU.
  pose proof float_unit_large as HUL.
  unfold timestamp_ms, int_of_float, float_mul, timestamp, true_divide.
  rewrite float_of_int_1000.
  change (10 ^ 6) with 1000000 in *. change (2 ^ 52) with 4503599627370496 in *.
  set (U := float_unit) in *.
  set (t := nearest (dt * U) 1000000).
  assert (Hq1 : 4503599627370496 <= dt * U / 1000000)
    by (apply Z.div_le_lower_bound; nia).
  pose proof (nearest_error (dt * U) 1000000 ltac:(lia) Hq1) as E1.
  fold t in E1. change (2 ^ 53) with 9007199254740992 in E1.
  assert (HX : U <= dt * U <= 253402300799999999 * U) by nia.
  pose proof (Z.div_mod dt 1000 ltac:(lia)) as Ek.
  pose proof (Z.mod_pos_bound dt 1000 ltac:(lia)) as Bk.
  assert (HY : 1000 * (dt / 1000 * U) <= dt * U
               <= 1000 * (dt / 1000 * U) + 999 * U) by nia.
  set (X := dt * U) in *. set (Y := dt / 1000 * U) in *.
  assert (Ht : 2251799813685248 <= t) by lia.
  replace (t * (1000 * U)) with (1000 * t * U) by ring.
  set (p := nearest (1000 * t * U) U).
  assert (Hq2 : 4503599627370496 <= 1000 * t * U / U)
    by (rewrite Z.div_mul by lia; lia).
  pose proof (nearest_error (1000 * t * U) U HU Hq2) as E2.
  fold p in E2. change (2 ^ 53) with 9007199254740992 in E2.
  assert (E2' : - (1000 * t) <= 9007199254740992 * (p - 1000 * t) <= 1000 * t)
    by nia.
  assert (Hp : 0 <= p) by lia.
  rewrite Z.quot_div_nonneg by lia.
  split.
  - apply Z.div_le_lower_bound; [exact HU|].
    fold Y. replace (U * (dt / 1000 - 1)) with (Y - U) by (unfold Y; ring).
    lia.
  - assert (p / U < dt / 1000 + 2); [|lia].
    apply Z.div_lt_upper_bound; [exact HU|].
    replace (U * (dt / 1000 + 2)) with (Y + 2 * U) by (unfold Y; ring).
    lia.
Qed.

(** ** Django's [Model.save] *)

Section ModelSaveFacts.
Context {Row : Type}.
Variable pk : Row -> Z.
Variable adding : Row -> bool.
Variable saved : Row -> Row.
Variable unique_name : string.
Variable unique_column : Row -> string.
Variable field_names : list string.
Variable columns_fit : (string -> bool) -> Row -> bool.
Variable pre_save : bool -> (string -> bool) -> (nat -> datetime) -> Row
                    -> Row * nat.
Variable update_columns : (string -> bool) -> Row -> Row -> Row.

Hypothesis pk_saved : forall r, pk (saved r) = pk r.
Hypothesis pk_pre_save :
  forall add w now r, pk (fst (pre_save add w now r)) = pk r.
Hypothesis pk_update_columns :
  forall w s r, pk (update_columns w s r) = pk r.
Hypothesis unique_saved :
  forall r, unique_column (saved r) = unique_column r.

Local Abbreviation Model_save_ :=
  (Model_save pk adding saved unique_name unique_column field_names
              columns_fit pre_save update_columns).
Local Abbreviation save_table_ :=
  (save_table pk adding saved unique_name unique_column
              columns_fit pre_save update_columns).
Local Abbreviation do_insert_ :=
  (do_insert pk saved unique_column columns_fit pre_save).
Local Abbreviation do_update_ := (do_update pk saved update_columns).

Lemma do_insert_Ok (self : Row) (table : list Row) (now : nat -> datetime)
      (self' : Row) (table' : list Row) :
  do_insert_ self table now = Ok (self', table') ->
  exists s,
    s = fst (pre_save true every_column now self)
    /\ self' = saved s
    /\ columns_fit every_column s = true
    /\ pk_exists pk s table = false
    /\ unique_violation pk unique_column s table = false
    /\ table' = table ++ [saved s].
Proof.
  unfold do_insert.
  destruct (columns_fit every_column _) eqn:Hfit; cbn [negb]; [|discriminate].
  destruct (pk_exists pk _ table) eqn:Hpk; cbn [orb]; [discriminate|].
  destruct (unique_violation pk unique_column _ table) eqn:Hu;
    [discriminate|].
  intros [= <- <-]. eexists. repeat split; eauto.
Qed.

(** The ways [_save_table] succeeds: a row is appended, or the row of
    the key is updated. *)
Lemma save_table_Ok (kwargs : save_kwargs) (self : Row) (table : list Row)
      (now : nat -> datetime) (self' : Row) (table' : list Row) :
  save_table_ kwargs self table now = Ok (self', table') ->
  (exists s0 now' s,
      (s0 = self \/ s0 = fst (pre_save false (written kwargs) now self))
      /\ s = fst (pre_save true every_column now' s0)
      /\ self' = saved s
      /\ columns_fit every_column s = true
      /\ pk_exists pk s table = false
      /\ unique_violation pk unique_column s table = false
      /\ table' = table ++ [saved s])
  \/ (exists s,
         s = fst (pre_save false (written kwargs) now self)
         /\ self' = saved s
         /\ force_insert kwargs = false
         /\ columns_fit (written kwargs) s = true
         /\ pk_exists pk s table = true
         /\ (written kwargs unique_name = true ->
             unique_violation pk unique_column s table = false)
         /\ table' = do_update_ kwargs s table).
Proof.
  unfold save_table.
  destruct (force_insert kwargs) eqn:Hfi; cbn [orb].
  - intros H. apply do_insert_Ok in H.
    destruct H as (s & Hs & H). left. exists self, now, s. auto.
  - destruct (adding self && negb (force_update kwargs)).
    + intros H. apply do_insert_Ok in H.
      destruct H as (s & Hs & H). left. exists self, now, s. auto.
    + destruct (pre_save false (written kwargs) now self) as [s reads] eqn:Hp.
      destruct (columns_fit (written kwargs) s) eqn:Hfit; cbn [negb];
        [|discriminate].
      destruct (pk_exists pk s table) eqn:Hpk.
      * destruct (written kwargs unique_name) eqn:Hw; cbn [andb].
        -- destruct (unique_violation pk unique_column s table) eqn:Hu;
             [discriminate|].
           intros [= <- <-]. right. exists s. cbn [fst]. auto 10.
        -- intros [= <- <-]. right. exists s. cbn [fst].
           repeat split; auto. discriminate.
      * destruct (force_update kwargs || given (update_fields kwargs));
          [discriminate|].
        intros H. apply do_insert_Ok in H.
        destruct H as (s1 & Hs1 & H). left.
        exists s, (fun k => now (reads + k)%nat), s1. cbn [fst]. auto.
Qed.

(** The three ways a save succeeds: nothing is written (an empty
    [update_fields]), a row is appended, or the row of the key is
    updated. *)
Lemma Model_save_Ok (kwargs : save_kwargs) (self : Row) (table : list Row)
      (now : nat -> datetime) (self' : Row) (table' : list Row) :
  Model_save_ kwargs self table now = Ok (self', table') ->
  (update_fields kwargs = Some [] /\ self' = self /\ table' = table)
  \/ (exists s0 now' s,
        (s0 = self \/ s0 = fst (pre_save false (written kwargs) now self))
        /\ s = fst (pre_save true every_column now' s0)
        /\ self' = saved s
        /\ columns_fit every_column s = true
        /\ pk_exists pk s table = false
        /\ unique_violation pk unique_column s table = false
        /\ table' = table ++ [saved s])
  \/ (exists s,
        s = fst (pre_save false (written kwargs) now self)
        /\ self' = saved s
        /\ force_insert kwargs = false
        /\ columns_fit (written kwargs) s = true
        /\ pk_exists pk s table = true
        /\ (written kwargs unique_name = true ->
            unique_violation pk unique_column s table = false)
        /\ table' = do_update_ kwargs s table).
Proof.
  unfold Model_save.
  destruct (force_insert kwargs
            && (force_update kwargs || given (update_fields kwargs)));
    [discriminate|].
  destruct (update_fields kwargs) as [[|f fields]|] eqn:Hf.
  - intros [= <- <-]. left. auto.
  - destruct (forallb _ (f :: fields)); [|discriminate].
    intros H. right. now apply save_table_Ok.
  - intros H. right. now apply save_table_Ok.
Qed.

(** Other rows are left as they are. *)
Lemma Model_save_frame (kwargs : save_kwargs) (self : Row) (table : list Row)
      (now : nat -> datetime) (self' : Row) (table' : list Row) :
  Model_save_ kwargs self table now = Ok (self', table') ->
  forall r, pk r <> pk self -> (In r table' <-> In r table).
Proof.
  intros H r Hr. apply Model_save_Ok in H.
  destruct H as [(_ & _ & ->)|[(s0 & now' & s & Hs0 & Hs & _ & _ & _ & _ & ->)
                              |(s & Hs & _ & _ & _ & _ & _ & ->)]].
  - reflexivity.
  - rewrite in_app_iff. cbn [In]. split; [|auto].
    intros [Hin|[<-|[]]]; [exact Hin|]. exfalso. apply Hr.
    rewrite pk_saved, Hs, pk_pre_save.
    destruct Hs0 as [->| ->]; [reflexivity | apply pk_pre_save].
  - assert (Hpk : pk s = pk self) by (rewrite Hs; apply pk_pre_save).
    unfold do_update. rewrite in_map_iff. split.
    + intros (x & <- & Hx).
      destruct (Z.eqb_spec (pk x) (pk s)) as [E|E]; [|exact Hx].
      exfalso. apply Hr. unfold updated_row.
      destruct (update_fields kwargs).
      * rewrite pk_update_columns. congruence.
      * rewrite pk_saved. exact Hpk.
    + intros Hin. exists r. split; [|exact Hin].
      destruct (Z.eqb_spec (pk r) (pk s)) as [E|E]; [congruence | reflexivity].
Qed.

(** A property of the instance that [pre_save] and the end of the save
    keep is kept by the save. *)
Lemma Model_save_instance (P : Row -> Prop) (kwargs : save_kwargs)
      (self : Row) (table : list Row) (now : nat -> datetime)
      (self' : Row) (table' : list Row) :
  (forall r, P r -> P (saved r)) ->
  (forall add w now r, P r -> P (fst (pre_save add w now r))) ->
  Model_save_ kwargs self table now = Ok (self', table') ->
  P self -> P self'.
Proof.
  intros Hsaved Hpre H HP. apply Model_save_Ok in H.
  destruct H as [(_ & -> & _)|[(s0 & now' & s & Hs0 & -> & -> & _)
                              |(s & -> & -> & _)]].
  - exact HP.
  - apply Hsaved, Hpre. destruct Hs0 as [->| ->]; [exact HP | now apply Hpre].
  - now apply Hsaved, Hpre.
Qed.

(** A save of the whole row writes the instance it returns under its
    key. *)
Lemma Model_save_whole (kwargs : save_kwargs) (self : Row) (table : list Row)
      (now : nat -> datetime) (self' : Row) (table' : list Row) :
  update_fields kwargs = None ->
  Model_save_ kwargs self table now = Ok (self', table') ->
  table' = write_row pk self' table
  /\ unique_violation pk unique_column self' table = false
  /\ pk self' = pk self
  /\ exists s, self' = saved s /\ columns_fit every_column s = true.
Proof.
  intros Hn H.
  assert (Hu : forall s, unique_violation pk unique_column (saved s) table
                         = unique_violation pk unique_column s table).
  { intros s. unfold unique_violation. now rewrite pk_saved, unique_saved. }
  assert (He : forall s, pk_exists pk (saved s) table = pk_exists pk s table).
  { intros s. unfold pk_exists. now rewrite pk_saved. }
  apply Model_save_Ok in H.
  destruct H as [(E & _)|[(s0 & now' & s & Hs0 & Hs & -> & Hfit & Hpk & Hun & ->)
                         |(s & Hs & -> & _ & Hfit & Hpk & Hun & ->)]].
  - congruence.
  - unfold write_row. rewrite He, Hpk, Hu. repeat split; auto.
    + rewrite pk_saved, Hs, pk_pre_save.
      destruct Hs0 as [->| ->]; [reflexivity | apply pk_pre_save].
    + now exists s.
  - unfold write_row, do_update, updated_row. rewrite He, Hpk, Hu, Hn.
    rewrite pk_saved. repeat split.
    + apply Hun. unfold written. now rewrite Hn.
    + rewrite Hs. apply pk_pre_save.
    + exists s. split; [reflexivity|].
      unfold written in Hfit. rewrite Hn in Hfit. exact Hfit.
Qed.

(** The save of the whole row of an instance that is not new, over the
    row of its key. *)
Lemma Model_save_update (kwargs : save_kwargs) (self : Row) (table : list Row)
      (now : nat -> datetime) :
  update_fields kwargs = None ->
  force_insert kwargs = false ->
  adding self = false ->
  columns_fit every_column (fst (pre_save false every_column now self))
  = true ->
  pk_exists pk self table = true ->
  unique_violation pk unique_column
                   (fst (pre_save false every_column now self)) table
  = false ->
  Model_save_ kwargs self table now
  = Ok (saved (fst (pre_save false every_column now self)),
        write_row pk (saved (fst (pre_save false every_column now self)))
                  table).
Proof.
  intros Hn Hfi Ha Hfit Hpk Hu.
  unfold Model_save, save_table, written. rewrite Hn, Hfi, Ha. cbn [andb orb].
  change (fun _ : string => true) with every_column.
  destruct (pre_save false every_column now self) as [s reads] eqn:Hp.
  cbn [fst] in *. rewrite Hfit. cbn [negb].
  assert (Hs : pk s = pk self).
  { replace s with (fst (pre_save false every_column now self))
      by (now rewrite Hp).
    apply pk_pre_save. }
  replace (pk_exists pk s table) with true
    by (unfold pk_exists in *; now rewrite Hs).
  rewrite Hu. cbn [andb].
  unfold write_row, do_update, updated_row. rewrite Hn.
  replace (pk_exists pk (saved s) table) with true
    by (unfold pk_exists in *; now rewrite pk_saved, Hs).
  now rewrite pk_saved.
Qed.

(** A change of the instance that the checks of the save do not see
    goes through a save of the whole row. *)
Section Morphism.
Variable g : Row -> Row.
Hypothesis g_pk : forall r, pk (g r) = pk r.
Hypothesis g_adding : forall r, adding (g r) = adding r.
Hypothesis g_saved : forall r, saved (g r) = g (saved r).
Hypothesis g_unique : forall r, unique_column (g r) = unique_column r.
Hypothesis g_fit : forall w r, columns_fit w (g r) = columns_fit w r.
Hypothesis g_pre_save :
  forall add w now r,
    pre_save add w now (g r)
    = (g (fst (pre_save add w now r)), snd (pre_save add w now r)).

Lemma pk_exists_morphism (r : Row) (table : list Row) :
  pk_exists pk (g r) table = pk_exists pk r table.
Proof. unfold pk_exists. now rewrite g_pk. Qed.

Lemma unique_violation_morphism (r : Row) (table : list Row) :
  unique_violation pk unique_column (g r) table
  = unique_violation pk unique_column r table.
Proof. unfold unique_violation. now rewrite g_pk, g_unique. Qed.

Lemma do_insert_morphism (self : Row) (table : list Row)
      (now : nat -> datetime) (self' : Row) (table' : list Row) :
  do_insert_ self table now = Ok (self', table') ->
  do_insert_ (g self) table now
  = Ok (g self', write_row pk (g self') table).
Proof.
  unfold do_insert. rewrite g_pre_save. cbn [fst].
  rewrite g_fit, pk_exists_morphism, unique_violation_morphism.
  destruct (columns_fit every_column _); cbn [negb]; [|discriminate].
  destruct (pk_exists pk _ table) eqn:Hpk; cbn [orb]; [discriminate|].
  destruct (unique_violation pk unique_column _ table); [discriminate|].
  intros [= <- <-]. rewrite g_saved. unfold write_row.
  replace (pk_exists pk (g (saved _)) table) with false; [reflexivity|].
  rewrite pk_exists_morphism. unfold pk_exists in *.
  now rewrite pk_saved.
Qed.

Lemma Model_save_morphism (kwargs : save_kwargs) (self : Row)
      (table : list Row) (now : nat -> datetime)
      (self' : Row) (table' : list Row) :
  update_fields kwargs = None ->
  Model_save_ kwargs self table now = Ok (self', table') ->
  Model_save_ kwargs (g self) table now
  = Ok (g self', write_row pk (g self') table).
Proof.
  intros Hn. unfold Model_save, save_table. rewrite Hn, g_adding.
  destruct (force_insert kwargs && _); [discriminate|].
  destruct (force_insert kwargs || _); [apply do_insert_morphism|].
  rewrite g_pre_save.
  destruct (pre_save false (written kwargs) now self) as [s reads].
  cbn [fst snd].
  rewrite g_fit, pk_exists_morphism, unique_violation_morphism.
  destruct (columns_fit (written kwargs) s); cbn [negb]; [|discriminate].
  destruct (pk_exists pk s table) eqn:Hpk.
  - destruct (written kwargs unique_name && _); [discriminate|].
    intros [= <- <-]. unfold write_row, do_update, updated_row.
    rewrite Hn, !g_saved, pk_exists_morphism, !g_pk, pk_saved.
    replace (pk_exists pk (saved s) table) with true
      by (unfold pk_exists in *; now rewrite pk_saved).
    reflexivity.
  - destruct (force_update kwargs || _); [discriminate|].
    apply do_insert_morphism.
Qed.
End Morphism.
End ModelSaveFacts.

(** ** Writing a row *)

Section WriteRow.
Context {Row : Type}.
Variable pk : Row -> Z.

Lemma find_write_row (row : Row) (table : list Row) :
  find (fun r => pk r =? pk row) (write_row pk row table) = Some row.
Proof.
  unfold write_row, pk_exists.
  induction table as [|r rest IH]; cbn.
  - now rewrite Z.eqb_refl.
  - destruct (pk r =? pk row) eqn:E; cbn.
    + now rewrite Z.eqb_refl.
    + destruct (existsb (fun r0 => pk r0 =? pk row) rest);
        cbn; rewrite E; exact IH.
Qed.

Lemma in_write_row (row : Row) (table : list Row) (r : Row) :
  In r (write_row pk row table) -> r = row \/ In r table.
Proof.
  unfold write_row. destruct (pk_exists pk row table).
  - intros H. apply in_map_iff in H. destruct H as (x & <- & Hx).
    destruct (pk x =? pk row); auto.
  - intros H. apply in_app_or in H. destruct H as [H|[H|[]]]; auto.
Qed.
End WriteRow.

(** ** The reference generator *)

Lemma get_In (s : string) (n : nat) (c : ascii) :
  String.get n s = Some c -> In c (list_ascii_of_string s).
Proof.
  revert n. induction s as [|a s IH]; intros [|n]; cbn; try discriminate.
  - intros [= ->]. now left.
  - intros H. right. exact (IH n H).
Qed.

Lemma get_Some (s : string) (n : nat) :
  (n < String.length s)%nat -> exists c, String.get n s = Some c.
Proof.
  revert n. induction s as [|a s IH]; intros [|n]; cbn; try lia.
  - intros _. now exists a.
  - intros H. apply IH. lia.
Qed.

Section Choices.
Variable entropy : nat -> Z.
Variable population : string.
Hypothesis population_nonempty : (0 < String.length population)%nat.

(** [random.choices] returns [k] characters of the population and
    advances the stream by [k] draws. *)
Lemma choices_Ok (k pos : nat) :
  exists s,
    choices entropy population k pos = Ok (s, (pos + k)%nat)
    /\ String.length s = k
    /\ Forall (fun c => In c (list_ascii_of_string population))
              (list_ascii_of_string s).
Proof.
  revert pos. induction k as [|k IH]; intros pos.
  - exists EmptyString. cbn. unfold ret. rewrite Nat.add_0_r. auto.
  - destruct (IH (S pos)) as (rest & E & Hlen & Hall).
    assert (Hi : (Z.to_nat (entropy pos mod Z.of_nat (String.length population))
                  < String.length population)%nat).
    { pose proof (Z.mod_pos_bound (entropy pos)
                    (Z.of_nat (String.length population))). lia. }
    destruct (get_Some _ _ Hi) as (c & Hc).
    exists (String c rest).
    cbn [choices]. unfold bind at 1. unfold randbelow at 1.
    unfold bind at 1. rewrite E. unfold ret. rewrite Hc.
    repeat split.
    + f_equal. f_equal. lia.
    + cbn. now rewrite Hlen.
    + cbn. constructor; [exact (get_In _ _ _ Hc) | exact Hall].
Qed.
End Choices.

Section Generator.
Variable entropy : nat -> Z.
Variable prefix : string.
Variable stored : list string.

Lemma choices_drawn_suffix (pos : nat) :
  choices entropy ascii_uppercase_digits 8 pos
  = Ok (drawn_suffix entropy pos, (pos + 8)%nat).
Proof.
  unfold drawn_suffix.
  destruct (choices_Ok entropy ascii_uppercase_digits
                       ltac:(cbn; lia) 8 pos) as (s & -> & _).
  reflexivity.
Qed.

Lemma drawn_suffix_format (pos : nat) :
  String.length (drawn_suffix entropy pos) = 8%nat
  /\ Forall (fun c => In c (list_ascii_of_string ascii_uppercase_digits))
            (list_ascii_of_string (drawn_suffix entropy pos)).
Proof.
  unfold drawn_suffix.
  destruct (choices_Ok entropy ascii_uppercase_digits
                       ltac:(cbn; lia) 8 pos) as (s & -> & Hlen & Hall).
  auto.
Qed.

Lemma candidate_shift (dt : datetime) (pos j : nat) :
  candidate entropy prefix dt pos (S j)
  = candidate entropy prefix dt (pos + 8) j.
Proof. unfold candidate. do 3 f_equal. lia. Qed.

Lemma reference_candidate_Some (dt : datetime) (pos : nat) :
  reference_candidate entropy prefix (Some dt) pos
  = Ok (candidate entropy prefix dt pos 0, (pos + 8)%nat).
Proof.
  unfold reference_candidate, reference_timestamp, bind, ret.
  rewrite choices_drawn_suffix. unfold candidate.
  now rewrite Nat.mul_0_r, Nat.add_0_r.
Qed.

(** With [created_at] unset, the first iteration raises. *)
Lemma reference_candidate_None (pos : nat) :
  reference_candidate entropy prefix None pos = Raise TypeError.
Proof. reflexivity. Qed.

Lemma generate_reference_None (fuel pos : nat) :
  generate_reference entropy prefix None stored fuel pos
  = match fuel with O => Diverge | S _ => Raise TypeError end.
Proof. destruct fuel; reflexivity. Qed.

(** With [created_at] set, the loop returns the first candidate that no
    stored row has, after drawing a fresh suffix for each candidate. *)
Lemma generate_reference_Some (dt : datetime) (fuel pos : nat)
      (r : string) (pos' : nat) :
  generate_reference entropy prefix (Some dt) stored fuel pos = Ok (r, pos')
  <-> exists k,
      (k < fuel)%nat
      /\ r = candidate entropy prefix dt pos k
      /\ reference_exists stored r = false
      /\ (forall j, (j < k)%nat ->
            reference_exists stored (candidate entropy prefix dt pos j) = true)
      /\ pos' = (pos + 8 * (k + 1))%nat.
Proof.
  revert pos. induction fuel as [|fuel IH]; intros pos.
  - cbn. unfold diverge. split; [discriminate|].
    intros (k & Hk & _). lia.
  - cbn [generate_reference]. unfold bind at 1.
    rewrite reference_candidate_Some.
    destruct (reference_exists stored (candidate entropy prefix dt pos 0))
      eqn:E; cbn [negb].
    + rewrite IH. split.
      * intros (k & Hk & -> & Hnew & Hold & ->).
        exists (S k). rewrite candidate_shift. repeat split; try lia; auto.
        intros [|j] Hj; [exact E|].
        rewrite candidate_shift. apply Hold. lia.
      * intros (k & Hk & -> & Hnew & Hold & ->).
        destruct k as [|k]; [congruence|].
        exists k. rewrite <- candidate_shift. repeat split; try lia; auto.
        intros j Hj. rewrite <- candidate_shift. apply Hold. lia.
    + unfold ret. split.
      * intros [= <- <-]. exists 0%nat. repeat split; try lia; auto.
      * intros (k & Hk & -> & Hnew & Hold & ->).
        destruct k as [|k].
        -- repeat f_equal; lia.
        -- rewrite (Hold 0%nat) in E by lia. discriminate.
Qed.
End Generator.

Lemma generate_reference_returns
      (entropy : nat -> Z) (prefix : string) (stored : list string)
      (dt : datetime) (fuel pos k : nat) :
  (k < fuel)%nat ->
  reference_exists stored (candidate entropy prefix dt pos k) = false ->
  exists r pos',
    generate_reference entropy prefix (Some dt) stored fuel pos = Ok (r, pos').
Proof.
  revert pos k. induction fuel as [|fuel IH]; intros pos k Hk Hnew; [lia|].
  cbn [generate_reference]. unfold bind at 1.
  rewrite reference_candidate_Some.
  destruct (reference_exists stored (candidate entropy prefix dt pos 0))
    eqn:E; cbn [negb].
  - destruct k as [|k]; [congruence|].
    rewrite candidate_shift in Hnew.
    apply (IH (pos + 8)%nat k); [lia | exact Hnew].
  - eexists _, _. reflexivity.
Qed.

(** What a run of the loop returns, for any prefix and table. *)
Lemma generate_reference_run
      (entropy : nat -> Z) (prefix : string)
      (created_at : option datetime) (stored : list string)
      (fuel pos : nat) :
  (forall r pos',
      generate_reference entropy prefix created_at stored fuel pos
      = Ok (r, pos') ->
      exists dt k suffix,
        created_at = Some dt
        /\ r = (prefix ++ str (PyInt (timestamp_ms dt)) ++ suffix)%string
        /\ suffix = drawn_suffix entropy (pos + 8 * k)
        /\ String.length suffix = 8%nat
        /\ Forall (fun c => In c (list_ascii_of_string ascii_uppercase_digits))
                  (list_ascii_of_string suffix)
        /\ reference_exists stored r = false
        /\ (forall j, (j < k)%nat ->
              reference_exists stored (candidate entropy prefix dt pos j)
              = true)
        /\ pos' = (pos + 8 * (k + 1))%nat)
  /\ (forall dt k,
        created_at = Some dt ->
        (k < fuel)%nat ->
        reference_exists stored (candidate entropy prefix dt pos k) = false ->
        exists r pos',
          generate_reference entropy prefix created_at stored fuel pos
          = Ok (r, pos')).
Proof.
  split.
  - intros r pos' H. destruct created_at as [dt|].
    + apply generate_reference_Some in H.
      destruct H as (k & _ & Hr & Hnew & Hold & Hpos).
      exists dt, k, (drawn_suffix entropy (pos + 8 * k)).
      destruct (drawn_suffix_format entropy (pos + 8 * k)) as [Hlen Hall].
      repeat split; auto.
    + rewrite generate_reference_None in H. destruct fuel; discriminate.
  - intros dt k -> Hk Hnew.
    exact (generate_reference_returns _ _ _ _ _ _ k Hk Hnew).
Qed.

(** C7: for each of the eight models, a reference that its
    [generate_reference] returns is the prefix of its domain (TXN, CRX,
    GFT, PAY, REF, AIR, BIL, SCH), followed by the millisecond timestamp
    of [created_at], followed by eight characters drawn from the
    upper-case letters and the digits; no stored row of the model has
    it, and every candidate before it collided with a stored row and
    was replaced by one with a freshly drawn suffix.  The loop returns
    as soon as a candidate is free.  The timestamp is
    [int(created_at.timestamp() * 1000)], computed in floating point:
    up to [datetime.max] it is the number of whole milliseconds since
    the epoch to within one. *)
Theorem generate_reference_spec
        (entropy : nat -> Z) (prefix : string)
        (created_at : option datetime) (stored : list string)
        (fuel pos : nat) (run : outcome (string * nat)) :
  (exists m,
      prefix = Spec.reference_prefix m
      /\ run = model_generate_reference m entropy created_at stored fuel pos)
  \/ (exists self table,
         prefix = "TXN"%string
         /\ created_at = Transactions.created_at self
         /\ stored = map Transactions.reference table
         /\ run = Transactions.Transaction_generate_reference
                    entropy self table fuel pos) ->
  (forall r pos',
      run = Ok (r, pos') ->
      exists dt k suffix,
        created_at = Some dt
        /\ r = (prefix ++ str (PyInt (timestamp_ms dt)) ++ suffix)%string
        /\ (0 <= dt <= datetime_max ->
            dt / 1000 - 1 <= timestamp_ms dt <= dt / 1000 + 1)
        /\ suffix = drawn_suffix entropy (pos + 8 * k)
        /\ String.length suffix = 8%nat
        /\ Forall (fun c => In c (list_ascii_of_string ascii_uppercase_digits))
                  (list_ascii_of_string suffix)
        /\ reference_exists stored r = false
        /\ (forall j, (j < k)%nat ->
              reference_exists stored (candidate entropy prefix dt pos j)
              = true)
        /\ pos' = (pos + 8 * (k + 1))%nat)
  /\ (forall dt k,
        created_at = Some dt ->
        (k < fuel)%nat ->
        reference_exists stored (candidate entropy prefix dt pos k) = false ->
        exists r pos', run = Ok (r, pos')).
Proof.
  intros Hrun.
  assert (E : run = generate_reference entropy prefix created_at stored
                                       fuel pos).
  { destruct Hrun as [(m & -> & ->)|(self & table & -> & -> & -> & ->)];
      [destruct m|]; reflexivity. }
  rewrite E.
  destruct (generate_reference_run entropy prefix created_at stored fuel pos)
    as [Hformat Hreturns].
  split; [|exact Hreturns].
  intros r pos' H.
  destruct (Hformat r pos' H)
    as (dt & k & suffix & Hc & Hr & Hs & Hlen & Hall & Hnew & Hold & Hpos).
  exists dt, k, suffix. repeat split; auto; now apply timestamp_ms_accuracy.
Qed.

(** A run of [Transaction.generate_reference] that collides once: the
    first candidate is stored already, the second, with the next eight
    draws as its suffix, is returned. *)
Lemma generate_reference_spec_witness :
  let table :=
    [Transactions.set_reference pending_transfer "TXN1700000000000DKRY5CJQ"] in
  Transactions.Transaction_generate_reference
    sample_entropy pending_transfer table 3%nat 0%nat
  = Ok ("TXN1700000000000X4BIPW3A"%string, 16%nat)
  /\ exists dt k suffix,
      Transactions.created_at pending_transfer = Some dt
      /\ "TXN1700000000000X4BIPW3A"%string
         = ("TXN" ++ str (PyInt (timestamp_ms dt)) ++ suffix)%string
      /\ (0 <= dt <= datetime_max ->
          dt / 1000 - 1 <= timestamp_ms dt <= dt / 1000 + 1)
      /\ suffix = drawn_suffix sample_entropy (0 + 8 * k)%nat
      /\ String.length suffix = 8%nat
      /\ Forall (fun c => In c (list_ascii_of_string ascii_uppercase_digits))
                (list_ascii_of_string suffix)
      /\ reference_exists (map Transactions.reference table)
                          "TXN1700000000000X4BIPW3A" = false
      /\ (forall j, (j < k)%nat ->
            reference_exists
              (map Transactions.reference table)
              (candidate sample_entropy "TXN" dt 0%nat j) = true)
      /\ 16%nat = (0 + 8 * (k + 1))%nat.
Proof.
  intros table.
  assert (E : Transactions.Transaction_generate_reference
                sample_entropy pending_transfer table 3%nat 0%nat
              = Ok ("TXN1700000000000X4BIPW3A"%string, 16%nat))
    by (vm_compute; reflexivity).
  split; [exact E|].
  refine (proj1 (generate_reference_spec
                   sample_entropy "TXN"
                   (Transactions.created_at pending_transfer)
                   (map Transactions.reference table) 3%nat 0%nat _ _)
                _ _ E).
  right. exists pending_transfer, table. repeat split.
Defined.

(** C10: on a transaction whose [created_at] is not set, which is every
    transaction before its first insertion, [generate_reference] does not
    return a reference: the fallback subscripts an int and the first
    iteration raises [TypeError]; so does [save] of a new transaction
    that has no reference yet, whatever its arguments. *)
Theorem generate_reference_unset_created_at
        (entropy : nat -> Z) (prefix : string) (stored : list string)
        (fuel pos : nat) :
  generate_reference entropy prefix None stored (S fuel) pos = Raise TypeError
  /\ forall kwargs table now,
      Transactions.save entropy new_transfer kwargs table now (S fuel) pos
      = Raise TypeError.
Proof. split; [|intros kwargs table now]; reflexivity. Qed.

(** ** Transactions: saving *)

Lemma pre_save_columns (add : bool) (w : string -> bool)
      (now : nat -> datetime) (t : Transactions.Transaction) :
  let t' := fst (Transactions.pre_save add w now t) in
  Transactions.id t' = Transactions.id t
  /\ Transactions.state_adding t' = Transactions.state_adding t
  /\ Transactions.reference t' = Transactions.reference t
  /\ Transactions.transaction_type t' = Transactions.transaction_type t
  /\ Transactions.source_account t' = Transactions.source_account t
  /\ Transactions.destination_account t'
     = Transactions.destination_account t
  /\ Transactions.amount t' = Transactions.amount t
  /\ Transactions.fee t' = Transactions.fee t
  /\ Transactions.tax t' = Transactions.tax t
  /\ Transactions.total_amount t' = Transactions.total_amount t
  /\ Transactions.status t' = Transactions.status t.
Proof.
  unfold Transactions.pre_save.
  destruct (add && w "created_at"%string), (w "updated_at"%string);
    cbn; repeat split.
Qed.

Lemma pre_save_id (add : bool) (w : string -> bool)
      (now : nat -> datetime) (t : Transactions.Transaction) :
  Transactions.id (fst (Transactions.pre_save add w now t))
  = Transactions.id t.
Proof. apply pre_save_columns. Qed.

Section TransactionSave.
Variable entropy : nat -> Z.

(** What a successful [save] has done: the reference is assigned if
    there was none, the total is computed, and the instance is handed
    to [Model.save]. *)
Lemma save_inversion (self : Transactions.Transaction)
      (kwargs : save_kwargs) (table : list Transactions.Transaction)
      (now : nat -> datetime) (fuel pos : nat)
      (self' : Transactions.Transaction)
      (table' : list Transactions.Transaction) (pos' : nat) :
  Transactions.save entropy self kwargs table now fuel pos
  = Ok ((self', table'), pos') ->
  exists r,
    Transactions.super_save
      kwargs
      (Transactions.set_total_amount
         (Transactions.set_reference self r)
         (Transactions.amount self + Transactions.fee self
          + Transactions.tax self))
      table now
    = Ok (self', table')
    /\ not_ r = false
    /\ (if not_ (Transactions.reference self)
        then Transactions.Transaction_generate_reference
               entropy self table fuel pos = Ok (r, pos')
        else r = Transactions.reference self /\ pos' = pos).
Proof.
  unfold Transactions.save, bind, lift, ret.
  destruct (not_ (Transactions.reference self)) eqn:Hr.
  - destruct (Transactions.Transaction_generate_reference
                entropy self table fuel pos) as [[r p]| |] eqn:Hg;
      try discriminate.
    cbn zeta.
    destruct (Transactions.super_save kwargs _ table now) as [[s t]| |] eqn:E;
      try discriminate.
    intros [= <- <- <-]. exists r. repeat split; auto.
    unfold Transactions.Transaction_generate_reference in Hg.
    destruct (Transactions.created_at self) as [dt|].
    + apply generate_reference_Some in Hg.
      destruct Hg as (k & _ & -> & _). reflexivity.
    + rewrite generate_reference_None in Hg. destruct fuel; discriminate.
  - cbn zeta.
    destruct (Transactions.super_save kwargs _ table now) as [[s t]| |] eqn:E;
      try discriminate.
    intros [= <- <- <-]. exists (Transactions.reference self).
    replace (Transactions.set_reference self (Transactions.reference self))
      with self by (now destruct self).
    auto.
Qed.

(** The columns of the instance that a successful [save] leaves as they
    were, and the total it computes. *)
Lemma save_columns (self : Transactions.Transaction)
      (kwargs : save_kwargs) (table : list Transactions.Transaction)
      (now : nat -> datetime) (fuel pos : nat)
      (self' : Transactions.Transaction)
      (table' : list Transactions.Transaction) (pos' : nat) :
  Transactions.save entropy self kwargs table now fuel pos
  = Ok ((self', table'), pos') ->
  Transactions.id self' = Transactions.id self
  /\ Transactions.transaction_type self' = Transactions.transaction_type self
  /\ Transactions.source_account self' = Transactions.source_account self
  /\ Transactions.destination_account self'
     = Transactions.destination_account self
  /\ Transactions.amount self' = Transactions.amount self
  /\ Transactions.fee self' = Transactions.fee self
  /\ Transactions.tax self' = Transactions.tax self
  /\ Transactions.status self' = Transactions.status self
  /\ Transactions.total_amount self'
     = Some (Transactions.amount self + Transactions.fee self
             + Transactions.tax self).
Proof.
  intros H.
  destruct (save_inversion _ _ _ _ _ _ _ _ _ H) as (r & Hsave & _).
  unfold Transactions.super_save in Hsave.
  eapply Model_save_instance
    with (P := fun t =>
                 Transactions.id t = Transactions.id self
                 /\ Transactions.transaction_type t
                    = Transactions.transaction_type self
                 /\ Transactions.source_account t
                    = Transactions.source_account self
                 /\ Transactions.destination_account t
                    = Transactions.destination_account self
                 /\ Transactions.amount t = Transactions.amount self
                 /\ Transactions.fee t = Transactions.fee self
                 /\ Transactions.tax t = Transactions.tax self
                 /\ Transactions.status t = Transactions.status self
                 /\ Transactions.total_amount t
                    = Some (Transactions.amount self + Transactions.fee self
                            + Transactions.tax self));
    [ | | exact Hsave | ].
  - intros t Ht. exact Ht.
  - intros add w now' t Ht.
    destruct (pre_save_columns add w now' t)
      as (-> & _ & _ & -> & -> & -> & -> & -> & -> & -> & ->).
    exact Ht.
  - cbn. repeat split.
Qed.

(** A save of the whole row writes the returned instance under its
    key. *)
Lemma save_whole (self : Transactions.Transaction)
      (kwargs : save_kwargs) (table : list Transactions.Transaction)
      (now : nat -> datetime) (fuel pos : nat)
      (self' : Transactions.Transaction)
      (table' : list Transactions.Transaction) (pos' : nat) :
  update_fields kwargs = None ->
  Transactions.save entropy self kwargs table now fuel pos
  = Ok ((self', table'), pos') ->
  table' = write_row Transactions.id self' table
  /\ unique_violation Transactions.id Transactions.reference self' table
     = false.
Proof.
  intros Hn H.
  destruct (save_inversion _ _ _ _ _ _ _ _ _ H) as (r & Hsave & _).
  unfold Transactions.super_save in Hsave.
  eapply Model_save_whole in Hsave;
    [tauto | reflexivity | apply pre_save_id | reflexivity | exact Hn].
Qed.

(** A status written to the instance goes through a save of the whole
    row: the checks of [save] do not look at it. *)
Lemma save_set_status (self : Transactions.Transaction)
      (kwargs : save_kwargs) (table : list Transactions.Transaction)
      (now : nat -> datetime) (fuel pos : nat)
      (self' : Transactions.Transaction)
      (table' : list Transactions.Transaction) (pos' : nat) (s : string) :
  update_fields kwargs = None ->
  Transactions.save entropy self kwargs table now fuel pos
  = Ok ((self', table'), pos') ->
  Transactions.save entropy (Transactions.set_status self s) kwargs
                    table now fuel pos
  = Ok ((Transactions.set_status self' s,
         write_row Transactions.id (Transactions.set_status self' s) table),
        pos').
Proof.
  intros Hn.
  assert (Hm : forall t t' tb',
             Transactions.super_save kwargs t table now = Ok (t', tb') ->
             Transactions.super_save
               kwargs (Transactions.set_status t s) table now
             = Ok (Transactions.set_status t' s,
                   write_row Transactions.id
                             (Transactions.set_status t' s) table)).
  { intros t t' tb' Ht. unfold Transactions.super_save in *.
    eapply Model_save_morphism
      with (g := fun t => Transactions.set_status t s) in Ht;
      [exact Ht | try reflexivity .. | exact Hn].
    intros add w now' t0. unfold Transactions.pre_save.
    destruct (add && w "created_at"%string), (w "updated_at"%string);
      reflexivity. }
  intros H.
  destruct (save_inversion _ _ _ _ _ _ _ _ _ H) as (r & Hsave & _ & Hgen).
  apply Hm in Hsave.
  unfold Transactions.save, bind, lift, ret.
  unfold Transactions.Transaction_generate_reference in *.
  change (Transactions.reference (Transactions.set_status self s))
    with (Transactions.reference self).
  change (Transactions.created_at (Transactions.set_status self s))
    with (Transactions.created_at self).
  assert (Hgoal :
            match
              Transactions.super_save
                kwargs
                (Transactions.set_total_amount
                   (Transactions.set_reference
                      (Transactions.set_status self s) r)
                   (Transactions.amount
                      (Transactions.set_reference
                         (Transactions.set_status self s) r)
                    + Transactions.fee
                        (Transactions.set_reference
                           (Transactions.set_status self s) r)
                    + Transactions.tax
                        (Transactions.set_reference
                           (Transactions.set_status self s) r)))
                table now
            with
            | Ok a => Ok (a, pos')
            | Raise e => Raise e
            | Diverge => Diverge
            end
            = Ok ((Transactions.set_status self' s,
                   write_row Transactions.id
                             (Transactions.set_status self' s) table),
                  pos')).
  { exact (f_equal (fun o => match o with
                             | Ok a => Ok (a, pos')
                             | Raise e => Raise e
                             | Diverge => Diverge
                             end) Hsave). }
  destruct (not_ (Transactions.reference self)).
  - rewrite Hgen. exact Hgoal.
  - destruct Hgen as [-> ->].
    replace (Transactions.set_reference (Transactions.set_status self s)
                                        (Transactions.reference self))
      with (Transactions.set_status self s) in Hgoal
      by (now destruct self).
    exact Hgoal.
Qed.
End TransactionSave.

(** C4: [save] computes [total_amount = amount + fee + tax] on the
    instance at every call, but passes its arguments on to [Model.save]
    as they are: the stored transfer of 1,000 with fee 50, tax 20 and
    total 1,070 is loaded, given a fee of 60 and saved with
    [update_fields=["fee"]]; the instance gets the new total, 1,080,
    but only the fee is written, and the row persisted keeps 1,070,
    which is not its amount plus its fee plus its tax. *)
Theorem save_update_fields_keeps_total :
  exists self' row,
    Transactions.save sample_entropy transfer_with_fee_60 only_fee
                      [settled_transfer] sample_clock 3%nat 0%nat
    = Ok ((self', [row]), 0%nat)
    /\ Transactions.total_amount self' = Some (whole 1080)
    /\ Transactions.amount row = whole 1000
    /\ Transactions.fee row = whole 60
    /\ Transactions.tax row = whole 20
    /\ Transactions.total_amount row = Some (whole 1070)
    /\ Transactions.total_amount row
       <> Some (Transactions.amount row + Transactions.fee row
                + Transactions.tax row).
Proof.
  eexists _, _. split; [vm_compute; reflexivity|].
  repeat split. discriminate.
Qed.

(** C5, as stated, fails: the stored transaction is PENDING; written
    with status COMPLETED, as the admin form may, [save] raises nothing
    and the stored row is COMPLETED. *)
Lemma save_completes_pending :
  Transactions.status pending_transfer = "PENDING"%string
  /\ Transactions.admin_editable "status" = true
  /\ exists self',
      Transactions.save sample_entropy
                        (Transactions.set_status pending_transfer "COMPLETED")
                        no_kwargs [pending_transfer] sample_clock 3%nat 0%nat
      = Ok ((self', [self']), 0%nat)
      /\ Transactions.status self' = "COMPLETED"%string.
Proof.
  split; [reflexivity|]. split; [reflexivity|].
  eexists. split; [vm_compute; reflexivity | reflexivity].
Qed.

(** C5, amended: the model's two eligibility checks follow the
    lifecycle, [can_be_cancelled] holding exactly in PENDING and
    PROCESSING and [can_be_reversed] exactly in COMPLETED, and a check
    leaves the transaction as it was; [save] has no guard on the status:
    whenever a save of the whole row of a transaction succeeds, the
    save of the same transaction with any status [s] of
    [STATUS_CHOICES] written to its field succeeds as well, and stores
    the row with that status. *)
Theorem lifecycle_checks
        (entropy : nat -> Z) (t : Transactions.Transaction)
        (kwargs : save_kwargs)
        (table : list Transactions.Transaction) (now : nat -> datetime)
        (fuel pos : nat) (s : string) :
  (fst (Transactions.call Transactions.can_be_cancelled t) = true
   <-> Transactions.status t = "PENDING"%string
       \/ Transactions.status t = "PROCESSING"%string)
  /\ (fst (Transactions.call Transactions.can_be_reversed t) = true
      <-> Transactions.status t = "COMPLETED"%string)
  /\ snd (Transactions.call Transactions.can_be_cancelled t) = t
  /\ snd (Transactions.call Transactions.can_be_reversed t) = t
  /\ (forall self' table' pos',
        update_fields kwargs = None ->
        In s Transactions.STATUS_CHOICES ->
        Transactions.save entropy t kwargs table now fuel pos
        = Ok ((self', table'), pos') ->
        exists self'' table'',
          Transactions.save entropy (Transactions.set_status t s) kwargs
                            table now fuel pos
          = Ok ((self'', table''), pos')
          /\ Transactions.status self'' = s
          /\ find (fun r => Transactions.id r =? Transactions.id t) table''
             = Some self'').
Proof.
  unfold Transactions.call. cbn [fst snd].
  split; [|split; [|split; [reflexivity|split; [reflexivity|]]]].
  - apply can_be_cancelled_iff.
  - apply can_be_reversed_iff.
  - intros self' table' pos' Hn _ H.
    exists (Transactions.set_status self' s),
           (write_row Transactions.id (Transactions.set_status self' s) table).
    split; [exact (save_set_status entropy _ _ _ _ _ _ _ _ _ s Hn H)|].
    split; [reflexivity|].
    destruct (save_columns entropy _ _ _ _ _ _ _ _ _ H) as (Hid & _).
    rewrite <- Hid.
    change (Transactions.id self')
      with (Transactions.id (Transactions.set_status self' s)).
    apply find_write_row.
Qed.

(** A stored transaction that FAILED, written as COMPLETED. *)
Lemma lifecycle_checks_witness :
  let failed := Transactions.set_status pending_transfer "FAILED" in
  exists self' table',
    Transactions.save sample_entropy
                      (Transactions.set_status failed "COMPLETED")
                      no_kwargs [failed] sample_clock 3%nat 0%nat
    = Ok ((self', table'), 0%nat)
    /\ Transactions.status self' = "COMPLETED"%string
    /\ find (fun r => Transactions.id r =? Transactions.id failed) table'
       = Some self'.
Proof.
  intros failed.
  assert (E : Transactions.save sample_entropy failed no_kwargs [failed]
                                sample_clock 3%nat 0%nat
              = Ok ((Transactions.set_updated_at
                       (Transactions.set_total_amount failed (whole 1070))
                       (sample_clock 0),
                     [Transactions.set_updated_at
                        (Transactions.set_total_amount failed (whole 1070))
                        (sample_clock 0)]),
                    0%nat)) by (vm_compute; reflexivity).
  refine (proj2 (proj2 (proj2 (proj2
            (lifecycle_checks sample_entropy failed no_kwargs [failed]
                              sample_clock 3%nat 0%nat "COMPLETED"))))
            _ _ _ eq_refl _ E).
  cbn. tauto.
Defined.

(** ** Accounts: saving and the ledger invariant *)

Section AccountSave.
Variable entropy : nat -> Z.

(** What a successful [save] has done: at most the account number is
    assigned before the row is written. *)
Lemma account_save_inversion (self : Accounts.BankAccount)
      (kwargs : save_kwargs) (table : list Accounts.BankAccount)
      (fuel pos : nat)
      (self' : Accounts.BankAccount) (table' : list Accounts.BankAccount)
      (pos' : nat) :
  Accounts.save entropy self kwargs table fuel pos
  = Ok ((self', table'), pos') ->
  exists number,
    Accounts.super_save
      kwargs (Accounts.set_account_number self number) table
    = Ok (self', table')
    /\ (if not_ (Accounts.account_number self)
        then Accounts.generate_account_number entropy table fuel pos
             = Ok (number, pos')
        else number = Accounts.account_number self /\ pos' = pos).
Proof.
  unfold Accounts.save, bind, lift, ret.
  destruct (not_ (Accounts.account_number self)).
  - destruct (Accounts.generate_account_number entropy table fuel pos)
      as [[number p]| |]; try discriminate.
    destruct (Accounts.super_save kwargs _ table) as [[s t]| |] eqn:E;
      try discriminate.
    intros [= <- <- <-]. exists number. auto.
  - destruct (Accounts.super_save kwargs self table) as [[s t]| |] eqn:E;
      try discriminate.
    intros [= <- <- <-]. exists (Accounts.account_number self).
    replace (Accounts.set_account_number self (Accounts.account_number self))
      with self by (now destruct self).
    auto.
Qed.
End AccountSave.

(** C1, amended: an account built with the model's defaults satisfies
    [balance = available_balance + frozen_balance] and
    [available_balance >= 0]; [save] and [can_withdraw] leave the three
    balance fields of the instance as they were and [save] changes no
    other row: the rows under other keys are those there were; so a
    save of the whole row (one without [update_fields]) of an account
    that satisfies the invariant, into a table whose rows satisfy it,
    gives a table whose rows satisfy it. *)
Theorem ledger_invariant_preserved
        (entropy : nat -> Z) (self : Accounts.BankAccount)
        (kwargs : save_kwargs)
        (table : list Accounts.BankAccount) (fuel pos : nat)
        (self' : Accounts.BankAccount) (table' : list Accounts.BankAccount)
        (pos' : nat) :
  Accounts.save entropy self kwargs table fuel pos
  = Ok ((self', table'), pos') ->
  (forall id user, Spec.ledger_invariant (Accounts.new id user))
  /\ Accounts.balance self' = Accounts.balance self
  /\ Accounts.available_balance self' = Accounts.available_balance self
  /\ Accounts.frozen_balance self' = Accounts.frozen_balance self
  /\ (forall a, Accounts.id a <> Accounts.id self ->
                (In a table' <-> In a table))
  /\ (update_fields kwargs = None ->
      Spec.ledger_invariant self ->
      Forall Spec.ledger_invariant table ->
      Forall Spec.ledger_invariant table')
  /\ (forall amount,
        snd (Accounts.call (fun a => Accounts.can_withdraw a amount) self)
        = self).
Proof.
  intros H.
  destruct (account_save_inversion entropy _ _ _ _ _ _ _ _ H)
    as (number & Hsave & _).
  unfold Accounts.super_save in Hsave.
  assert (Hbal : Accounts.balance self' = Accounts.balance self
                 /\ Accounts.available_balance self'
                    = Accounts.available_balance self
                 /\ Accounts.frozen_balance self'
                    = Accounts.frozen_balance self).
  { eapply Model_save_instance
      with (P := fun r => Accounts.balance r = Accounts.balance self
                          /\ Accounts.available_balance r
                             = Accounts.available_balance self
                          /\ Accounts.frozen_balance r
                             = Accounts.frozen_balance self);
      [ | | exact Hsave | ]; cbn; auto. }
  destruct Hbal as (Hb & Ha & Hf).
  assert (Hframe : forall a, Accounts.id a <> Accounts.id self ->
                             (In a table' <-> In a table)).
  { intros a Hne.
    eapply Model_save_frame; [ | | | exact Hsave | exact Hne]; reflexivity. }
  split; [intros i u; split; cbn; lia|].
  repeat split; auto; try (now apply Hframe).
  intros Hn [Hsum Hpos] Hall.
  assert (Hw : table' = write_row Accounts.id self' table).
  { eapply Model_save_whole in Hsave; [tauto | reflexivity .. | exact Hn]. }
  rewrite Hw. apply Forall_forall. intros a Ha'.
  destruct (in_write_row _ _ _ _ Ha') as [->|Hin].
  - unfold Spec.ledger_invariant. rewrite Hb, Ha, Hf. auto.
  - exact (proj1 (Forall_forall _ _) Hall a Hin).
Qed.

(** C1, as stated, fails: a save of a new account whose caller set
    [balance] to 100.00 with nothing available and nothing frozen goes
    through, so a reachable table holds an account with
    [balance <> available_balance + frozen_balance]; the admin form
    offers the three balance fields for editing. *)
Lemma reachable_unbalanced :
  reachable sample_entropy [unbalanced_account]
  /\ ~ Spec.ledger_invariant unbalanced_account
  /\ forallb Accounts.admin_editable
             ["balance"; "available_balance"; "frozen_balance"]%string = true.
Proof.
  split; [|split; [|reflexivity]].
  - apply (reachable_save sample_entropy
                          (Accounts.set_state_adding unbalanced_account true)
                          no_kwargs [] 1%nat 0%nat
                          unbalanced_account [unbalanced_account] 0%nat).
    + constructor.
    + vm_compute. reflexivity.
  - intros [H _]. discriminate H.
Qed.

(** Saving the sample account with a hold of 60.00 over its row, next to
    the row of another account. *)
Lemma ledger_invariant_preserved_witness :
  exists self' table',
    Accounts.save sample_entropy account_with_hold no_kwargs
                  sample_accounts 1%nat 0%nat
    = Ok ((self', table'), 0%nat)
    /\ Forall Spec.ledger_invariant table'
    /\ forall a, Accounts.id a <> 1 -> (In a table' <-> In a sample_accounts).
Proof.
  eexists _, _.
  assert (E : Accounts.save sample_entropy account_with_hold no_kwargs
                            sample_accounts 1%nat 0%nat
              = Ok ((account_with_hold,
                     [account_with_hold;
                      nth 1 sample_accounts account_with_hold]), 0%nat))
    by (vm_compute; reflexivity).
  split; [exact E|].
  destruct (ledger_invariant_preserved _ _ _ _ _ _ _ _ _ E)
    as (_ & _ & _ & _ & Hframe & Hinv & _).
  split; [|exact Hframe].
  apply Hinv.
  - reflexivity.
  - split; [reflexivity | cbn; lia].
  - repeat constructor; cbn; lia.
Defined.

(** ** The reservation of the specification *)

(** C8: a reservation of [amount] followed by the release of its hold
    gives back the account as it was, its available balance included,
    and neither step changes [balance]; the reservation goes through
    whenever [can_withdraw] accepts the amount. *)
Theorem reserve_release_round_trip
        (a : Accounts.BankAccount) (amount : Decimal) :
  (forall h a',
      Ledger.reserve a amount = inr (h, a') ->
      Accounts.available_balance (Ledger.release h a')
      = Accounts.available_balance a
      /\ Accounts.balance (Ledger.release h a') = Accounts.balance a'
      /\ Accounts.balance a' = Accounts.balance a
      /\ Accounts.available_balance a'
         = Accounts.available_balance a - amount
      /\ Accounts.frozen_balance a' = Accounts.frozen_balance a + amount
      /\ Ledger.release h a' = a)
  /\ (Accounts.can_withdraw a amount = true ->
      exists h a', Ledger.reserve a amount = inr (h, a')).
Proof.
  unfold Ledger.reserve, Accounts.can_withdraw. split.
  - intros h a'.
    destruct (Accounts.is_active a); cbn [negb]; try discriminate.
    destruct ((amount <=? Accounts.available_balance a)
              && (amount <=? Accounts.single_transaction_limit a));
      try discriminate.
    intros [= <- <-]. destruct a.
    unfold Ledger.release, Ledger.move_to_frozen, Decimal in *. cbn.
    repeat split; try lia. f_equal; lia.
  - rewrite <- andb_assoc. intros H. apply andb_true_iff in H.
    destruct H as [-> ->]. cbn. eexists _, _. reflexivity.
Qed.

(** Reserving 60.00 of the 100.00 available and releasing the hold. *)
Lemma reserve_release_round_trip_witness :
  exists h a',
    Ledger.reserve account_with_100 (whole 60) = inr (h, a')
    /\ Accounts.available_balance a' = whole 40
    /\ Accounts.frozen_balance a' = whole 60
    /\ Ledger.release h a' = account_with_100.
Proof.
  destruct (reserve_release_round_trip account_with_100 (whole 60))
    as [Hround Hreturns].
  destruct (Hreturns eq_refl) as (h & a' & E).
  exists h, a'. split; [exact E|].
  destruct (Hround h a' E) as (_ & _ & _ & Hav & Hfr & Hrel).
  repeat split; [rewrite Hav | rewrite Hfr | exact Hrel]; reflexivity.
Defined.

(** * Further properties of the models *)

(** ** The daily limit check and the history *)

Lemma in__true (x : string) (xs : list string) :
  in_ x xs = true -> In x xs.
Proof.
  unfold in_. intros H. apply existsb_exists in H.
  destruct H as (y & Hy & E). apply String.eqb_eq in E. now subst y.
Qed.

Lemma check_daily_limit_outside
      (date_of : datetime -> date) (accounts : list Accounts.BankAccount)
      (table : list Transactions.Transaction)
      (l : Transactions.TransactionLimit) (today : date)
      (ty : string) (amount : Decimal) :
  category_of ty = None ->
  Transactions.check_daily_limit date_of accounts table l today ty amount
  = true.
Proof.
  unfold category_of, Transactions.check_daily_limit. cbn [Spec.category_set].
  destruct (in_ ty ["TRANSFER"; "PAYMENT"]%string); [discriminate|].
  unfold in_ at 1. cbn [existsb]. rewrite orb_false_r.
  destruct (String.eqb ty "WITHDRAWAL"); [discriminate|].
  destruct (in_ ty ["CRYPTO_BUY"; "CRYPTO_SELL"]%string); [discriminate|].
  reflexivity.
Qed.

(** The check, by the category of the type. *)
Lemma check_daily_limit_by_category
      (date_of : datetime -> date) (accounts : list Accounts.BankAccount)
      (table : list Transactions.Transaction)
      (l : Transactions.TransactionLimit) (today : date)
      (ty : string) (amount : Decimal) :
  Transactions.check_daily_limit date_of accounts table l today ty amount
  = match category_of ty with
    | Some c =>
        Spec.running_total date_of accounts (Transactions.user l) c today table
        + amount <=? Spec.daily_ceiling l c
    | None => true
    end.
Proof.
  destruct (category_of ty) as [c|] eqn:E.
  - apply check_daily_limit_in_category.
    unfold category_of in E.
    destruct (in_ ty (Spec.category_set Spec.Transfer)) eqn:E1;
      [injection E as <-; now apply in__true|].
    destruct (in_ ty (Spec.category_set Spec.Withdrawal)) eqn:E2;
      [injection E as <-; now apply in__true|].
    destruct (in_ ty (Spec.category_set Spec.Crypto)) eqn:E3;
      [injection E as <-; now apply in__true | discriminate].
  - now apply check_daily_limit_outside.
Qed.

Section RunningTotalFacts.
Variable date_of : datetime -> date.
Variable accounts : list Accounts.BankAccount.
Variable u : Z.
Variable c : Spec.category.
Variable today : date.

Lemma running_total_app (t1 t2 : list Transactions.Transaction) :
  Spec.running_total date_of accounts u c today (t1 ++ t2)
  = Spec.running_total date_of accounts u c today t1
    + Spec.running_total date_of accounts u c today t2.
Proof.
  induction t1 as [|t rest IH]; cbn [app Spec.running_total]; [reflexivity|].
  destruct (Spec.counts date_of accounts u c today t); rewrite IH; unfold Decimal in *; lia.
Qed.

Lemma running_total_insert (t1 t2 : list Transactions.Transaction)
      (t : Transactions.Transaction) :
  Spec.running_total date_of accounts u c today (t1 ++ t :: t2)
  = Spec.running_total date_of accounts u c today (t1 ++ t2)
    + (if Spec.counts date_of accounts u c today t
       then Transactions.amount t else 0).
Proof.
  rewrite !running_total_app. cbn [Spec.running_total].
  destruct (Spec.counts date_of accounts u c today t); unfold Decimal in *; lia.
Qed.

Lemma running_total_Permutation (t1 t2 : list Transactions.Transaction) :
  Permutation t1 t2 ->
  Spec.running_total date_of accounts u c today t1
  = Spec.running_total date_of accounts u c today t2.
Proof.
  induction 1 as [|t a b _ IH|t t' a|a b d _ IH1 _ IH2];
    cbn [Spec.running_total].
  - reflexivity.
  - now rewrite IH.
  - destruct (Spec.counts date_of accounts u c today t);
      destruct (Spec.counts date_of accounts u c today t'); unfold Decimal in *; lia.
  - now rewrite IH1.
Qed.

Lemma counts_same_for_limit (t t' : Transactions.Transaction) :
  same_for_limit t t' ->
  Spec.counts date_of accounts u c today t'
  = Spec.counts date_of accounts u c today t.
Proof.
  intros (Hs & Hty & _ & Hst & Hcr).
  unfold Spec.counts, Transactions.source_account__user.
  now rewrite Hs, Hty, Hst, Hcr.
Qed.

Lemma running_total_same_for_limit (t1 t2 : list Transactions.Transaction) :
  Forall2 same_for_limit t1 t2 ->
  Spec.running_total date_of accounts u c today t2
  = Spec.running_total date_of accounts u c today t1.
Proof.
  induction 1 as [|t t' a b H _ IH]; cbn [Spec.running_total]; [reflexivity|].
  rewrite (counts_same_for_limit t t' H), IH.
  destruct H as (_ & _ & -> & _). reflexivity.
Qed.
End RunningTotalFacts.

(** X1: the daily check is monotone in the amount: a request that
    passes still passes for every smaller amount, against the same
    history and ceilings. *)
Theorem check_daily_limit_monotone
        (date_of : datetime -> date) (accounts : list Accounts.BankAccount)
        (table : list Transactions.Transaction)
        (l : Transactions.TransactionLimit) (today : date)
        (ty : string) (amount amount' : Decimal) :
  amount' <= amount ->
  Transactions.check_daily_limit date_of accounts table l today ty amount
  = true ->
  Transactions.check_daily_limit date_of accounts table l today ty amount'
  = true.
Proof.
  intros Hle. rewrite !check_daily_limit_by_category.
  destruct (category_of ty) as [c|]; [|trivial].
  rewrite !Z.leb_le. unfold Decimal in *. lia.
Qed.

Lemma check_daily_limit_monotone_witness :
  Transactions.check_daily_limit
    utc_date sample_accounts sample_history (Transactions.new_limit 7)
    20000 "PAYMENT" (whole 20) = true.
Proof.
  apply (check_daily_limit_monotone
           utc_date sample_accounts sample_history (Transactions.new_limit 7)
           20000 "PAYMENT" (whole 15000) (whole 20)).
  - unfold whole. lia.
  - reflexivity.
Defined.

(** X2: a COMPLETED transaction of the user, created today, of any type
    of the category, uses up the ceiling by exactly its amount: with it
    in the history the check answers as it does without it for a request
    larger by that amount.  So a PAYMENT counts against a TRANSFER and a
    CRYPTO_SELL against a CRYPTO_BUY. *)
Theorem check_daily_limit_counted_row
        (date_of : datetime -> date) (accounts : list Accounts.BankAccount)
        (before after : list Transactions.Transaction)
        (t : Transactions.Transaction)
        (l : Transactions.TransactionLimit) (today : date)
        (ty : string) (c : Spec.category) (amount : Decimal) :
  In ty (Spec.category_set c) ->
  In (Transactions.transaction_type t) (Spec.category_set c) ->
  Transactions.source_account__user accounts t = Some (Transactions.user l) ->
  Transactions.status t = "COMPLETED"%string ->
  Transactions.created_at__date date_of t = Some today ->
  Transactions.check_daily_limit
    date_of accounts (before ++ t :: after) l today ty amount
  = Transactions.check_daily_limit
      date_of accounts (before ++ after) l today ty
      (amount + Transactions.amount t).
Proof.
  intros Hty Ht Hu Hs Hd.
  rewrite !(check_daily_limit_in_category _ _ _ _ _ _ c _ Hty).
  rewrite running_total_insert.
  replace (Spec.counts date_of accounts (Transactions.user l) c today t)
    with true.
  - f_equal. unfold Decimal in *. lia.
  - symmetry. unfold Spec.counts.
    unfold Transactions.created_at__date in Hd. rewrite Hu.
    destruct (Transactions.created_at t) as [dt|]; [|discriminate].
    injection Hd as ->. rewrite Hs, !Z.eqb_refl.
    unfold in_. cbn [andb].
    replace (existsb (String.eqb (Transactions.transaction_type t))
                     (Spec.category_set c)) with true; [reflexivity|].
    symmetry. apply existsb_exists.
    exists (Transactions.transaction_type t).
    split; [exact Ht | apply String.eqb_refl].
Qed.

(** The completed payment of 30,000 in the sample history stands for
    30,000 more of a transfer request. *)
Lemma check_daily_limit_counted_row_witness :
  Transactions.check_daily_limit
    utc_date sample_accounts sample_history (Transactions.new_limit 7)
    20000 "TRANSFER" (whole 15000)
  = Transactions.check_daily_limit
      utc_date sample_accounts
      (sample_transaction 1 "TRANSFER" 1 (whole 50000) "COMPLETED" 20000
       :: skipn 2 sample_history)
      (Transactions.new_limit 7) 20000 "TRANSFER"
      (whole 15000 + whole 30000).
Proof.
  apply (check_daily_limit_counted_row
           utc_date sample_accounts
           [sample_transaction 1 "TRANSFER" 1 (whole 50000) "COMPLETED" 20000]
           (skipn 2 sample_history)
           (sample_transaction 2 "PAYMENT" 1 (whole 30000) "COMPLETED" 20000)
           (Transactions.new_limit 7) 20000 "TRANSFER" Spec.Transfer
           (whole 15000)).
  - simpl. left. reflexivity.
  - simpl. right. left. reflexivity.
  - reflexivity.
  - reflexivity.
  - reflexivity.
Defined.

(** X3: only the user's own COMPLETED transactions of today count: a
    transaction that is not COMPLETED (pending, processing, failed, ...),
    or whose source account is missing or belongs to someone else, or
    that was created on another day, changes no answer of the check. *)
Theorem check_daily_limit_ignored_row
        (date_of : datetime -> date) (accounts : list Accounts.BankAccount)
        (before after : list Transactions.Transaction)
        (t : Transactions.Transaction)
        (l : Transactions.TransactionLimit) (today : date)
        (ty : string) (amount : Decimal) :
  Transactions.status t <> "COMPLETED"%string
  \/ Transactions.source_account__user accounts t
     <> Some (Transactions.user l)
  \/ Transactions.created_at__date date_of t <> Some today ->
  Transactions.check_daily_limit
    date_of accounts (before ++ t :: after) l today ty amount
  = Transactions.check_daily_limit
      date_of accounts (before ++ after) l today ty amount.
Proof.
  intros H. rewrite !check_daily_limit_by_category.
  destruct (category_of ty) as [c|]; [|reflexivity].
  rewrite running_total_insert.
  replace (Spec.counts date_of accounts (Transactions.user l) c today t)
    with false; [now rewrite Z.add_0_r|].
  symmetry. unfold Spec.counts.
  unfold Transactions.created_at__date in H.
  destruct (Transactions.source_account__user accounts t) as [owner|];
    [|reflexivity].
  destruct (Transactions.created_at t) as [dt|]; [|reflexivity].
  destruct (Z.eqb_spec owner (Transactions.user l)) as [->|_];
    [|reflexivity].
  destruct (String.eqb_spec (Transactions.status t) "COMPLETED") as [Hs|_];
    [|now rewrite andb_false_r].
  destruct (Z.eqb_spec (date_of dt) today) as [Hd|_];
    [|now rewrite andb_false_r].
  cbn in H. rewrite Hd in H. destruct H as [H|[H|H]]; contradiction.
Qed.

(** The pending transfer of 10,000 in the sample history is not
    counted. *)
Lemma check_daily_limit_ignored_row_witness :
  Transactions.check_daily_limit
    utc_date sample_accounts sample_history (Transactions.new_limit 7)
    20000 "TRANSFER" (whole 15000)
  = Transactions.check_daily_limit
      utc_date sample_accounts
      (firstn 2 sample_history ++ skipn 3 sample_history)
      (Transactions.new_limit 7) 20000 "TRANSFER" (whole 15000).
Proof.
  apply (check_daily_limit_ignored_row
           utc_date sample_accounts
           (firstn 2 sample_history) (skipn 3 sample_history)
           (sample_transaction 3 "TRANSFER" 1 (whole 10000) "PENDING" 20000)
           (Transactions.new_limit 7) 20000 "TRANSFER" (whole 15000)).
  left. discriminate.
Defined.

(** X4: the answer of the check does not depend on the order of the
    rows of the transaction table. *)
Theorem check_daily_limit_Permutation
        (date_of : datetime -> date) (accounts : list Accounts.BankAccount)
        (table table' : list Transactions.Transaction)
        (l : Transactions.TransactionLimit) (today : date)
        (ty : string) (amount : Decimal) :
  Permutation table table' ->
  Transactions.check_daily_limit date_of accounts table l today ty amount
  = Transactions.check_daily_limit date_of accounts table' l today ty amount.
Proof.
  intros H. rewrite !check_daily_limit_by_category.
  destruct (category_of ty) as [c|]; [|reflexivity].
  now rewrite (running_total_Permutation _ _ _ _ _ _ _ H).
Qed.

Lemma check_daily_limit_Permutation_witness :
  Transactions.check_daily_limit
    utc_date sample_accounts sample_history (Transactions.new_limit 7)
    20000 "TRANSFER" (whole 25000)
  = Transactions.check_daily_limit
      utc_date sample_accounts (rev sample_history) (Transactions.new_limit 7)
      20000 "TRANSFER" (whole 25000).
Proof.
  apply (check_daily_limit_Permutation
           utc_date sample_accounts sample_history (rev sample_history)).
  apply Permutation_rev.
Defined.

(** X5: the daily total is taken over [amount]: the fees, taxes and
    total amounts of the stored transactions (and their references and
    destinations) have no influence on the check. *)
Theorem check_daily_limit_fees_not_counted
        (date_of : datetime -> date) (accounts : list Accounts.BankAccount)
        (table table' : list Transactions.Transaction)
        (l : Transactions.TransactionLimit) (today : date)
        (ty : string) (amount : Decimal) :
  Forall2 same_for_limit table table' ->
  Transactions.check_daily_limit date_of accounts table' l today ty amount
  = Transactions.check_daily_limit date_of accounts table l today ty amount.
Proof.
  intros H. rewrite !check_daily_limit_by_category.
  destruct (category_of ty) as [c|]; [|reflexivity].
  now rewrite (running_total_same_for_limit _ _ _ _ _ _ _ H).
Qed.

Lemma check_daily_limit_fees_not_counted_witness :
  Transactions.check_daily_limit
    utc_date sample_accounts (map with_other_fees sample_history)
    (Transactions.new_limit 7) 20000 "TRANSFER" (whole 15000)
  = Transactions.check_daily_limit
      utc_date sample_accounts sample_history
      (Transactions.new_limit 7) 20000 "TRANSFER" (whole 15000).
Proof.
  apply (check_daily_limit_fees_not_counted
           utc_date sample_accounts sample_history
           (map with_other_fees sample_history)).
  unfold sample_history. cbn [map].
  repeat (constructor; [repeat split|]). constructor.
Defined.

(** ** Writing a row, continued *)

Section WriteRowFacts.
Context {Row : Type}.
Variable pk : Row -> Z.

Lemma pk_exists_In (row : Row) (table : list Row) :
  pk_exists pk row table = true <-> exists r, In r table /\ pk r = pk row.
Proof.
  unfold pk_exists. rewrite existsb_exists.
  split; intros (r & Hin & E); exists r; split; auto;
    [now apply Z.eqb_eq | now apply Z.eqb_eq].
Qed.

Lemma in_write_row_iff (row : Row) (table : list Row) (r : Row) :
  In r (write_row pk row table)
  <-> r = row \/ (In r table /\ pk r <> pk row).
Proof.
  unfold write_row. destruct (pk_exists pk row table) eqn:E.
  - rewrite in_map_iff. split.
    + intros (x & <- & Hx). destruct (Z.eqb_spec (pk x) (pk row)); auto.
    + intros [->|[Hin Hne]].
      * apply pk_exists_In in E. destruct E as (x & Hx & Hpk).
        exists x. split; [|exact Hx].
        now rewrite (proj2 (Z.eqb_eq _ _) Hpk).
      * exists r. split; [|exact Hin].
        now rewrite (proj2 (Z.eqb_neq _ _) Hne).
  - rewrite in_app_iff. cbn [In]. split.
    + intros [Hin|[<-|[]]]; auto. right. split; [exact Hin|].
      intros Hpk. assert (pk_exists pk row table = true)
        by (apply pk_exists_In; now exists r).
      congruence.
    + intros [->|[Hin _]]; auto.
Qed.

Lemma write_row_twice (row : Row) (table : list Row) :
  write_row pk row (write_row pk row table) = write_row pk row table.
Proof.
  unfold write_row at 1.
  replace (pk_exists pk row (write_row pk row table)) with true.
  - rewrite <- (map_id (write_row pk row table)) at 2.
    apply map_ext_in. intros x Hx.
    apply in_write_row_iff in Hx. destruct Hx as [->|[_ Hne]].
    + now rewrite Z.eqb_refl.
    + now rewrite (proj2 (Z.eqb_neq _ _) Hne).
  - symmetry. apply pk_exists_In. exists row. split; [|reflexivity].
    apply in_write_row_iff. now left.
Qed.

Variable unique_column : Row -> string.

Lemma unique_violation_false (row : Row) (table : list Row) :
  unique_violation pk unique_column row table = false
  <-> forall r, In r table -> pk r <> pk row ->
                unique_column r <> unique_column row.
Proof.
  unfold unique_violation. split.
  - intros H r Hin Hne Heq.
    assert (existsb (fun r0 => negb (pk r0 =? pk row)
                               && String.eqb (unique_column r0)
                                             (unique_column row)) table
            = true); [|congruence].
    apply existsb_exists. exists r. split; [exact Hin|].
    rewrite (proj2 (Z.eqb_neq _ _) Hne), Heq, String.eqb_refl. reflexivity.
  - intros H. apply not_true_is_false. intros Hex.
    apply existsb_exists in Hex. destruct Hex as (r & Hin & Hr).
    apply andb_true_iff in Hr. destruct Hr as [Hne Heq].
    apply negb_true_iff, Z.eqb_neq in Hne. apply String.eqb_eq in Heq.
    exact (H r Hin Hne Heq).
Qed.

Lemma unique_violation_written (row : Row) (table : list Row) :
  unique_violation pk unique_column row table = false ->
  unique_violation pk unique_column row (write_row pk row table) = false.
Proof.
  rewrite !unique_violation_false. intros H r Hin Hne.
  apply in_write_row_iff in Hin. destruct Hin as [->|[Hin _]];
    [congruence | now apply H].
Qed.
End WriteRowFacts.

(** ** Transactions: saving, continued *)

(** X6: a successful [save] of a transaction touches nothing but its own
    row and its own [total_amount], reference and timestamps: every row
    stored under another key stays as it was and no row is lost; a save
    of the whole row (one without [update_fields]) stores the instance
    it returns under its key; the saved instance keeps its key, type,
    accounts, amount, fee, tax and status; a reference that is already
    set is kept and no random draw is made. *)
Theorem save_frame
        (entropy : nat -> Z) (self : Transactions.Transaction)
        (kwargs : save_kwargs)
        (table : list Transactions.Transaction) (now : nat -> datetime)
        (fuel pos : nat) (self' : Transactions.Transaction)
        (table' : list Transactions.Transaction) (pos' : nat) :
  Transactions.save entropy self kwargs table now fuel pos
  = Ok ((self', table'), pos') ->
  (forall r, Transactions.id r <> Transactions.id self ->
             (In r table' <-> In r table))
  /\ (update_fields kwargs = None ->
      forall r, In r table' <->
                r = self'
                \/ (In r table /\ Transactions.id r <> Transactions.id self))
  /\ Transactions.id self' = Transactions.id self
  /\ Transactions.transaction_type self' = Transactions.transaction_type self
  /\ Transactions.source_account self' = Transactions.source_account self
  /\ Transactions.destination_account self'
     = Transactions.destination_account self
  /\ Transactions.amount self' = Transactions.amount self
  /\ Transactions.fee self' = Transactions.fee self
  /\ Transactions.tax self' = Transactions.tax self
  /\ Transactions.status self' = Transactions.status self
  /\ (not_ (Transactions.reference self) = false ->
      Transactions.reference self' = Transactions.reference self
      /\ pos' = pos).
Proof.
  intros H.
  destruct (save_columns entropy _ _ _ _ _ _ _ _ _ H)
    as (Hid & Hty & Hsrc & Hdst & Ha & Hf & Hx & Hst & _).
  destruct (save_inversion entropy _ _ _ _ _ _ _ _ _ H)
    as (r & Hsave & _ & Hr).
  unfold Transactions.super_save in Hsave.
  assert (Hkept : not_ (Transactions.reference self) = false ->
                  Transactions.reference self' = Transactions.reference self
                  /\ pos' = pos).
  { intros Hset. rewrite Hset in Hr. destruct Hr as [-> ->].
    split; [|reflexivity].
    eapply Model_save_instance
      with (P := fun t => Transactions.reference t
                          = Transactions.reference self);
      [ | | exact Hsave | reflexivity].
    - intros t Ht. exact Ht.
    - intros add w now' t Ht.
      destruct (pre_save_columns add w now' t) as (_ & _ & -> & _).
      exact Ht. }
  split; [|split; [|repeat split; auto; now apply Hkept]].
  - intros row Hne.
    eapply Model_save_frame;
      [ | | | exact Hsave | exact Hne];
      [reflexivity | apply pre_save_id | reflexivity].
  - intros Hn row.
    destruct (save_whole entropy _ _ _ _ _ _ _ _ _ Hn H) as [-> _].
    rewrite <- Hid. apply in_write_row_iff.
Qed.

(** Saving the stored pending transfer next to another row. *)
Lemma save_frame_witness :
  let other := sample_transaction 1 "TRANSFER" 1 (whole 50000) "COMPLETED" 20000 in
  exists self' table',
    Transactions.save sample_entropy pending_transfer no_kwargs
                      [other; pending_transfer] sample_clock 3%nat 0%nat
    = Ok ((self', table'), 0%nat)
    /\ In other table'
    /\ Transactions.reference self' = Transactions.reference pending_transfer.
Proof.
  intros other.
  assert (E : Transactions.save sample_entropy pending_transfer no_kwargs
                                [other; pending_transfer]
                                sample_clock 3%nat 0%nat
              = Ok ((Transactions.set_updated_at
                       (Transactions.set_total_amount pending_transfer
                                                      (whole 1070))
                       (sample_clock 0),
                     [other;
                      Transactions.set_updated_at
                        (Transactions.set_total_amount pending_transfer
                                                       (whole 1070))
                        (sample_clock 0)]),
                    0%nat)) by (vm_compute; reflexivity).
  eexists _, _. split; [exact E|].
  destruct (save_frame _ _ _ _ _ _ _ _ _ _ E)
    as (Hrows & _ & _ & _ & _ & _ & _ & _ & _ & _ & Href).
  split.
  - apply Hrows; [discriminate | now left].
  - apply Href. reflexivity.
Defined.

(** X7: a save of the whole row is idempotent but for [updated_at]:
    saving again the instance that a successful save returned
    succeeds, draws nothing, and changes nothing but [updated_at], which
    takes the time of the second save on the instance and in its
    row. *)
Theorem save_twice
        (entropy : nat -> Z) (self : Transactions.Transaction)
        (kwargs : save_kwargs)
        (table : list Transactions.Transaction) (now : nat -> datetime)
        (fuel pos : nat) (self' : Transactions.Transaction)
        (table' : list Transactions.Transaction) (pos' : nat) :
  update_fields kwargs = None ->
  Transactions.save entropy self kwargs table now fuel pos
  = Ok ((self', table'), pos') ->
  forall (now2 : nat -> datetime) (fuel2 pos2 : nat),
    let again := Transactions.set_updated_at self' (now2 0%nat) in
    Transactions.save entropy self' no_kwargs table' now2 fuel2 pos2
    = Ok ((again, write_row Transactions.id again table'), pos2)
    /\ forall r, In r (write_row Transactions.id again table')
                 <-> r = again
                     \/ (In r table'
                         /\ Transactions.id r <> Transactions.id self').
Proof.
  intros Hn H now2 fuel2 pos2 again.
  split; [|intros row; rewrite in_write_row_iff; reflexivity]. subst again.
  destruct (save_columns entropy _ _ _ _ _ _ _ _ _ H)
    as (_ & _ & _ & _ & Ha & Hf & Hx & _ & Htot).
  destruct (save_inversion entropy _ _ _ _ _ _ _ _ _ H)
    as (r & Hsave & Hr & _).
  unfold Transactions.super_save in Hsave.
  assert (Href : Transactions.reference self' = r).
  { eapply Model_save_instance
      with (P := fun t => Transactions.reference t = r);
      [ | | exact Hsave | reflexivity].
    - intros t Ht. exact Ht.
    - intros add w now' t Ht.
      destruct (pre_save_columns add w now' t) as (_ & _ & -> & _).
      exact Ht. }
  eapply Model_save_whole in Hsave;
    [ | reflexivity | apply pre_save_id | reflexivity | exact Hn].
  destruct Hsave as (Ht & Hu & _ & s & Hs & Hfit).
  assert (Hadd : Transactions.state_adding self' = false)
    by (rewrite Hs; reflexivity).
  assert (Hfit' : forall dt,
             Transactions.columns_fit
               every_column (Transactions.set_updated_at self' dt) = true).
  { intros dt. rewrite <- Hfit, Hs. reflexivity. }
  unfold Transactions.save, bind, lift, ret.
  rewrite Href, Hr. cbn zeta.
  replace (Transactions.set_total_amount
             self' (Transactions.amount self' + Transactions.fee self'
                    + Transactions.tax self'))
    with self'.
  2: { rewrite Ha, Hf, Hx. destruct self'. cbn in *. now rewrite Htot. }
  unfold Transactions.super_save.
  rewrite (Model_save_update
             Transactions.id Transactions.state_adding Transactions.saved
             "reference" Transactions.reference Transactions.field_names
             Transactions.columns_fit Transactions.pre_save
             Transactions.update_columns
             (fun _ => eq_refl) pre_save_id
             no_kwargs self' table' now2 eq_refl eq_refl Hadd).
  - replace (Transactions.saved
               (fst (Transactions.pre_save false every_column now2 self')))
      with (Transactions.set_updated_at self' (now2 0%nat));
      [reflexivity|].
    destruct self'. cbn in *. now subst.
  - apply Hfit'.
  - apply pk_exists_In. exists self'. split; [|reflexivity].
    rewrite Ht. apply in_write_row_iff. now left.
  - change (unique_violation Transactions.id Transactions.reference
                             self' table' = false).
    rewrite Ht. now apply unique_violation_written.
Qed.

(** The stored transfer, saved and saved again a little later. *)
Lemma save_twice_witness :
  let saved :=
    Transactions.set_updated_at
      (Transactions.set_total_amount pending_transfer (whole 1070))
      (sample_clock 0) in
  let later (k : nat) := sample_clock (k + 7) in
  Transactions.save sample_entropy saved no_kwargs [saved] later 0%nat 5%nat
  = Ok ((Transactions.set_updated_at saved (later 0%nat),
         [Transactions.set_updated_at saved (later 0%nat)]),
        5%nat).
Proof.
  intros saved later.
  apply (save_twice sample_entropy pending_transfer no_kwargs
                    [pending_transfer] sample_clock 3%nat 0%nat
                    saved [saved] 0%nat eq_refl).
  vm_compute. reflexivity.
Defined.

(** X27: whenever [save] writes the whole row of a transaction (a save
    without [update_fields]), the row stored under its key carries
    [total_amount = amount + fee + tax], computed from the instance's
    own amount, fee and tax and not from the [total_amount] it held; so
    amount 1000, fee 50 and tax 20 persist a total of 1070. *)
Theorem save_recomputes_total_amount
        (entropy : nat -> Z) (self : Transactions.Transaction)
        (kwargs : save_kwargs)
        (table : list Transactions.Transaction) (now : nat -> datetime)
        (fuel pos : nat) (self' : Transactions.Transaction)
        (table' : list Transactions.Transaction) (pos' : nat) :
  update_fields kwargs = None ->
  Transactions.save entropy self kwargs table now fuel pos
  = Ok ((self', table'), pos') ->
  find (fun r => Transactions.id r =? Transactions.id self) table'
  = Some self'
  /\ Transactions.total_amount self'
     = Some (Transactions.amount self' + Transactions.fee self'
             + Transactions.tax self')
  /\ Transactions.total_amount self'
     = Some (Transactions.amount self + Transactions.fee self
             + Transactions.tax self)
  /\ (Transactions.amount self = whole 1000 ->
      Transactions.fee self = whole 50 ->
      Transactions.tax self = whole 20 ->
      Transactions.total_amount self' = Some (whole 1070)).
Proof.
  intros Hn H.
  destruct (save_columns entropy _ _ _ _ _ _ _ _ _ H)
    as (Hid & _ & _ & _ & Ha & Hf & Hx & _ & Htot).
  destruct (save_whole entropy _ _ _ _ _ _ _ _ _ Hn H) as [-> _].
  repeat split.
  - rewrite <- Hid. apply find_write_row.
  - now rewrite Ha, Hf, Hx.
  - exact Htot.
  - intros Ha' Hf' Hx'. rewrite Htot, Ha', Hf', Hx'. reflexivity.
Qed.

(** Saving the stored transfer of 1,000 with fee 50 and tax 20, whose
    [total_amount] column held 5.00, over its row and next to another
    row, stores 1,070. *)
Lemma save_recomputes_total_amount_witness :
  Transactions.total_amount pending_transfer = Some (whole 5)
  /\ exists self' table',
      Transactions.save
        sample_entropy pending_transfer no_kwargs
        [sample_transaction 1 "TRANSFER" 1 (whole 50000) "COMPLETED" 20000;
         pending_transfer]
        sample_clock 3%nat 0%nat
      = Ok ((self', table'), 0%nat)
      /\ find (fun r => Transactions.id r =? 11) table' = Some self'
      /\ Transactions.total_amount self' = Some (whole 1070).
Proof.
  split; [reflexivity|].
  assert (E : Transactions.save
                sample_entropy pending_transfer no_kwargs
                [sample_transaction 1 "TRANSFER" 1 (whole 50000)
                                    "COMPLETED" 20000;
                 pending_transfer]
                sample_clock 3%nat 0%nat
              = Ok ((Transactions.set_updated_at
                       (Transactions.set_total_amount pending_transfer
                                                      (whole 1070))
                       (sample_clock 0),
                     [sample_transaction 1 "TRANSFER" 1 (whole 50000)
                                         "COMPLETED" 20000;
                      Transactions.set_updated_at
                        (Transactions.set_total_amount pending_transfer
                                                       (whole 1070))
                        (sample_clock 0)]),
                    0%nat)) by (vm_compute; reflexivity).
  eexists _, _. split; [exact E|].
  destruct (save_recomputes_total_amount
              sample_entropy pending_transfer no_kwargs _ _ _ _ _ _ _
              eq_refl E)
    as (Hfind & _ & _ & H1070).
  split; [exact Hfind|].
  apply H1070; reflexivity.
Defined.

(** ** The decimal digits of [str(n)] *)

Section Digits.
Import Decimal.
Local Open Scope N_scope.

Lemma usize_nb_digits (d : uint) :
  DecimalPos.Unsigned.usize d = N.of_nat (nb_digits d).
Proof.
  induction d; cbn [DecimalPos.Unsigned.usize nb_digits];
    rewrite ?IHd, ?Nnat.Nat2N.inj_succ; reflexivity.
Qed.

Lemma of_lu_upper (d : uint) :
  DecimalPos.Unsigned.of_lu d < 10 ^ DecimalPos.Unsigned.usize d.
Proof.
  induction d; cbn [DecimalPos.Unsigned.of_lu DecimalPos.Unsigned.usize];
    rewrite ?N.pow_succ_r'; cbn [N.pow]; lia.
Qed.

(** A numeral that starts with a digit other than 0 is at least the
    power of ten of its remaining length. *)
Lemma of_uint_lower (d : uint) :
  d <> Nil -> unorm d = d -> d <> zero ->
  10 ^ N.of_nat (Nat.pred (nb_digits d)) <= Pos.of_uint d.
Proof.
  intros Hnil Hnorm Hzero.
  rewrite DecimalPos.Unsigned.of_uint_alt.
  destruct d as [|d|d|d|d|d|d|d|d|d|d]; try congruence;
    try (unfold rev; cbn [revapp nb_digits Nat.pred];
         rewrite DecimalPos.Unsigned.of_lu_revapp, <- usize_nb_digits;
         cbn [DecimalPos.Unsigned.of_lu]; nia).
  exfalso. rewrite DecimalFacts.unorm_D0 in Hnorm.
  unfold unorm in Hnorm.
  destruct (nzhead d) eqn:E; try discriminate;
    try (now apply (DecimalFacts.nzhead_nonzero d d)).
  - injection Hnorm as <-. now apply Hzero.
  - injection Hnorm as ->. now apply (DecimalFacts.nzhead_nonzero d d).
Qed.

Lemma nb_digits_to_uint (p : positive) (k : nat) :
  10 ^ N.of_nat k <= Npos p < 10 ^ N.of_nat (S k) ->
  nb_digits (Pos.to_uint p) = S k.
Proof.
  intros [Hlo Hhi].
  set (d := Pos.to_uint p).
  assert (Hval : Pos.of_uint d = Npos p) by apply DecimalPos.Unsigned.of_to.
  assert (Hnorm : unorm d = d).
  { rewrite <- (DecimalPos.Unsigned.to_of d), Hval. reflexivity. }
  assert (Hup : Npos p < 10 ^ N.of_nat (nb_digits d)).
  { rewrite <- Hval, DecimalPos.Unsigned.of_uint_alt.
    rewrite <- DecimalFacts.nb_digits_rev, <- usize_nb_digits.
    apply of_lu_upper. }
  assert (Hdown : 10 ^ N.of_nat (Nat.pred (nb_digits d)) <= Npos p).
  { rewrite <- Hval. apply of_uint_lower; auto.
    - apply DecimalPos.Unsigned.to_uint_nonnil.
    - apply DecimalPos.Unsigned.to_uint_nonzero. }
  assert (H1 : (k < nb_digits d)%nat).
  { apply Nat.nle_gt. intros Hle.
    assert (10 ^ N.of_nat (nb_digits d) <= 10 ^ N.of_nat k)
      by (apply N.pow_le_mono_r; lia). lia. }
  assert (H2 : (Nat.pred (nb_digits d) < S k)%nat).
  { apply Nat.nle_gt. intros Hle.
    assert (10 ^ N.of_nat (S k) <= 10 ^ N.of_nat (Nat.pred (nb_digits d)))
      by (apply N.pow_le_mono_r; lia). lia. }
  lia.
Qed.
End Digits.

Lemma length_string_of_uint (d : Decimal.uint) :
  String.length (NilEmpty.string_of_uint d) = Decimal.nb_digits d.
Proof. induction d; cbn; rewrite ?IHd; reflexivity. Qed.

Lemma decimal_string_of_uint (d : Decimal.uint) :
  Forall (fun c => is_decimal c = true)
         (list_ascii_of_string (NilEmpty.string_of_uint d)).
Proof. induction d; cbn; constructor; auto. Qed.

Lemma str_positive (p : positive) :
  str (PyInt (Zpos p)) = NilEmpty.string_of_uint (Pos.to_uint p).
Proof.
  cbn. pose proof (DecimalPos.Unsigned.to_uint_nonnil p) as H.
  destruct (Pos.to_uint p); try reflexivity. congruence.
Qed.

(** [str(n)] of an [n] with [k+1] decimal digits is [k+1] digits long. *)
Lemma str_digits (n : Z) (k : nat) :
  10 ^ Z.of_nat k <= n < 10 ^ Z.of_nat (S k) ->
  String.length (str (PyInt n)) = S k
  /\ Forall (fun c => is_decimal c = true)
            (list_ascii_of_string (str (PyInt n))).
Proof.
  intros [Hlo Hhi].
  destruct n as [|p|p]; try (pose proof (Z.pow_pos_nonneg 10 (Z.of_nat k)); lia).
  rewrite str_positive. split; [|apply decimal_string_of_uint].
  rewrite length_string_of_uint. apply nb_digits_to_uint.
  split.
  - apply N2Z.inj_le. rewrite N2Z.inj_pow, nat_N_Z. exact Hlo.
  - apply N2Z.inj_lt. rewrite N2Z.inj_pow, nat_N_Z. exact Hhi.
Qed.

(** ** Accounts: the account number *)

Section AccountNumber.
Variable entropy : nat -> Z.
Variable table : list Accounts.BankAccount.

Lemma drawn_account_number_format (pos : nat) :
  String.length (drawn_account_number entropy pos) = 13%nat
  /\ Forall (fun c => is_decimal c = true)
            (list_ascii_of_string (drawn_account_number entropy pos)).
Proof.
  unfold drawn_account_number.
  pose proof (Z.mod_pos_bound (entropy pos) 9000000000 ltac:(lia)) as Hb.
  destruct (str_digits (1000000000 + entropy pos mod 9000000000) 9) as [Hl Hd].
  { change (10 ^ Z.of_nat 9) with 1000000000.
    change (10 ^ Z.of_nat 10) with 10000000000. lia. }
  split.
  - cbn [append String.length]. now rewrite Hl.
  - cbn [append list_ascii_of_string].
    repeat (constructor; [reflexivity|]). exact Hd.
Qed.

Lemma generate_account_number_iff (fuel pos : nat) (number : string)
      (pos' : nat) :
  Accounts.generate_account_number entropy table fuel pos = Ok (number, pos')
  <-> exists k,
      (k < fuel)%nat
      /\ number = drawn_account_number entropy (pos + k)
      /\ Accounts.account_number_exists number table = false
      /\ (forall j, (j < k)%nat ->
            Accounts.account_number_exists
              (drawn_account_number entropy (pos + j)) table = true)
      /\ pos' = (pos + k + 1)%nat.
Proof.
  revert pos. induction fuel as [|fuel IH]; intros pos.
  - cbn [Accounts.generate_account_number]. unfold diverge.
    split; [discriminate|]. intros (k & Hk & _). lia.
  - cbn [Accounts.generate_account_number].
    unfold bind at 1, randint, bind at 1, randbelow, ret at 1.
    change (9999999999 - 1000000000 + 1) with 9000000000.
    fold (drawn_account_number entropy pos).
    destruct (Accounts.account_number_exists
                (drawn_account_number entropy pos) table) eqn:E; cbn [negb].
    + rewrite IH. split.
      * intros (k & Hk & -> & Hnew & Hold & ->).
        exists (S k). replace (pos + S k)%nat with (S pos + k)%nat by lia.
        repeat split; try lia; auto.
        intros [|j] Hj; [now rewrite Nat.add_0_r|].
        replace (pos + S j)%nat with (S pos + j)%nat by lia.
        apply Hold. lia.
      * intros (k & Hk & -> & Hnew & Hold & ->).
        destruct k as [|k]; [rewrite Nat.add_0_r in Hnew; congruence|].
        exists k. replace (S pos + k)%nat with (pos + S k)%nat by lia.
        repeat split; try lia; auto.
        intros j Hj.
        replace (S pos + j)%nat with (pos + S j)%nat by lia.
        apply Hold. lia.
    + unfold ret. split.
      * intros [= <- <-]. exists 0%nat. rewrite Nat.add_0_r.
        repeat split; try lia; auto.
      * intros (k & Hk & -> & Hnew & Hold & ->).
        destruct k as [|k].
        -- rewrite Nat.add_0_r. repeat f_equal; lia.
        -- specialize (Hold 0%nat ltac:(lia)).
           rewrite Nat.add_0_r in Hold. congruence.
Qed.
End AccountNumber.

(** X8: an account number that [generate_account_number] returns is
    [209] followed by the ten digits of a draw between 1000000000 and
    9999999999: thirteen decimal digits, held by no row of the table;
    every draw before it spelled a number that was taken, and the loop
    returns at the first draw whose number is free. *)
Theorem generate_account_number_spec
        (entropy : nat -> Z) (table : list Accounts.BankAccount)
        (fuel pos : nat) :
  (forall number pos',
      Accounts.generate_account_number entropy table fuel pos
      = Ok (number, pos') ->
      exists n k,
        1000000000 <= n <= 9999999999
        /\ number = ("209" ++ str (PyInt n))%string
        /\ String.length number = 13%nat
        /\ Forall (fun c => is_decimal c = true) (list_ascii_of_string number)
        /\ Accounts.account_number_exists number table = false
        /\ (forall j, (j < k)%nat ->
              Accounts.account_number_exists
                (drawn_account_number entropy (pos + j)) table = true)
        /\ pos' = (pos + k + 1)%nat)
  /\ (forall k,
        (k < fuel)%nat ->
        Accounts.account_number_exists
          (drawn_account_number entropy (pos + k)) table = false ->
        exists number pos',
          Accounts.generate_account_number entropy table fuel pos
          = Ok (number, pos')).
Proof.
  split.
  - intros number pos' H. apply generate_account_number_iff in H.
    destruct H as (k & _ & -> & Hnew & Hold & ->).
    exists (1000000000 + entropy (pos + k)%nat mod 9000000000), k.
    pose proof (Z.mod_pos_bound (entropy (pos + k)%nat) 9000000000
                                ltac:(lia)).
    destruct (drawn_account_number_format entropy (pos + k)) as [Hl Hd].
    repeat split; auto; lia.
  - intros k. induction k as [k IHk] using lt_wf_ind. intros Hk Hfree.
    destruct (existsb
                (fun j => negb (Accounts.account_number_exists
                                  (drawn_account_number entropy (pos + j))
                                  table))
                (seq 0 k)) eqn:E.
    + apply existsb_exists in E. destruct E as (j & Hj & Hfj).
      apply in_seq in Hj. apply negb_true_iff in Hfj.
      apply (IHk j); [lia | lia | exact Hfj].
    + eexists _, _. apply generate_account_number_iff.
      exists k. repeat split; auto.
      intros j Hj.
      assert (Hnot : negb (Accounts.account_number_exists
                             (drawn_account_number entropy (pos + j)) table)
                     = false).
      { apply not_true_is_false. intros Ht.
        assert (existsb
                  (fun j => negb (Accounts.account_number_exists
                                    (drawn_account_number entropy (pos + j))
                                    table))
                  (seq 0 k) = true); [|congruence].
        apply existsb_exists. exists j. split; [apply in_seq; lia | exact Ht]. }
      now apply negb_false_iff in Hnot.
Qed.

(** The first draw of the sample stream, into the empty table. *)
Lemma generate_account_number_spec_witness :
  exists n k,
    1000000000 <= n <= 9999999999
    /\ "2091000000003"%string = ("209" ++ str (PyInt n))%string
    /\ String.length "2091000000003" = 13%nat
    /\ Forall (fun c => is_decimal c = true)
              (list_ascii_of_string "2091000000003")
    /\ Accounts.account_number_exists "2091000000003" [] = false
    /\ (forall j, (j < k)%nat ->
          Accounts.account_number_exists
            (drawn_account_number sample_entropy (0 + j)) [] = true)
    /\ 1%nat = (0 + k + 1)%nat.
Proof.
  apply (proj1 (generate_account_number_spec sample_entropy [] 2 0)).
  vm_compute. reflexivity.
Defined.

(** ** Accounts: the tables that saves produce *)

Lemma not__false (s : string) : not_ s = false <-> s <> ""%string.
Proof. destruct s; cbn; split; congruence. Qed.

(** The row an UPDATE leaves under the key of the instance. *)
Lemma account_updated_row (kwargs : save_kwargs)
      (s r : Accounts.BankAccount) :
  Accounts.id r = Accounts.id s ->
  Accounts.id (updated_row Accounts.saved Accounts.update_columns kwargs s r)
  = Accounts.id r
  /\ Accounts.account_number
       (updated_row Accounts.saved Accounts.update_columns kwargs s r)
     = if written kwargs "account_number"
       then Accounts.account_number s
       else Accounts.account_number r.
Proof.
  intros E. unfold updated_row, written.
  destruct (update_fields kwargs); cbn; auto.
Qed.

Section AccountSaveFacts.
Variable entropy : nat -> Z.

(** The account number of a saved instance is not empty. *)
Lemma account_save_number (self : Accounts.BankAccount)
      (kwargs : save_kwargs) (table : list Accounts.BankAccount)
      (fuel pos : nat)
      (self' : Accounts.BankAccount) (table' : list Accounts.BankAccount)
      (pos' : nat) :
  Accounts.save entropy self kwargs table fuel pos
  = Ok ((self', table'), pos') ->
  exists number,
    Accounts.super_save
      kwargs (Accounts.set_account_number self number) table
    = Ok (self', table')
    /\ number <> ""%string.
Proof.
  intros H.
  destruct (account_save_inversion entropy _ _ _ _ _ _ _ _ H)
    as (number & Hsave & Hgen).
  exists number. split; [exact Hsave|].
  destruct (not_ (Accounts.account_number self)) eqn:E.
  - apply generate_account_number_iff in Hgen.
    destruct Hgen as (k & _ & -> & _). discriminate.
  - destruct Hgen as [-> _]. now apply not__false.
Qed.
End AccountSaveFacts.

(** X9: in every table of accounts that saves can produce, the key and
    the account number each identify the row: no two different stored
    accounts share an id or an account number, and no stored account has
    an empty account number. *)
Theorem reachable_accounts_unique
        (entropy : nat -> Z) (table : list Accounts.BankAccount) :
  reachable entropy table ->
  (forall a b, In a table -> In b table ->
               Accounts.id a = Accounts.id b -> a = b)
  /\ (forall a b, In a table -> In b table ->
                  Accounts.account_number a = Accounts.account_number b ->
                  a = b)
  /\ (forall a, In a table -> Accounts.account_number a <> ""%string).
Proof.
  induction 1 as [|self kwargs table fuel pos self' table' pos' _ IH Hsave].
  - repeat split; intros; contradiction.
  - destruct IH as (IHid & IHnum & IHne).
    destruct (account_save_number entropy _ _ _ _ _ _ _ _ Hsave)
      as (number & Hms & Hnumber).
    unfold Accounts.super_save in Hms. apply Model_save_Ok in Hms.
    destruct Hms as [(_ & _ & ->)
                    |[(s0 & now' & s & Hs0 & Hs & _ & _ & Hpk & Hu & ->)
                     |(s & Hs & _ & _ & _ & _ & Hu & ->)]].
    + auto.
    + (* a row is appended *)
      assert (Es : s = Accounts.set_account_number self number)
        by (destruct Hs0 as [->| ->]; exact Hs).
      set (row := Accounts.saved s).
      assert (Hrow : Accounts.account_number row = number)
        by (unfold row; rewrite Es; reflexivity).
      assert (Hfresh : forall r, In r table -> Accounts.id r <> Accounts.id row).
      { intros r Hin E.
        assert (pk_exists Accounts.id s table = true); [|congruence].
        apply pk_exists_In. now exists r. }
      rewrite unique_violation_false in Hu.
      repeat split.
      * intros a b Ha Hb E.
        apply in_app_iff in Ha. apply in_app_iff in Hb. cbn [In] in Ha, Hb.
        destruct Ha as [Ha|[<-|[]]]; destruct Hb as [Hb|[<-|[]]]; auto.
        -- exfalso. exact (Hfresh a Ha E).
        -- exfalso. apply (Hfresh b Hb). now symmetry.
      * intros a b Ha Hb E.
        apply in_app_iff in Ha. apply in_app_iff in Hb. cbn [In] in Ha, Hb.
        destruct Ha as [Ha|[<-|[]]]; destruct Hb as [Hb|[<-|[]]]; auto.
        -- exfalso. exact (Hu a Ha (Hfresh a Ha) E).
        -- exfalso. apply (Hu b Hb (Hfresh b Hb)). now symmetry.
      * intros a Ha. apply in_app_iff in Ha. cbn [In] in Ha.
        destruct Ha as [Ha|[<-|[]]]; [now apply IHne|].
        now rewrite Hrow.
    + (* the row of the key is updated *)
      cbn [fst Accounts.pre_save] in Hs.
      assert (Hs_num : Accounts.account_number s = number)
        by (rewrite Hs; reflexivity).
      assert (Hrows :
                forall a', In a' (do_update Accounts.id Accounts.saved
                                            Accounts.update_columns
                                            kwargs s table) ->
                exists a,
                  In a table
                  /\ Accounts.id a' = Accounts.id a
                  /\ (a' = a /\ Accounts.id a <> Accounts.id s
                      \/ a' = updated_row Accounts.saved
                                          Accounts.update_columns kwargs s a
                         /\ Accounts.id a = Accounts.id s)).
      { intros a' Ha'. unfold do_update in Ha'. apply in_map_iff in Ha'.
        destruct Ha' as (a & <- & Ha). exists a. split; [exact Ha|].
        destruct (Z.eqb_spec (Accounts.id a) (Accounts.id s)) as [E|E].
        - split; [now apply account_updated_row | right; auto].
        - split; [reflexivity | left; auto]. }
      assert (Hclash :
                forall a b, In a table -> In b table ->
                  Accounts.id a = Accounts.id s ->
                  Accounts.id b <> Accounts.id s ->
                  Accounts.account_number
                    (updated_row Accounts.saved Accounts.update_columns
                                 kwargs s a)
                  <> Accounts.account_number b).
      { intros a b Ha Hb Ea Eb E.
        destruct (account_updated_row kwargs s a Ea) as [_ Hn].
        rewrite Hn in E.
        destruct (written kwargs "account_number") eqn:Hw.
        - specialize (Hu eq_refl). rewrite unique_violation_false in Hu.
          apply (Hu b Hb Eb). now symmetry.
        - apply Eb. rewrite <- Ea. f_equal. symmetry. now apply IHnum. }
      repeat split.
      * intros a' b' Ha' Hb' E.
        destruct (Hrows a' Ha') as (a & Ha & Eida & Hda).
        destruct (Hrows b' Hb') as (b & Hb & Eidb & Hdb).
        assert (a = b) by (apply IHid; congruence). subst b.
        destruct Hda as [[-> Na]|[-> Ea]], Hdb as [[-> Nb]|[-> Eb]];
          congruence.
      * intros a' b' Ha' Hb' E.
        destruct (Hrows a' Ha') as (a & Ha & _ & Hda).
        destruct (Hrows b' Hb') as (b & Hb & _ & Hdb).
        destruct Hda as [[-> Na]|[-> Ea]], Hdb as [[-> Nb]|[-> Eb]].
        -- now apply IHnum.
        -- exfalso. apply (Hclash b a Hb Ha Eb Na). now symmetry.
        -- exfalso. exact (Hclash a b Ha Hb Ea Nb E).
        -- assert (a = b) by (apply IHid; congruence). now subst b.
      * intros a' Ha'.
        destruct (Hrows a' Ha') as (a & Ha & _ & [[-> _]|[-> Ea]]);
          [now apply IHne|].
        destruct (account_updated_row kwargs s a Ea) as [_ ->].
        destruct (written kwargs "account_number");
          [now rewrite Hs_num | now apply IHne].
Qed.

(** Two new accounts saved one after the other get different numbers. *)
Lemma reachable_accounts_unique_witness :
  let first :=
    Accounts.saved
      (Accounts.set_account_number (Accounts.new 1 7) "2091000000003") in
  let second :=
    Accounts.saved
      (Accounts.set_account_number (Accounts.new 2 8) "2091000000010") in
  reachable sample_entropy [first; second]
  /\ forall a b, In a [first; second] -> In b [first; second] ->
                 Accounts.account_number a = Accounts.account_number b ->
                 a = b.
Proof.
  intros first second.
  assert (R : reachable sample_entropy [first; second]).
  { apply (reachable_save sample_entropy (Accounts.new 2 8) no_kwargs [first]
                          3%nat 1%nat second [first; second] 2%nat).
    - apply (reachable_save sample_entropy (Accounts.new 1 7) no_kwargs []
                            3%nat 0%nat first [first] 1%nat).
      + constructor.
      + vm_compute. reflexivity.
    - vm_compute. reflexivity. }
  split; [exact R|].
  apply (reachable_accounts_unique sample_entropy [first; second] R).
Defined.

(** ** Accounts: the withdrawal check, continued *)

(** X10: [can_withdraw] is downward closed and checks no lower bound: an
    amount that passes lets every smaller amount pass, so an active
    account whose available balance and single-transaction limit are not
    negative accepts zero and every negative amount; an account that is
    not ACTIVE accepts no amount at all. *)
Theorem can_withdraw_downward
        (a : Accounts.BankAccount) (amount amount' : Decimal) :
  (amount' <= amount ->
   Accounts.can_withdraw a amount = true ->
   Accounts.can_withdraw a amount' = true)
  /\ (Accounts.status a = "ACTIVE"%string ->
      0 <= Accounts.available_balance a ->
      0 <= Accounts.single_transaction_limit a ->
      amount <= 0 ->
      Accounts.can_withdraw a amount = true)
  /\ (Accounts.status a <> "ACTIVE"%string ->
      Accounts.can_withdraw a amount = false).
Proof.
  unfold Accounts.can_withdraw, Accounts.is_active, Decimal in *.
  repeat split.
  - intros Hle H. apply andb_true_iff in H. destruct H as [H H3].
    apply andb_true_iff in H. destruct H as [-> H2].
    apply Z.leb_le in H2, H3. cbn [andb].
    apply andb_true_iff. split; apply Z.leb_le; lia.
  - intros Hs Hav Hlim Hle. rewrite Hs, String.eqb_refl. cbn [andb].
    apply andb_true_iff. split; apply Z.leb_le; lia.
  - intros Hs. apply String.eqb_neq in Hs. now rewrite Hs.
Qed.

(** On the sample account with 100.00 available: 60.00 passes, hence so
    does -5.00. *)
Lemma can_withdraw_downward_witness :
  Accounts.can_withdraw account_with_100 (whole (-5)) = true.
Proof.
  apply (proj1 (can_withdraw_downward account_with_100 (whole 60) (whole (-5)))).
  - unfold whole. lia.
  - reflexivity.
Defined.

(** ** The reference generator, continued *)

Lemma length_append (s1 s2 : string) :
  String.length (s1 ++ s2) = (String.length s1 + String.length s2)%nat.
Proof. induction s1 as [|c s1 IH]; cbn; [reflexivity | now rewrite IH]. Qed.

(** X11: for a [created_at] between 2001-09-09 and 2286-11-20 the
    millisecond timestamp has thirteen digits, so a generated reference
    with one of the three-letter prefixes is exactly 24 characters long:
    it fits the [max_length=50] of the [reference] columns. *)
Theorem generated_reference_length
        (entropy : nat -> Z) (prefix : string) (dt : datetime)
        (stored : list string) (fuel pos : nat) (r : string) (pos' : nat) :
  String.length prefix = 3%nat ->
  1000000000000000 <= dt < 10000000000000000 ->
  generate_reference entropy prefix (Some dt) stored fuel pos = Ok (r, pos') ->
  String.length r = 24%nat /\ (String.length r <= 50)%nat.
Proof.
  intros Hp Hdt H. apply generate_reference_Some in H.
  destruct H as (k & _ & -> & _).
  assert (Hlen : String.length (candidate entropy prefix dt pos k) = 24%nat).
  { unfold candidate. rewrite !length_append, Hp.
    destruct (drawn_suffix_format entropy (pos + 8 * k)) as [-> _].
    destruct (str_digits (timestamp_ms dt) 12) as [-> _]; [|reflexivity].
    change (10 ^ Z.of_nat 12) with 1000000000000.
    change (10 ^ Z.of_nat 13) with 10000000000000.
    assert (Hlow : timestamp_ms 1000000000000000 = 1000000000000)
      by (vm_compute; reflexivity).
    assert (Hhigh : timestamp_ms 9999999999999999 = 9999999999999)
      by (vm_compute; reflexivity).
    pose proof (timestamp_ms_mono 1000000000000000 dt ltac:(lia)).
    pose proof (timestamp_ms_mono dt 9999999999999999 ltac:(lia)).
    lia. }
  rewrite Hlen. split; [reflexivity | lia].
Qed.

Lemma generated_reference_length_witness :
  String.length "TXN1700000000000X4BIPW3A" = 24%nat
  /\ (String.length "TXN1700000000000X4BIPW3A" <= 50)%nat.
Proof.
  apply (generated_reference_length
           sample_entropy "TXN" 1700000000000000
           ["TXN1700000000000DKRY5CJQ"%string] 3%nat 0%nat
           "TXN1700000000000X4BIPW3A" 16%nat).
  - reflexivity.
  - lia.
  - vm_compute. reflexivity.
Defined.

(** ** Validators: sequential characters *)

Lemma sequential_at_Some (s : list ascii) (i : nat) :
  Validators.sequential_at s i = true ->
  (i + 2 < List.length s)%nat.
Proof.
  unfold Validators.sequential_at.
  destruct (nth_error s i); try discriminate.
  destruct (nth_error s (i + 1)); try discriminate.
  destruct (nth_error s (i + 2)) eqn:E; try discriminate.
  intros _. apply nth_error_Some. congruence.
Qed.

(** The loop finds an index exactly when some index has three
    consecutive code points. *)
Lemma has_sequential_chars_iff (password : string) :
  Validators.has_sequential_chars password = true
  <-> exists i,
      Validators.sequential_at
        (Validators.lower (list_ascii_of_string password)) i = true.
Proof.
  unfold Validators.has_sequential_chars. cbv zeta.
  rewrite existsb_exists. split.
  - intros (i & _ & H). now exists i.
  - intros (i & H). exists i. split; [|exact H].
    apply sequential_at_Some in H. apply in_seq. lia.
Qed.

Lemma list_ascii_of_string_append (s1 s2 : string) :
  list_ascii_of_string (s1 ++ s2)
  = list_ascii_of_string s1 ++ list_ascii_of_string s2.
Proof. induction s1 as [|c s1 IH]; cbn; [reflexivity | now rewrite IH]. Qed.

Lemma nth_error_middle (x s y : list ascii) (j : nat) (a : ascii) :
  nth_error s j = Some a ->
  nth_error (x ++ s ++ y) (List.length x + j) = Some a.
Proof.
  intros H. rewrite nth_error_app2 by lia.
  replace (List.length x + j - List.length x)%nat with j by lia.
  rewrite nth_error_app1; [exact H|].
  apply nth_error_Some. congruence.
Qed.

Lemma sequential_at_app (x s y : list ascii) (i : nat) :
  Validators.sequential_at s i = true ->
  Validators.sequential_at (x ++ s ++ y) (List.length x + i) = true.
Proof.
  unfold Validators.sequential_at.
  destruct (nth_error s i) as [a|] eqn:Ea; try discriminate.
  destruct (nth_error s (i + 1)) as [b|] eqn:Eb; try discriminate.
  destruct (nth_error s (i + 2)) as [c|] eqn:Ec; try discriminate.
  intros H.
  rewrite (nth_error_middle x s y i a Ea).
  replace (List.length x + i + 1)%nat with (List.length x + (i + 1))%nat by lia.
  rewrite (nth_error_middle x s y (i + 1) b Eb).
  replace (List.length x + i + 2)%nat with (List.length x + (i + 2))%nat by lia.
  rewrite (nth_error_middle x s y (i + 2) c Ec).
  exact H.
Qed.

(** X12: padding cannot hide a run: when the lowered password contains,
    anywhere, a piece in which three characters follow one another in
    code, the password has sequential characters. *)
Theorem has_sequential_chars_padding
        (password : string) (before piece after : list ascii) (i : nat) :
  Validators.lower (list_ascii_of_string password)
  = before ++ piece ++ after ->
  Validators.sequential_at piece i = true ->
  Validators.has_sequential_chars password = true.
Proof.
  intros Hl H. apply has_sequential_chars_iff.
  exists (List.length before + i)%nat. rewrite Hl.
  now apply sequential_at_app.
Qed.

Lemma has_sequential_chars_padding_witness :
  Validators.has_sequential_chars "Tr0ub4dor&xYz!" = true.
Proof.
  apply (has_sequential_chars_padding
           "Tr0ub4dor&xYz!"
           (list_ascii_of_string "tr0ub4dor&") (list_ascii_of_string "xyz")
           (list_ascii_of_string "!") 0);
    reflexivity.
Defined.

(** X13: only ascending runs are looked for: a password in which no
    character is followed by its successor in code (after lowering), as
    in every descending run such as [cba] or [321], has no sequential
    characters. *)
Theorem has_sequential_chars_ascending_only (password : string) :
  (forall i a b,
      nth_error (Validators.lower (list_ascii_of_string password)) i = Some a ->
      nth_error (Validators.lower (list_ascii_of_string password)) (i + 1)
      = Some b ->
      ord b <> ord a + 1) ->
  Validators.has_sequential_chars password = false.
Proof.
  intros H. apply not_true_is_false. intros Ht.
  apply has_sequential_chars_iff in Ht. destruct Ht as (i & Hi).
  unfold Validators.sequential_at in Hi.
  destruct (nth_error _ i) as [a|] eqn:Ea; try discriminate.
  destruct (nth_error _ (i + 1)) as [b|] eqn:Eb; try discriminate.
  destruct (nth_error _ (i + 2)); try discriminate.
  apply andb_true_iff in Hi. destruct Hi as [Hab _].
  apply Z.eqb_eq in Hab. apply (H i a b Ea Eb). lia.
Qed.

Lemma has_sequential_chars_ascending_only_witness :
  Validators.has_sequential_chars "cba987" = false.
Proof.
  apply has_sequential_chars_ascending_only.
  intros i a b Ha Hb.
  do 6 (destruct i as [|i]; [cbn in Ha, Hb; injection Ha as <-;
                             try injection Hb as <-; try discriminate;
                             vm_compute; discriminate|]).
  cbn in Ha. destruct i; discriminate.
Defined.

(** ** Validators: passwords, account numbers, phone numbers *)

(** X14: the class of special characters leaves out the space, the
    apostrophe, the backquote and the tilde: a password made of letters,
    digits and these four characters only is rejected for having no
    special character, however long it is. *)
Theorem validate_special_class (password : string) :
  (forall c, In c (list_ascii_of_string password) ->
             48 <= ord c <= 57 \/ 65 <= ord c <= 90 \/ 97 <= ord c <= 122
             \/ ord c = 32 \/ ord c = 39 \/ ord c = 96 \/ ord c = 126) ->
  In Validators.NoSpecial (Validators.validate_errors password)
  /\ exists errors, Validators.validate password = inl errors.
Proof.
  intros H.
  assert (Hs : Validators.search_class Validators.is_special password = false).
  { unfold Validators.search_class. apply not_true_is_false. intros Ht.
    apply existsb_exists in Ht. destruct Ht as (c & Hc & Hsp).
    specialize (H c Hc). unfold Validators.is_special in Hsp.
    apply existsb_exists in Hsp. destruct Hsp as (k & Hk & E).
    apply Z.eqb_eq in E. unfold Validators.special_code_points in Hk.
    cbn [In] in Hk. lia. }
  assert (Hin : In Validators.NoSpecial (Validators.validate_errors password)).
  { unfold Validators.validate_errors. rewrite Hs. cbn [negb].
    rewrite !in_app_iff. do 4 right. left. now left. }
  split; [exact Hin|].
  unfold Validators.validate.
  destruct (Validators.validate_errors password) as [|e errors];
    [contradiction | now exists (e :: errors)].
Qed.

Lemma validate_special_class_witness :
  In Validators.NoSpecial
     (Validators.validate_errors "Correct Horse 'Battery' ~Staple~ 2024").
Proof.
  apply validate_special_class.
  intros c Hc. cbn in Hc.
  repeat (destruct Hc as [<-|Hc]; [vm_compute; intuition congruence|]).
  contradiction.
Defined.

Lemma three_distinct (a b c : ascii) (l : list ascii) :
  a <> b -> a <> c -> b <> c ->
  (3 <= List.length (nodup ascii_dec (a :: b :: c :: l)))%nat.
Proof.
  intros Hab Hac Hbc.
  change 3%nat with (List.length [a; b; c]).
  apply NoDup_incl_length.
  - repeat constructor; cbn; intuition congruence.
  - intros x Hx. apply nodup_In. cbn in *. intuition.
Qed.

(** X15: the numbers the model generates do not pass the validator as it
    is built by default: an account number that
    [generate_account_number] returns has 13 digits, so
    [AccountNumberValidator()] with its default length of 10 rejects it
    for its length, while [AccountNumberValidator(13)] accepts it. *)
Theorem generated_account_number_validation
        (entropy : nat -> Z) (table : list Accounts.BankAccount)
        (fuel pos : nat) (number : string) (pos' : nat) :
  Accounts.generate_account_number entropy table fuel pos = Ok (number, pos') ->
  Validators.AccountNumberValidator 10 number = inl Validators.WrongLength
  /\ Validators.AccountNumberValidator 13 number = inr tt.
Proof.
  intros H. apply generate_account_number_iff in H.
  destruct H as (k & _ & -> & _).
  destruct (drawn_account_number_format entropy (pos + k)) as [Hlen Hdig].
  assert (Hd : Validators.isdigit (drawn_account_number entropy (pos + k))
               = true).
  { unfold Validators.isdigit. apply andb_true_iff. split; [reflexivity|].
    apply forallb_forall. intros c Hc.
    unfold Validators.isdigit_char.
    rewrite (proj1 (Forall_forall _ _) Hdig c Hc). reflexivity. }
  unfold Validators.AccountNumberValidator. rewrite Hd, Hlen. cbn [negb Nat.eqb].
  split; [reflexivity|].
  replace (List.length
             (nodup ascii_dec
                    (list_ascii_of_string
                       (drawn_account_number entropy (pos + k)))) <? 3)%nat
    with false; [reflexivity|].
  symmetry. apply Nat.ltb_ge. unfold drawn_account_number.
  cbn [append list_ascii_of_string]. apply three_distinct; discriminate.
Qed.

Lemma generated_account_number_validation_witness :
  Validators.AccountNumberValidator 10 "2091000000003"
  = inl Validators.WrongLength
  /\ Validators.AccountNumberValidator 13 "2091000000003" = inr tt.
Proof.
  apply (generated_account_number_validation
           sample_entropy [] 2%nat 0%nat "2091000000003" 1%nat).
  vm_compute. reflexivity.
Defined.

(** X16: [PhoneNumberValidator] accepts a value exactly when it holds
    between 10 and 15 decimal digits and starts with [+] or [0]; what
    stands between the digits (letters, spaces, punctuation) plays no
    part. *)
Theorem PhoneNumberValidator_accepts (value : string) :
  Validators.PhoneNumberValidator value = inr tt
  <-> (10 <= List.length (filter is_decimal (list_ascii_of_string value))
       <= 15)%nat
      /\ (Validators.startswith value "+" = true
          \/ Validators.startswith value "0" = true).
Proof.
  unfold Validators.PhoneNumberValidator, Validators.clean_number.
  cbv zeta.
  set (n := List.length (filter is_decimal (list_ascii_of_string value))).
  destruct (Nat.eqb_spec n 0); [split; [discriminate | lia]|].
  destruct (Nat.ltb_spec n 10); [split; [discriminate | lia]|].
  destruct (Nat.ltb_spec 15 n); [split; [discriminate | lia]|].
  destruct (Validators.startswith value "+");
    destruct (Validators.startswith value "0"); cbn [orb negb];
    (split; [intros E | intros [_ [Hs|Hs]]]);
    try reflexivity; try discriminate E; try discriminate Hs;
    (split; [lia | auto]).
Qed.

(** A value with letters between its twelve digits. *)
Lemma PhoneNumberValidator_accepts_witness :
  Validators.PhoneNumberValidator "+12345 abc 6789012" = inr tt.
Proof.
  apply (proj2 (PhoneNumberValidator_accepts "+12345 abc 6789012")).
  split; [cbn; lia | left; reflexivity].
Defined.

(** ** The pattern of [User.phone_number] *)

Lemma repeat_class (class : ascii -> bool) (hi lo : nat)
      (s rest : list ascii) :
  In rest (Re.repeat_matches (Re.matches (Re.Class class)) hi lo s)
  <-> exists ds,
      s = ds ++ rest /\ forallb class ds = true
      /\ (lo <= List.length ds <= hi)%nat.
Proof.
  revert lo s. induction hi as [|hi IH]; intros lo s.
  - cbn [Re.repeat_matches]. destruct (Nat.eqb_spec lo 0) as [->|Hlo].
    + cbn [In]. split.
      * intros [<-|[]]. exists []. cbn. repeat split; lia.
      * intros (ds & -> & _ & Hlen). destruct ds; [now left | cbn in Hlen; lia].
    + cbn [In]. split; [tauto|]. intros (ds & _ & _ & Hlen). lia.
  - cbn [Re.repeat_matches]. rewrite in_app_iff, in_flat_map. split.
    + intros [(s' & Hs' & Hin)|Hin].
      * cbn [Re.matches] in Hs'. destruct s as [|c s0]; [contradiction|].
        destruct (class c) eqn:Hc; [|contradiction].
        destruct Hs' as [<-|[]].
        apply IH in Hin. destruct Hin as (ds & -> & Hall & Hlen).
        exists (c :: ds). cbn. rewrite Hc, Hall. repeat split; lia.
      * destruct (Nat.eqb_spec lo 0) as [->|_]; [|contradiction].
        destruct Hin as [<-|[]]. exists []. cbn. repeat split; lia.
    + intros (ds & -> & Hall & Hlen). destruct ds as [|c ds].
      * right. destruct (Nat.eqb_spec lo 0); [now left | cbn in Hlen; lia].
      * left. cbn in Hall. apply andb_true_iff in Hall.
        destruct Hall as [Hc Hall].
        exists (ds ++ rest). split.
        -- cbn. rewrite Hc. now left.
        -- apply IH. exists ds. cbn in Hlen. repeat split; auto; lia.
Qed.

Lemma opt_char (x : ascii) (s s1 : list ascii) :
  In s1 (Re.matches (Re.Opt (Re.Class (Ascii.eqb x))) s)
  <-> s = x :: s1 \/ s1 = s.
Proof.
  cbn [Re.matches]. rewrite in_app_iff. cbn [In]. split.
  - intros [H|[<-|[]]]; [|now right].
    destruct s as [|c s0]; [contradiction|].
    destruct (Ascii.eqb_spec x c) as [->|_]; [|contradiction].
    destruct H as [<-|[]]. now left.
  - intros [-> | ->]; [left | right; now left].
    rewrite Ascii.eqb_refl. now left.
Qed.

Lemma dollar_matches (s rest : list ascii) :
  In rest (Re.matches Re.Dollar s)
  <-> rest = s /\ (s = [] \/ exists c, s = [c] /\ ord c = 10).
Proof.
  cbn [Re.matches]. destruct s as [|c [|c' s]].
  - cbn. split; [intros [<-|[]]; auto | intros [-> _]; auto].
  - destruct (Z.eqb_spec (ord c) 10) as [E|E]; cbn; split.
    + intros [<-|[]]. split; [reflexivity|]. right. now exists c.
    + intros [-> _]. now left.
    + tauto.
    + intros [_ [H|(c0 & [= <-] & H)]]; [discriminate | contradiction].
  - cbn. split; [tauto|].
    intros [_ [H|(c0 & H & _)]]; discriminate.
Qed.

(** X17: the pattern of [User.phone_number] accepts exactly an optional
    [+], then decimal digits, then an optional final newline, where the
    digits number 9 to 15, or 16 when the first of them is [1]: one digit
    more than the 15 the message speaks of, and a trailing newline, pass
    the validator. *)
Theorem phone_number_valid_iff (value : string) :
  phone_number_valid value = true
  <-> exists sign digits newline,
      list_ascii_of_string value = sign ++ digits ++ newline
      /\ (sign = [] \/ sign = ["+"%char])
      /\ (newline = [] \/ exists c, newline = [c] /\ ord c = 10)
      /\ forallb is_decimal digits = true
      /\ ((9 <= List.length digits <= 15)%nat
          \/ (List.length digits = 16%nat
              /\ exists rest, digits = "1"%char :: rest)).
Proof.
  unfold phone_number_valid, Re.search_at_start, phone_number_regex.
  set (s := list_ascii_of_string value).
  set (tail := Re.Seq (Re.Repeat 9 15 (Re.Class is_decimal)) Re.Dollar).
  set (after_sign := Re.Seq (Re.Opt (Re.Class (Ascii.eqb "1"))) tail).
  assert (Htail : forall s2 rest,
             In rest (Re.matches tail s2)
             <-> exists ds,
                 s2 = ds ++ rest /\ forallb is_decimal ds = true
                 /\ (9 <= List.length ds <= 15)%nat
                 /\ (rest = [] \/ exists c, rest = [c] /\ ord c = 10)).
  { intros s2 rest. unfold tail. cbn [Re.matches]. rewrite in_flat_map.
    split.
    - intros (s3 & H3 & Hd). apply repeat_class in H3.
      apply dollar_matches in Hd. destruct Hd as [-> Hend].
      destruct H3 as (ds & -> & Hall & Hlen). now exists ds.
    - intros (ds & -> & Hall & Hlen & Hend). exists rest. split.
      + apply repeat_class. now exists ds.
      + apply dollar_matches. now split. }
  split.
  - intros H.
    destruct (Re.matches (Re.Seq (Re.Opt (Re.Class (Ascii.eqb "+"))) after_sign) s)
      as [|rest others] eqn:E; [discriminate|].
    assert (Hin : In rest (Re.matches
                             (Re.Seq (Re.Opt (Re.Class (Ascii.eqb "+")))
                                     after_sign) s))
      by (rewrite E; now left).
    cbn [Re.matches] in Hin. fold (Re.matches after_sign) in Hin.
    apply in_flat_map in Hin. destruct Hin as (s1 & H1 & Hin).
    change (Re.matches (Re.Class (Ascii.eqb "+")) s ++ [s])
      with (Re.matches (Re.Opt (Re.Class (Ascii.eqb "+"))) s) in H1.
    apply opt_char in H1.
    unfold after_sign in Hin. cbn [Re.matches] in Hin.
    fold (Re.matches tail) in Hin.
    apply in_flat_map in Hin. destruct Hin as (s2 & H2 & Hin).
    change (Re.matches (Re.Class (Ascii.eqb "1")) s1 ++ [s1])
      with (Re.matches (Re.Opt (Re.Class (Ascii.eqb "1"))) s1) in H2.
    apply opt_char in H2. apply Htail in Hin.
    destruct Hin as (ds & Hs2 & Hall & Hlen & Hend).
    assert (Hbody : exists digits,
               s1 = digits ++ rest /\ forallb is_decimal digits = true
               /\ ((9 <= List.length digits <= 15)%nat
                   \/ (List.length digits = 16%nat
                       /\ exists r, digits = "1"%char :: r))).
    { destruct H2 as [->| ->].
      - exists ("1"%char :: ds). rewrite Hs2. cbn [app forallb List.length].
        rewrite Hall. repeat split.
        destruct (Nat.eq_dec (List.length ds) 15) as [E15|N15].
        + right. split; [lia | now exists ds].
        + left. lia.
      - exists ds. repeat split; auto. }
    destruct Hbody as (digits & Hs1 & Hdig & Hcount).
    destruct H1 as [Hs| ->].
    + exists ["+"%char], digits, rest. rewrite Hs, Hs1. repeat split; auto.
    + exists [], digits, rest. rewrite Hs1. repeat split; auto.
  - intros (sign & digits & newline & Hs & Hsign & Hnl & Hdig & Hcount).
    assert (Hin : In newline
                     (Re.matches
                        (Re.Seq (Re.Opt (Re.Class (Ascii.eqb "+")))
                                after_sign) s)).
    { cbn [Re.matches]. fold (Re.matches after_sign).
      apply in_flat_map. exists (digits ++ newline). split.
      - change (Re.matches (Re.Class (Ascii.eqb "+")) s ++ [s])
          with (Re.matches (Re.Opt (Re.Class (Ascii.eqb "+"))) s).
        apply opt_char. rewrite Hs. destruct Hsign as [->| ->]; cbn; auto.
      - unfold after_sign. cbn [Re.matches]. fold (Re.matches tail).
        apply in_flat_map.
        destruct Hcount as [Hlen|[Hlen (r & ->)]].
        + exists (digits ++ newline). split.
          * change (Re.matches (Re.Class (Ascii.eqb "1")) (digits ++ newline)
                    ++ [digits ++ newline])
              with (Re.matches (Re.Opt (Re.Class (Ascii.eqb "1")))
                               (digits ++ newline)).
            apply opt_char. now right.
          * apply Htail. now exists digits.
        + exists (r ++ newline). split.
          * change (Re.matches (Re.Class (Ascii.eqb "1"))
                               (("1"%char :: r) ++ newline)
                    ++ [("1"%char :: r) ++ newline])
              with (Re.matches (Re.Opt (Re.Class (Ascii.eqb "1")))
                               (("1"%char :: r) ++ newline)).
            apply opt_char. now left.
          * apply Htail. exists r. cbn in Hdig, Hlen.
            repeat split; auto; lia. }
    destruct (Re.matches (Re.Seq (Re.Opt (Re.Class (Ascii.eqb "+"))) after_sign) s);
      [contradiction | reflexivity].
Qed.

(** Sixteen digits after the sign, the first of them 1. *)
Lemma phone_number_valid_iff_witness :
  phone_number_valid "+1234567890123456" = true.
Proof.
  apply (proj2 (phone_number_valid_iff "+1234567890123456")).
  exists ["+"%char],
         (list_ascii_of_string "1234567890123456"),
         [].
  repeat split.
  - now right.
  - now left.
  - right. split; [reflexivity|].
    now exists (list_ascii_of_string "234567890123456").
Defined.

(** ** Validators: amounts *)

(** X18: the default minimum of [AmountValidator] is the float [0.01],
    which lies above one hundredth: with the defaults, every amount the
    validator accepts is at least 0.02, and [Decimal("0.01")] itself is
    rejected as below the minimum. *)
Theorem AmountValidator_default_minimum (value : Amounts.PyDecimal) :
  (Amounts.AmountValidator Amounts.float_0_01 None value = inr tt ->
   (2 # 100 <= Amounts.to_Q value)%Q)
  /\ Amounts.AmountValidator
       Amounts.float_0_01 None
       {| Amounts.coefficient := 1; Amounts.exponent := -2 |}
     = inl Amounts.BelowMinimum.
Proof.
  split; [|reflexivity].
  destruct value as [c e].
  unfold Amounts.AmountValidator, Amounts.le, Amounts.lt.
  destruct (Qle_bool (Amounts.to_Q _) 0) eqn:E1; [discriminate|].
  destruct (Qle_bool Amounts.float_0_01 (Amounts.to_Q _)) eqn:E2;
    [|discriminate].
  cbn [negb Amounts.exponent].
  destruct (Z.ltb_spec e (-2)) as [|He]; [discriminate|]. intros _.
  apply Qle_bool_iff in E2.
  unfold Amounts.to_Q in *. cbn [Amounts.exponent Amounts.coefficient] in *.
  destruct (Z.leb_spec 0 e) as [Hpos|Hneg].
  - set (z := c * 10 ^ e) in *. unfold Qle, Amounts.float_0_01 in *.
    cbn in *. lia.
  - assert (He' : e = -1 \/ e = -2) by lia.
    destruct He' as [-> | ->]; unfold Qle, Amounts.float_0_01 in *;
      cbn in *; lia.
Qed.

(** [Decimal("0.02")] passes. *)
Lemma AmountValidator_default_minimum_witness :
  (2 # 100 <= Amounts.to_Q {| Amounts.coefficient := 2;
                              Amounts.exponent := -2 |})%Q.
Proof.
  apply (proj1 (AmountValidator_default_minimum
                  {| Amounts.coefficient := 2; Amounts.exponent := -2 |})).
  reflexivity.
Defined.

(** ** Users: authentication *)

Section AuthenticateFacts.
Variable check_password : Users.User -> string -> bool.
Variable table : list Users.User.
Variable now : datetime.

Lemma objects_get_Found (lookup : Users.User -> bool) (user : Users.User) :
  Users.objects_get lookup table = Users.Found user ->
  In user table /\ lookup user = true.
Proof.
  unfold Users.objects_get.
  destruct (filter lookup table) as [|u [|u' rest]] eqn:E; try discriminate.
  intros [= ->]. apply filter_In. rewrite E. now left.
Qed.

Lemma user_can_authenticate_iff (user : Users.User) :
  Users.user_can_authenticate user now = true
  <-> Users.is_active user = true
      /\ (forall until, Users.account_locked_until user = Some until ->
                        until <= now).
Proof.
  unfold Users.user_can_authenticate, Users.is_account_locked, Users.truthy.
  destruct (Users.is_active user); cbn [negb].
  - destruct (Users.account_locked_until user) as [until|].
    + destruct (Z.ltb_spec now until); split; try discriminate.
      * intros [_ H']. specialize (H' until eq_refl). lia.
      * intros _. split; [reflexivity|]. intros u [= <-]. lia.
      * intros _. reflexivity.
    + split; [|reflexivity]. intros _. split; [reflexivity|]. discriminate.
  - split; [discriminate | intros [H _]; discriminate H].
Qed.
End AuthenticateFacts.

(** X19: [EmailBackend.authenticate] never hands out a user that is
    inactive or locked: a user it returns is a stored user with that
    e-mail address whose password checks, who is active, and whose lock,
    if one is set, ends at or before the current time (the lock holds
    only while [account_locked_until] is strictly later than now). *)
Theorem authenticate_sound
        (check_password : Users.User -> string -> bool)
        (table : list Users.User) (now : datetime)
        (username password : string) (user : Users.User) :
  Users.authenticate check_password table now username password
  = Some (Some user) ->
  In user table
  /\ Users.email user = username
  /\ check_password user password = true
  /\ Users.is_active user = true
  /\ (forall until, Users.account_locked_until user = Some until ->
                    until <= now).
Proof.
  unfold Users.authenticate.
  destruct (Users.objects_get _ table) as [u| |] eqn:E; try discriminate.
  destruct (check_password u password) eqn:Hp; cbn [andb]; try discriminate.
  destruct (Users.user_can_authenticate u now) eqn:Hc; try discriminate.
  intros [= <-].
  apply objects_get_Found in E. destruct E as [Hin He].
  apply String.eqb_eq in He. apply user_can_authenticate_iff in Hc.
  destruct Hc as [Ha Hl]. repeat split; auto.
Qed.

Lemma authenticate_sound_witness :
  In (sample_user 7 "ada@example.org" true None) sample_users
  /\ Users.email (sample_user 7 "ada@example.org" true None)
     = "ada@example.org"%string
  /\ sample_check_password (sample_user 7 "ada@example.org" true None)
                           "correct horse" = true
  /\ Users.is_active (sample_user 7 "ada@example.org" true None) = true
  /\ (forall until,
        Users.account_locked_until (sample_user 7 "ada@example.org" true None)
        = Some until -> until <= noon 20000).
Proof.
  apply (authenticate_sound sample_check_password sample_users (noon 20000)
                            "ada@example.org" "correct horse").
  reflexivity.
Defined.

(** X20: for the one stored user with the given e-mail address,
    [authenticate] answers by the password, the active flag and the
    lock: an inactive user, and a user locked until a time later than
    now, get [None] even with the right password; once
    [account_locked_until] is reached the right password logs the user
    in again, the lock being lifted by the passing of time alone. *)
Theorem authenticate_locked
        (check_password : Users.User -> string -> bool)
        (table : list Users.User) (now : datetime)
        (username password : string) (user : Users.User) :
  filter (fun u => String.eqb (Users.email u) username) table = [user] ->
  (Users.is_active user = false
   \/ (exists until, Users.account_locked_until user = Some until
                     /\ now < until) ->
   Users.authenticate check_password table now username password = Some None)
  /\ (check_password user password = true ->
      Users.is_active user = true ->
      (forall until, Users.account_locked_until user = Some until ->
                     until <= now) ->
      Users.authenticate check_password table now username password
      = Some (Some user)).
Proof.
  intros Hf. unfold Users.authenticate, Users.objects_get. rewrite Hf.
  split.
  - intros H.
    replace (Users.user_can_authenticate user now) with false;
      [now rewrite andb_false_r|].
    symmetry. apply not_true_is_false. intros Hc.
    apply user_can_authenticate_iff in Hc. destruct Hc as [Ha Hl].
    destruct H as [H|(until & Hu & Hlt)]; [congruence|].
    specialize (Hl until Hu). lia.
  - intros Hp Ha Hl. rewrite Hp.
    rewrite (proj2 (user_can_authenticate_iff now user) (conj Ha Hl)).
    reflexivity.
Qed.

(** The locked user of the sample, before and after the lock ends. *)
Lemma authenticate_locked_witness :
  Users.authenticate sample_check_password sample_users (noon 20000)
                     "bob@example.org" "correct horse" = Some None
  /\ Users.authenticate sample_check_password sample_users (noon 20001)
                        "bob@example.org" "correct horse"
     = Some (Some (sample_user 8 "bob@example.org" true (Some (noon 20001)))).
Proof.
  split.
  - apply (authenticate_locked
             sample_check_password sample_users (noon 20000)
             "bob@example.org" "correct horse"
             (sample_user 8 "bob@example.org" true (Some (noon 20001)))).
    + reflexivity.
    + right. exists (noon 20001). split; [reflexivity|].
      unfold noon. lia.
  - apply (authenticate_locked
             sample_check_password sample_users (noon 20001)
             "bob@example.org" "correct horse"
             (sample_user 8 "bob@example.org" true (Some (noon 20001)))).
    + reflexivity.
    + reflexivity.
    + reflexivity.
    + intros t [= <-]. lia.
Defined.

(** X25: [EmailBackend.get_user], which restores the user of a
    session, returns only a stored user with that key who is active and
    not locked at the time of the request: a session of a user who has
    been deactivated or locked since is not restored. *)
Theorem get_user_sound
        (table : list Users.User) (now : datetime)
        (user_id : Z) (user : Users.User) :
  Users.get_user table now user_id = Some (Some user) ->
  In user table
  /\ Users.id user = user_id
  /\ Users.is_active user = true
  /\ (forall locked, Users.account_locked_until user = Some locked ->
                     locked <= now).
Proof.
  unfold Users.get_user.
  destruct (Users.objects_get _ table) as [u| |] eqn:E; try discriminate.
  destruct (Users.user_can_authenticate u now) eqn:Hc; try discriminate.
  intros [= <-].
  apply objects_get_Found in E. destruct E as [Hin He].
  apply Z.eqb_eq in He. apply user_can_authenticate_iff in Hc.
  destruct Hc as [Ha Hl]. repeat split; auto.
Qed.

Lemma get_user_sound_witness :
  In (sample_user 7 "ada@example.org" true None) sample_users
  /\ Users.id (sample_user 7 "ada@example.org" true None) = 7
  /\ Users.is_active (sample_user 7 "ada@example.org" true None) = true
  /\ (forall locked,
        Users.account_locked_until (sample_user 7 "ada@example.org" true None)
        = Some locked -> locked <= noon 20000).
Proof.
  apply (get_user_sound sample_users (noon 20000) 7).
  reflexivity.
Defined.

(** ** Payments: the display name *)

Lemma substring_all (s : string) (m : nat) :
  (String.length s <= m)%nat -> substring 0 m s = s.
Proof.
  revert m. induction s as [|c s IH]; intros [|m] H; cbn in *;
    try reflexivity; try lia.
  rewrite IH by lia. reflexivity.
Qed.

Lemma substring_suffix (s : string) (k m : nat) :
  (k <= String.length s)%nat -> (String.length s - k <= m)%nat ->
  exists hidden,
    s = (hidden ++ substring k m s)%string /\ String.length hidden = k.
Proof.
  revert k. induction s as [|c s IH]; intros k Hk Hm.
  - cbn in Hk. assert (k = 0%nat) by lia. subst k.
    exists EmptyString. destruct m; split; reflexivity.
  - destruct k as [|k].
    + exists EmptyString. split; [|reflexivity].
      cbn [append]. now rewrite substring_all by (cbn in *; lia).
    + destruct (IH k) as (hidden & Hs & Hl); [cbn in Hk; lia | cbn in Hm; lia|].
      exists (String c hidden). cbn [substring append String.length].
      split; [now rewrite <- Hs | now rewrite Hl].
Qed.

(** X21: the display name of a bank transfer method masks the account
    number: it is the bank name, four asterisks and the last four
    characters of the account number, the characters before them being
    left out; an account number of four characters or fewer is shown in
    full. *)
Theorem get_display_name_masks (self : Payments.PaymentMethod) :
  Payments.method_type self = "BANK_TRANSFER"%string ->
  Payments.account_number self <> ""%string ->
  exists hidden shown,
    Payments.account_number self = (hidden ++ shown)%string
    /\ String.length shown
       = Nat.min 4 (String.length (Payments.account_number self))
    /\ Payments.get_display_name self
       = (Payments.bank_name self ++ " ****" ++ shown)%string.
Proof.
  intros Hty Hacc.
  set (s := Payments.account_number self) in *.
  destruct (substring_suffix s (String.length s - 4) 4) as (hidden & Hs & Hl);
    [lia | lia |].
  exists hidden, (Payments.last4 s). unfold Payments.last4.
  split; [exact Hs|]. split.
  - apply (f_equal String.length) in Hs. rewrite length_append, Hl in Hs. lia.
  - unfold Payments.get_display_name. rewrite Hty. cbn [String.eqb andb].
    fold s. destruct s; [congruence | reflexivity].
Qed.

Lemma get_display_name_masks_witness :
  exists hidden shown,
    "0123456789"%string = (hidden ++ shown)%string
    /\ String.length shown = Nat.min 4 (String.length "0123456789")
    /\ Payments.get_display_name
         {| Payments.method_type := "BANK_TRANSFER";
            Payments.card_last4 := "";
            Payments.card_brand := "";
            Payments.bank_name := "First Bank";
            Payments.account_number := "0123456789";
            Payments.nickname := "" |}
       = ("First Bank" ++ " ****" ++ shown)%string.
Proof.
  apply (get_display_name_masks
           {| Payments.method_type := "BANK_TRANSFER";
              Payments.card_last4 := "";
              Payments.card_brand := "";
              Payments.bank_name := "First Bank";
              Payments.account_number := "0123456789";
              Payments.nickname := "" |}).
  - reflexivity.
  - discriminate.
Defined.

(** ** Gift cards: the offered price *)

(** X22: [calculate_offered_price] cannot return: the rate read from the
    card type is a [Decimal] and every entry of the table of adjustments,
    the default included, is a float, so the product raises [TypeError]
    for every card and every condition, and no offered price is
    assigned. *)
Theorem calculate_offered_price_raises (self : GiftCards.GiftCard) :
  GiftCards.calculate_offered_price self = Raise TypeError.
Proof.
  unfold GiftCards.calculate_offered_price, GiftCards.condition_adjustment.
  cbv zeta.
  repeat match goal with
         | |- context [String.eqb ?a ?b] => destruct (String.eqb a b)
         end; reflexivity.
Qed.

(** ** Transactions: the status predicates, continued *)

(** X23: the status predicates exclude one another: a transaction is at
    most one of completed, pending and failed; it is never both
    cancellable and reversible; a pending transaction can be cancelled
    and not reversed, a completed one reversed and not cancelled, and a
    failed one neither. *)
Theorem status_predicates_exclusive (t : Transactions.Transaction) :
  (Transactions.can_be_cancelled t && Transactions.can_be_reversed t = false)
  /\ (Transactions.is_completed t && Transactions.is_pending t = false)
  /\ (Transactions.is_completed t && Transactions.is_failed t = false)
  /\ (Transactions.is_pending t && Transactions.is_failed t = false)
  /\ Transactions.can_be_reversed t = Transactions.is_completed t
  /\ (Transactions.is_pending t = true ->
      Transactions.can_be_cancelled t = true)
  /\ (Transactions.is_failed t = true ->
      Transactions.can_be_cancelled t = false
      /\ Transactions.can_be_reversed t = false).
Proof.
  unfold Transactions.can_be_cancelled, Transactions.can_be_reversed,
    Transactions.is_completed, Transactions.is_pending,
    Transactions.is_failed, in_.
  cbn [existsb]. rewrite orb_false_r.
  destruct (String.eqb_spec (Transactions.status t) "COMPLETED") as [->|_];
    [cbn; repeat split; discriminate|].
  destruct (String.eqb_spec (Transactions.status t) "PENDING") as [->|_];
    [cbn; repeat split; discriminate|].
  destruct (String.eqb_spec (Transactions.status t) "FAILED") as [->|_];
    [cbn; repeat split; discriminate|].
  rewrite ?andb_false_r. cbn. repeat split; try discriminate.
Qed.

(** ** Users: the full name *)

Lemma lstrip_all_space (s : list ascii) :
  forallb Users.isspace s = true -> Users.lstrip s = [].
Proof.
  induction s as [|c s IH]; cbn; [reflexivity|].
  intros H. apply andb_true_iff in H. destruct H as [-> H]. now apply IH.
Qed.

Lemma lstrip_snoc_space (s : list ascii) (sp : ascii) :
  Users.isspace sp = true ->
  Users.lstrip (s ++ [sp])
  = if forallb Users.isspace s then [] else Users.lstrip s ++ [sp].
Proof.
  intros Hsp. induction s as [|c s IH]; cbn.
  - now rewrite Hsp.
  - destruct (Users.isspace c); cbn [andb]; [exact IH | reflexivity].
Qed.

Lemma rstrip_snoc_space (s : list ascii) (sp : ascii) :
  Users.isspace sp = true -> Users.rstrip (s ++ [sp]) = Users.rstrip s.
Proof.
  intros Hsp. unfold Users.rstrip. rewrite rev_app_distr. cbn.
  now rewrite Hsp.
Qed.

Lemma strip_snoc_space (s : list ascii) (sp : ascii) :
  Users.isspace sp = true -> Users.strip (s ++ [sp]) = Users.strip s.
Proof.
  intros Hsp. unfold Users.strip. rewrite (lstrip_snoc_space s sp Hsp).
  destruct (forallb Users.isspace s) eqn:E.
  - now rewrite (lstrip_all_space s E).
  - now apply rstrip_snoc_space.
Qed.

(** X24: the separating space of [full_name] does not show when a name
    is missing: with an empty last name the full name is the stripped
    first name, with an empty first name the stripped last name, and
    with both empty it is empty. *)
Theorem full_name_one_name (self : Users.User) :
  (Users.last_name self = ""%string ->
   Users.full_name self
   = string_of_list_ascii
       (Users.strip (list_ascii_of_string (Users.first_name self))))
  /\ (Users.first_name self = ""%string ->
      Users.full_name self
      = string_of_list_ascii
          (Users.strip (list_ascii_of_string (Users.last_name self)))).
Proof.
  unfold Users.full_name. split; intros ->.
  - rewrite list_ascii_of_string_append. cbn [append list_ascii_of_string].
    now rewrite strip_snoc_space.
  - reflexivity.
Qed.

Lemma full_name_one_name_witness :
  Users.full_name (sample_user 7 "ada@example.org" true None) = "Ada"%string.
Proof.
  rewrite (proj1 (full_name_one_name
                    (sample_user 7 "ada@example.org" true None)) eq_refl).
  reflexivity.
Defined.

(** ** The reference generator: successive references *)

Lemma generate_reference_fresh
      (entropy : nat -> Z) (prefix : string) (created_at : option datetime)
      (stored : list string) (fuel pos : nat) (r : string) (pos' : nat) :
  generate_reference entropy prefix created_at stored fuel pos = Ok (r, pos') ->
  ~ In r stored.
Proof.
  intros H Hin. destruct created_at as [dt|].
  - apply generate_reference_Some in H.
    destruct H as (k & _ & _ & Hnew & _).
    unfold reference_exists in Hnew.
    assert (existsb (String.eqb r) stored = true); [|congruence].
    apply existsb_exists. exists r. split; [exact Hin | apply String.eqb_refl].
  - rewrite generate_reference_None in H. destruct fuel; discriminate.
Qed.

(** X26: references generated one after the other, each stored before
    the next is generated, are pairwise different and different from
    every reference that was stored before, whatever the random draws
    and the creation times are. *)
Theorem generate_references_distinct
        (entropy : nat -> Z) (prefix : string)
        (rows : list (option datetime)) (stored : list string)
        (fuel pos : nat) (refs : list string) (pos' : nat) :
  generate_references entropy prefix rows stored fuel pos = Ok (refs, pos') ->
  NoDup refs
  /\ (forall r, In r refs -> ~ In r stored)
  /\ List.length refs = List.length rows.
Proof.
  revert stored pos refs pos'.
  induction rows as [|created_at rest IH]; intros stored pos refs pos'.
  - cbn. unfold ret. intros [= <- <-]. repeat split; [constructor | tauto].
  - cbn [generate_references]. unfold bind at 1.
    destruct (generate_reference entropy prefix created_at stored fuel pos)
      as [[r p]| |] eqn:Hg; try discriminate.
    unfold bind at 1.
    destruct (generate_references entropy prefix rest (r :: stored) fuel p)
      as [[more p']| |] eqn:Hm; try discriminate.
    unfold ret. intros [= <- <-].
    destruct (IH _ _ _ _ Hm) as (Hnd & Hfresh & Hlen).
    pose proof (generate_reference_fresh _ _ _ _ _ _ _ _ Hg) as Hr.
    repeat split.
    + constructor; [|exact Hnd].
      intros Hin. apply (Hfresh r Hin). now left.
    + intros x [<-|Hx]; [exact Hr|].
      intros Hs. apply (Hfresh x Hx). now right.
    + cbn. now rewrite Hlen.
Qed.

(** Two references for the same millisecond, against a table that holds
    the first candidate. *)
Lemma generate_references_distinct_witness :
  generate_references
    sample_entropy "TXN"
    [Some 1700000000000000; Some 1700000000000000]
    ["TXN1700000000000DKRY5CJQ"%string] 3%nat 0%nat
  = Ok (["TXN1700000000000X4BIPW3A"; "TXN1700000000000HOV29GNU"]%string,
        24%nat)
  /\ NoDup ["TXN1700000000000X4BIPW3A"; "TXN1700000000000HOV29GNU"]%string.
Proof.
  assert (E : generate_references
                sample_entropy "TXN"
                [Some 1700000000000000; Some 1700000000000000]
                ["TXN1700000000000DKRY5CJQ"%string] 3%nat 0%nat
              = Ok (["TXN1700000000000X4BIPW3A";
                     "TXN1700000000000HOV29GNU"]%string, 24%nat))
    by (vm_compute; reflexivity).
  split; [exact E|].
  apply (generate_references_distinct _ _ _ _ _ _ _ _ E).
Defined.

